(** * The metadata layer of zarr-python: value codec, chunk key encodings,
      metadata document discovery

    A shallow embedding of

    - [src/zarr/_serialization.py]           (module [Serialization]),
    - [src/zarr/core/chunk_key_encodings.py] (module [ChunkKeyEncodings]),
    - [src/zarr/core/metadata/_io.py]        (module [MetadataIO]),
    - [src/zarr/errors.py]                   (the exception classes, in
      [Py.exn]; their hierarchy and messages in module [Errors]),
    - [src/zarr/api/synchronous.py]          (module [Synchronous]: the
      argument handling of [open] and [create]),

    over a model of the Python values and built-ins they use (module
    [Py]), followed by the properties of these functions.

    Python values are a closed universe [pyval]; a raised exception is the
    [Raise] branch of [result].  Integers are unbounded ([Z]), strings are
    ASCII strings, floats and numpy values are not part of the universe. *)

From Stdlib Require Import ZArith Ascii String DecimalString DecimalZ.
From stdpp Require Import base option list strings gmap.

Local Open Scope Z_scope.
#[local] Set Warnings "-register-all".

(** ** Exceptions and the error monad *)

Module Py.

(** The exception classes that the embedded code can raise: Python's
    built-in ones and the classes of [zarr/errors.py]. *)
Inductive exn : Type :=
| TypeError
| ValueError
| KeyError
| AttributeError
| AssertionError
| StopIteration
| RecursionError
| Exception_                    (* a bare [Exception(...)] *)
| ContainsGroupError
| ContainsArrayError
| ContainsArrayAndGroupError
| MetadataValidationError
| ZarrVersionValidationError
| NodeTypeValidationError.

Inductive result (A : Type) : Type :=
| Ok (a : A)
| Raise (e : exn).
Arguments Ok {A} a.
Arguments Raise {A} e.

#[export] Instance result_ret : MRet result := fun _ a => Ok a.
#[export] Instance result_bind : MBind result := fun _ _ f m =>
  match m with Ok a => f a | Raise e => Raise e end.
#[export] Instance result_fmap : FMap result := fun _ _ f m =>
  match m with Ok a => Ok (f a) | Raise e => Raise e end.

Definition is_Ok {A} (r : result A) : bool :=
  match r with Ok _ => true | Raise _ => false end.

(** ** Python values *)

Inductive pyval : Type :=
| VNone
| VBool (b : bool)
| VInt (z : Z)
| VStr (s : string)
| VList (xs : list pyval)
| VTuple (xs : list pyval)
| VSet (xs : list pyval)                      (* elements in iteration order *)
| VDict (items : list (string * pyval))       (* str keys, insertion order *)
| VEnum (cls member : string) (value : pyval) (* a member of an [enum.Enum] *)
| VObj (cls : string) (attrs : list (string * pyval)). (* a dataclass instance *)

(** *** Dictionaries with [str] keys *)

Fixpoint dict_get {A} (d : list (string * A)) (k : string) : option A :=
  match d with
  | [] => None
  | (k', v) :: d' => if String.eqb k' k then Some v else dict_get d' k
  end.

(** [d[k] = v]: replaces in place, or appends a new key. *)
Fixpoint dict_set {A} (d : list (string * A)) (k : string) (v : A)
  : list (string * A) :=
  match d with
  | [] => [(k, v)]
  | (k', v') :: d' =>
      if String.eqb k' k then (k', v) :: d' else (k', v') :: dict_set d' k v
  end.

(** [d[k]], raising [KeyError]. *)
Definition dict_getitem {A} (d : list (string * A)) (k : string) : result A :=
  match dict_get d k with Some v => Ok v | None => Raise KeyError end.

(** *** [==] *)

Definition Z_of_bool (b : bool) : Z := if b then 1 else 0.

Section eq_lists.
Context (eq : pyval → pyval → bool).

Fixpoint eq_seq (xs ys : list pyval) : bool :=
  match xs, ys with
  | [], [] => true
  | x :: xs', y :: ys' => eq x y && eq_seq xs' ys'
  | _, _ => false
  end.

Fixpoint eq_attrs (xs ys : list (string * pyval)) : bool :=
  match xs, ys with
  | [], [] => true
  | (_, x) :: xs', (_, y) :: ys' => eq x y && eq_attrs xs' ys'
  | _, _ => false
  end.

(** every item of [xs] is an item of the dict [ys] *)
Fixpoint items_in (xs ys : list (string * pyval)) : bool :=
  match xs with
  | [] => true
  | (k, x) :: xs' =>
      match dict_get ys k with
      | Some y => eq x y && items_in xs' ys
      | None => false
      end
  end.

Fixpoint subset_of (xs ys : list pyval) : bool :=
  match xs with
  | [] => true
  | x :: xs' => existsb (eq x) ys && subset_of xs' ys
  end.
End eq_lists.

(** Python's [a == b] on the universe.  [bool] is a subclass of [int], so
    [True == 1]; sets and dicts compare regardless of order; enum members
    compare by identity; dataclass instances compare class and fields. *)
Fixpoint py_eq (a b : pyval) {struct a} : bool :=
  match a, b with
  | VNone, VNone => true
  | VBool x, VBool y => Bool.eqb x y
  | VBool x, VInt y => Z_of_bool x =? y
  | VInt x, VBool y => x =? Z_of_bool y
  | VInt x, VInt y => x =? y
  | VStr x, VStr y => String.eqb x y
  | VList xs, VList ys => eq_seq py_eq xs ys
  | VTuple xs, VTuple ys => eq_seq py_eq xs ys
  | VSet xs, VSet ys =>
      subset_of py_eq xs ys && (length xs =? length ys)%nat
  | VDict xs, VDict ys =>
      items_in py_eq xs ys && (length xs =? length ys)%nat
  | VEnum c m _, VEnum c' m' _ => String.eqb c c' && String.eqb m m'
  | VObj c xs, VObj c' ys => String.eqb c c' && eq_attrs py_eq xs ys
  | _, _ => false
  end.

(** [x in xs] for a tuple or list [xs]. *)
Definition py_in (x : pyval) (xs : list pyval) : bool := existsb (py_eq x) xs.

(** [hash(v)] succeeds: lists, dicts and sets are unhashable, a tuple is
    hashable when its items are, and an instance of a plain [@dataclass]
    (eq without frozen) is not. *)
Fixpoint hashable (v : pyval) : bool :=
  match v with
  | VNone | VBool _ | VInt _ | VStr _ | VEnum _ _ _ => true
  | VTuple xs => forallb hashable xs
  | VList _ | VSet _ | VDict _ | VObj _ _ => false
  end.

(** *** Attribute access *)

(** [obj.name] on an instance: its attributes are the fields its class
    declares, nothing else. *)
Definition getattr (obj : pyval) (name : string) : result pyval :=
  match obj with
  | VObj _ attrs =>
      match dict_get attrs name with
      | Some v => Ok v
      | None => Raise AttributeError
      end
  | _ => Raise AttributeError
  end.

(** ** Strings and integers *)

(** [str(z)] for an integer. *)
Definition str_of_int (z : Z) : string := NilZero.string_of_int (Z.to_int z).

(** Whitespace as [int()] strips it from an ASCII string: tab to carriage
    return, and the blank. *)
Definition is_space (c : ascii) : bool :=
  let n := nat_of_ascii c in
  ((9 <=? n) && (n <=? 13) || (n =? 32))%nat.

Fixpoint lstrip (s : string) : string :=
  match s with
  | String c s' => if is_space c then lstrip s' else s
  | EmptyString => EmptyString
  end.

Fixpoint rstrip (s : string) : string :=
  match s with
  | EmptyString => EmptyString
  | String c s' =>
      match rstrip s' with
      | EmptyString => if is_space c then EmptyString else String c EmptyString
      | r => String c r
      end
  end.

Definition digit_of (c : ascii) : option (Decimal.uint → Decimal.uint) :=
  if Ascii.eqb c "0" then Some Decimal.D0
  else if Ascii.eqb c "1" then Some Decimal.D1
  else if Ascii.eqb c "2" then Some Decimal.D2
  else if Ascii.eqb c "3" then Some Decimal.D3
  else if Ascii.eqb c "4" then Some Decimal.D4
  else if Ascii.eqb c "5" then Some Decimal.D5
  else if Ascii.eqb c "6" then Some Decimal.D6
  else if Ascii.eqb c "7" then Some Decimal.D7
  else if Ascii.eqb c "8" then Some Decimal.D8
  else if Ascii.eqb c "9" then Some Decimal.D9
  else None.

(** The digits of a decimal literal: at least one digit, single underscores
    allowed between digits only. *)
Fixpoint scan_digits (after_digit : bool) (s : string) : option Decimal.uint :=
  match s with
  | EmptyString => if after_digit then Some Decimal.Nil else None
  | String c s' =>
      match digit_of c with
      | Some d => d <$> scan_digits true s'
      | None =>
          if Ascii.eqb c "_" && after_digit then scan_digits false s' else None
      end
  end.

(** [int(s)] for a string: surrounding whitespace, an optional sign, decimal
    digits; [ValueError] otherwise. *)
Definition int_of_str (s : string) : result Z :=
  let body := rstrip (lstrip s) in
  let '(neg, digits) :=
    match body with
    | String c r =>
        if Ascii.eqb c "-" then (true, r)
        else if Ascii.eqb c "+" then (false, r)
        else (false, body)
    | EmptyString => (false, body)
    end in
  match scan_digits false digits with
  | Some u => Ok (if neg : bool then - Z.of_uint u else Z.of_uint u)
  | None => Raise ValueError
  end.

(** [s.split(sep)] with an explicit separator: scanning left to right,
    [skip] counts the characters of a separator occurrence still to drop.
    Returns the segment under construction and the segments after it. *)
Fixpoint split_from (sep : string) (skip : nat) (s : string)
  : string * list string :=
  match s with
  | EmptyString => (EmptyString, [])
  | String c s' =>
      match skip with
      | S k => split_from sep k s'
      | O =>
          if String.prefix sep s then
            let '(seg, rest) := split_from sep (String.length sep - 1) s' in
            (EmptyString, seg :: rest)
          else
            let '(seg, rest) := split_from sep 0 s' in
            (String c seg, rest)
      end
  end.

Definition str_split (s sep : string) : result (list string) :=
  match sep with
  | EmptyString => Raise ValueError          (* empty separator *)
  | _ => let '(seg, rest) := split_from sep 0 s in Ok (seg :: rest)
  end.

(** [sep.join(items)] *)
Definition str_join (sep : string) (items : list string) : string :=
  String.concat sep items.

(** [s[1:]] *)
Definition str_tail (s : string) : string :=
  match s with String _ s' => s' | EmptyString => EmptyString end.

(** *** Iteration, length and the built-in constructors *)

Definition chars (s : string) : list pyval :=
  (λ c, VStr (String c EmptyString)) <$> list_ascii_of_string s.

(** [for x in v] *)
Definition py_iter (v : pyval) : result (list pyval) :=
  match v with
  | VList xs | VTuple xs | VSet xs => Ok xs
  | VStr s => Ok (chars s)
  | VDict items => Ok ((λ kv, VStr kv.1) <$> items)
  | VNone | VBool _ | VInt _ | VEnum _ _ _ | VObj _ _ => Raise TypeError
  end.

(** [len(v)] *)
Definition py_len (v : pyval) : result nat :=
  match v with
  | VList xs | VTuple xs | VSet xs => Ok (length xs)
  | VStr s => Ok (String.length s)
  | VDict items => Ok (length items)
  | VNone | VBool _ | VInt _ | VEnum _ _ _ | VObj _ _ => Raise TypeError
  end.

(** [set(xs)]: every item must be hashable; equal items are kept once. *)
Definition make_set (xs : list pyval) : result pyval :=
  if forallb hashable xs then
    Ok (VSet (fold_left (λ acc x, if py_in x acc then acc else acc ++ [x])
                xs []))
  else Raise TypeError.

(** [int(v)] *)
Definition py_int (v : pyval) : result pyval :=
  match v with
  | VInt z => Ok (VInt z)
  | VBool b => Ok (VInt (Z_of_bool b))
  | VStr s => VInt <$> int_of_str s
  | _ => Raise TypeError
  end.

(** [bool(v)] *)
Definition py_bool (v : pyval) : result pyval :=
  Ok (VBool match v with
            | VNone => false
            | VBool b => b
            | VInt z => negb (z =? 0)
            | VStr s => negb (String.eqb s EmptyString)
            | VList xs | VTuple xs | VSet xs => negb (length xs =? 0)%nat
            | VDict items => negb (length items =? 0)%nat
            | VEnum _ _ _ | VObj _ _ => true
            end).

(** [repr] and [str] *)
Definition dquote : ascii := ascii_of_nat 34.
Definition squote : ascii := ascii_of_nat 39.
Definition backslash : ascii := ascii_of_nat 92.

Definition hex_digit (n : nat) : ascii :=
  ascii_of_nat (if (n <? 10)%nat then 48 + n else 87 + n)%nat.

Definition repr_char (quote c : ascii) : string :=
  let n := nat_of_ascii c in
  if Ascii.eqb c quote || Ascii.eqb c backslash then
    String backslash (String c EmptyString)
  else if (n =? 9)%nat then String backslash "t"
  else if (n =? 10)%nat then String backslash "n"
  else if (n =? 13)%nat then String backslash "r"
  else if (n <? 32)%nat || (127 <=? n)%nat && (n <=? 160)%nat
          || (n =? 173)%nat then
    String backslash
      (String "x" (String (hex_digit (n / 16))
                     (String (hex_digit (n mod 16)) EmptyString)))
  else String c EmptyString.

Fixpoint has_char (c : ascii) (s : string) : bool :=
  match s with
  | EmptyString => false
  | String c' s' => Ascii.eqb c' c || has_char c s'
  end.

Definition repr_str (s : string) : string :=
  let quote :=
    if has_char squote s && negb (has_char dquote s) then dquote
    else squote in
  String quote
    (String.concat EmptyString (repr_char quote <$> list_ascii_of_string s)
     +:+ String quote EmptyString).

Fixpoint py_repr (v : pyval) : string :=
  match v with
  | VNone => "None"
  | VBool b => if b then "True" else "False"
  | VInt z => str_of_int z
  | VStr s => repr_str s
  | VList xs => "[" +:+ String.concat ", " (py_repr <$> xs) +:+ "]"
  | VTuple xs =>
      match xs with
      | [x] => "(" +:+ py_repr x +:+ ",)"
      | _ => "(" +:+ String.concat ", " (py_repr <$> xs) +:+ ")"
      end
  | VSet xs =>
      match xs with
      | [] => "set()"
      | _ => "{" +:+ String.concat ", " (py_repr <$> xs) +:+ "}"
      end
  | VDict items =>
      "{" +:+ String.concat ", "
                ((λ kv, repr_str kv.1 +:+ ": " +:+ py_repr kv.2) <$> items)
          +:+ "}"
  | VEnum cls member value =>
      "<" +:+ cls +:+ "." +:+ member +:+ ": " +:+ py_repr value +:+ ">"
  | VObj cls attrs =>
      cls +:+ "(" +:+ String.concat ", "
                        ((λ kv, kv.1 +:+ "=" +:+ py_repr kv.2) <$> attrs)
          +:+ ")"
  end.

(** [str(v)] *)
Definition py_str (v : pyval) : result pyval :=
  Ok (VStr match v with
           | VStr s => s
           | VEnum cls member _ => cls +:+ "." +:+ member
           | _ => py_repr v
           end).

(** *** JSON text *)

(** A JSON document.  [json.dumps] and [json.loads] are taken at the level
    of the document tree: the text is identified with the tree it denotes. *)
Inductive json_doc : Type :=
| JNull
| JBool (b : bool)
| JNumber (z : Z)
| JString (s : string)
| JArray (xs : list json_doc)
| JObject (members : list (string * json_doc)).

(** [json.dumps(v)]: lists and tuples both become arrays; a set, an enum
    member or a dataclass instance is not JSON serializable. *)
Fixpoint json_dumps (v : pyval) : result json_doc :=
  match v with
  | VNone => Ok JNull
  | VBool b => Ok (JBool b)
  | VInt z => Ok (JNumber z)
  | VStr s => Ok (JString s)
  | VList xs | VTuple xs => JArray <$> mapM json_dumps xs
  | VDict items =>
      JObject <$> mapM (λ kv, d ← json_dumps kv.2; Ok (kv.1, d)) items
  | VSet _ | VEnum _ _ _ | VObj _ _ => Raise TypeError
  end.

(** [json.loads(d)]: arrays become lists, objects dicts (a repeated member
    name keeps its last value). *)
Fixpoint json_loads (d : json_doc) : pyval :=
  match d with
  | JNull => VNone
  | JBool b => VBool b
  | JNumber z => VInt z
  | JString s => VStr s
  | JArray xs => VList (json_loads <$> xs)
  | JObject members =>
      VDict (fold_left (λ acc kv, dict_set acc kv.1 (json_loads kv.2))
               members [])
  end.

(** *** Dataclass construction *)

(** The [__init__] that [@dataclass] generates, called with keyword
    arguments only.  [params] lists the fields in declaration order with
    their defaults; an unknown keyword or a missing field without default is
    a [TypeError]; [__post_init__] runs on the new instance. *)
Fixpoint bind_params (params : list (string * option pyval))
    (kwargs : list (string * pyval)) : result (list (string * pyval)) :=
  match params with
  | [] => Ok []
  | (name, default) :: params' =>
      v ← match dict_get kwargs name, default with
          | Some v, _ => Ok v
          | None, Some d => Ok d
          | None, None => Raise TypeError
          end;
      rest ← bind_params params' kwargs;
      Ok ((name, v) :: rest)
  end.

Definition unexpected_keyword (params : list (string * option pyval))
    (kwargs : list (string * pyval)) : bool :=
  existsb (λ kv, bool_decide (dict_get params kv.1 = None)) kwargs.

Definition dataclass_init (cls : string)
    (params : list (string * option pyval))
    (post_init : pyval → result unit)
    (kwargs : list (string * pyval)) : result pyval :=
  if unexpected_keyword params kwargs then Raise TypeError
  else
    attrs ← bind_params params kwargs;
    let self := VObj cls attrs in
    _ ← post_init self;
    Ok self.

End Py.
Export Py.

(** * [zarr/_serialization.py] *)

Module Serialization.

(** ** Type hints *)

Inductive origin : Type := OTuple | OList | OSet.

(** The metadata of an [Annotated[...]] hint: the [Tag] marker of
    [zarr.core.common], or anything else. *)
Inductive meta : Type := Tag | OtherMeta (name : string).

(** The hints [decode_value] dispatches on.  [TClass] is any other class,
    given by what calling it on one argument does; [TEllipsis] is the [...]
    of [tuple[T, ...]].  A dataclass is given by its name, its fields in
    declaration order, each with its hint and the metadata of its
    [Annotated] wrapper (empty when the field is not annotated), and its
    [__post_init__]. *)
Inductive ty : Type :=
| TAny
| TNoneType
| TEllipsis
| TClass (name : string) (call : pyval → result pyval)
| TGeneric (o : origin) (args : list ty)
| TUnion (variants : list ty)
| TLiteral (values : list pyval)
| TEnum (cls : string) (members : list (string * pyval))
| TDataclass (cls : string) (fields : list (string * (ty * list meta)))
    (post_init : pyval → result unit).

Definition int_ : ty := TClass "int" py_int.
Definition str_ : ty := TClass "str" py_str.
Definition bool_ : ty := TClass "bool" py_bool.

Definition is_NoneType (t : ty) : bool :=
  match t with TNoneType => true | _ => false end.

(** [dataclasses.is_dataclass] on a hint and on a value. *)
Definition is_dataclass_type (t : ty) : bool :=
  match t with TDataclass _ _ _ => true | _ => false end.

Definition is_dataclass (v : pyval) : bool :=
  match v with VObj _ _ => true | _ => false end.

(** The members a [types.UnionType] can have.  [X | Y] flattens an
    operand that is a union, so that [(A | B) | C] is [TUnion [A; B; C]];
    with a [Literal] operand it builds a [typing.Union] instead; and [...]
    takes no [|]. *)
Definition union_member (t : ty) : bool :=
  match t with
  | TLiteral _ | TUnion _ | TEllipsis => false
  | _ => true
  end.

(** ** Encoding *)

(** [encode_value], dispatched on the class of [v].  Of the registered
    classes the universe has [enum.Enum] and [set]; everything else takes
    the default implementation, which returns [v]. *)
Definition encode_value (v : pyval) : pyval :=
  match v with
  | VEnum _ _ value => value
  | VSet xs => VList xs
  | _ => v
  end.

(** [dataclasses.asdict]: instances become dicts, recursively through
    lists, tuples and dicts; any other value is copied as it is. *)
Fixpoint asdict_inner (obj : pyval) : pyval :=
  match obj with
  | VObj _ attrs => VDict ((λ kv, (kv.1, asdict_inner kv.2)) <$> attrs)
  | VList xs => VList (asdict_inner <$> xs)
  | VTuple xs => VTuple (asdict_inner <$> xs)
  | VDict items => VDict ((λ kv, (kv.1, asdict_inner kv.2)) <$> items)
  | _ => obj
  end.

Definition asdict (obj : pyval) : result (list (string * pyval)) :=
  match obj with
  | VObj _ attrs => Ok ((λ kv, (kv.1, asdict_inner kv.2)) <$> attrs)
  | _ => Raise TypeError
  end.

Section to_dict_loop.
Context (to_dict : pyval → result (list (string * pyval))).

(** The loop of [to_dict] over the items of [asdict(obj)].  In the
    dataclass branch the result of the recursive call is bound to the loop
    variable only: nothing is stored in [result]. *)
Fixpoint to_dict_items (items result : list (string * pyval))
  : Py.result (list (string * pyval)) :=
  match items with
  | [] => Ok result
  | (k, v) :: items' =>
      if is_dataclass v then
        v' ← to_dict v;
        to_dict_items items' result
      else
        to_dict_items items' (dict_set result k (encode_value v))
  end.
End to_dict_loop.

(** [to_dict], with the depth of the recursion bounded as the interpreter
    bounds it. *)
Fixpoint to_dict_at (depth : nat) (obj : pyval)
  : result (list (string * pyval)) :=
  match depth with
  | O => Raise RecursionError
  | S depth' =>
      items ← asdict obj;
      to_dict_items (to_dict_at depth') items []
  end.

Definition recursion_limit : nat := 1000.

Definition to_dict (obj : pyval) : result (list (string * pyval)) :=
  to_dict_at recursion_limit obj.

(** [encode]: the bytes are the JSON document. *)
Definition encode (obj : pyval) : result json_doc :=
  result ← to_dict obj;
  json_dumps (VDict result).

(** ** Decoding *)

Definition is_Tag (m : meta) : bool :=
  match m with Tag => true | OtherMeta _ => false end.

(** [Tag in typing.get_args(t)] for the hint of a field *)
Definition is_tagged (field : string * (ty * list meta)) : bool :=
  existsb is_Tag field.2.2.

(** [typing.get_type_hints(variant, include_extras=True)]: the fields of a
    dataclass; [NoneType] has no annotations. *)
Definition get_type_hints (variant : ty) : list (string * (ty * list meta)) :=
  match variant with
  | TDataclass _ fields _ => fields
  | _ => []
  end.

(** [tags_to_variants], a dict keyed by the literal tags: it records each
    variant by its position in [variants]. *)
Fixpoint tags_get (tags : list (pyval * nat)) (tag : pyval) : option nat :=
  match tags with
  | [] => None
  | (t, i) :: tags' => if py_eq t tag then Some i else tags_get tags' tag
  end.

Fixpoint tags_set (tags : list (pyval * nat)) (tag : pyval) (i : nat)
  : list (pyval * nat) :=
  match tags with
  | [] => [(tag, i)]
  | (t, j) :: tags' =>
      if py_eq t tag then (t, i) :: tags' else (t, j) :: tags_set tags' tag i
  end.

Definition tags_getitem (tags : list (pyval * nat)) (tag : pyval)
  : result nat :=
  if hashable tag then
    match tags_get tags tag with Some i => Ok i | None => Raise KeyError end
  else Raise TypeError.

(** The loop [for variant in variants] of the tagged-union branch:
    [position] is the position of the next variant. *)
Fixpoint tag_table (variants : list ty) (position : nat)
    (tag_field_name : option string) (tags_to_variants : list (pyval * nat))
  : result (option string * list (pyval * nat)) :=
  match variants with
  | [] => Ok (tag_field_name, tags_to_variants)
  | variant :: variants' =>
      let variant_types := get_type_hints variant in
      let tag_types := List.filter is_tagged variant_types in
      match tag_types with
      | [(k, (t2, _))] =>
          name ← match tag_field_name with
                 | None => Ok k
                 | Some name =>
                     if negb (String.eqb name k) then Raise TypeError
                     else Ok name
                 end;
          match t2 with
          | TLiteral t3 =>
              match t3 with
              | [tag] =>
                  if hashable tag then
                    tag_table variants' (S position) (Some name)
                      (tags_set tags_to_variants tag position)
                  else Raise TypeError
              | _ => Raise TypeError
              end
          | _ => Raise TypeError
          end
      | _ => Raise TypeError
      end
  end.

(** [data.get(name)] *)
Definition data_get (data : pyval) (name : string) : result pyval :=
  match data with
  | VDict items => Ok (default VNone (dict_get items name))
  | _ => Raise AttributeError
  end.

(** The dataclass [type] called with [args] as keyword arguments: every
    field is passed. *)
Definition construct (cls : string) (post_init : pyval → result unit)
    (args : list (string * pyval)) : result pyval :=
  let self := VObj cls args in
  _ ← post_init self;
  Ok self.

(** [origin(v)]: the bare [tuple], [list] or [set] called on [v]. *)
Definition call_origin (o : origin) (v : pyval) : result pyval :=
  xs ← py_iter v;
  match o with
  | OTuple => Ok (VTuple xs)
  | OList => Ok (VList xs)
  | OSet => make_set xs
  end.

Section decode.
(** [parse_codecs] of [zarr.core.metadata] is not among the sources: it is
    a parameter of the decoder. *)
Context (parse_codecs : pyval → result pyval).

Section recursive_calls.
Context (decode_value : ty → pyval → result pyval).

(** [decode_value(subtype, x) for subtype, x in zip(args, v, strict=False)] *)
Fixpoint decode_zip (args : list ty) (xs : list pyval)
  : result (list pyval) :=
  match args, xs with
  | subtype :: args', x :: xs' =>
      y ← decode_value subtype x;
      ys ← decode_zip args' xs';
      Ok (y :: ys)
  | _, _ => Ok []
  end.

(** [t = next(x for x in variants if x is not NoneType)] followed by
    [decode_value(t, v)] *)
Fixpoint decode_first_real (variants : list ty) (v : pyval) : result pyval :=
  match variants with
  | [] => Raise StopIteration
  | x :: variants' =>
      if is_NoneType x then decode_first_real variants' v
      else decode_value x v
  end.

(** [decode_value(tag_type, v)] for the variant at [position] *)
Fixpoint decode_variant (variants : list ty) (position : nat) (v : pyval)
  : result pyval :=
  match variants, position with
  | [], _ => Raise KeyError
  | tag_type :: _, O => decode_value tag_type v
  | _ :: variants', S position' => decode_variant variants' position' v
  end.

(** The loop of [from_dict] over the fields. *)
Fixpoint from_dict_fields (data : pyval)
    (fields : list (string * (ty * list meta)))
  : result (list (string * pyval)) :=
  match fields with
  | [] => Ok []
  | (name, (field_t, _)) :: fields' =>
      x ← (if String.eqb name "codecs" then
             c ← data_get data name; parse_codecs c
           else
             d ← data_get data name; decode_value field_t d);
      args ← from_dict_fields data fields';
      Ok ((name, x) :: args)
  end.

End recursive_calls.

Fixpoint decode_value (type : ty) (v : pyval) {struct type} : result pyval :=
  match type with
  | TEnum cls members =>
      (* the [enum.EnumMeta] implementation: [type(v)] returns a member of
         the class as it is, and looks any other value up among the values
         of the members *)
      match v with
      | VEnum c _ _ =>
          if String.eqb c cls then Ok v
          else
            match List.find (λ m, py_eq m.2 v) members with
            | Some (member, value) => Ok (VEnum cls member value)
            | None => Raise ValueError
            end
      | _ =>
          match List.find (λ m, py_eq m.2 v) members with
          | Some (member, value) => Ok (VEnum cls member value)
          | None => Raise ValueError
          end
      end
  | TGeneric o args =>
      match args with
      | [] => call_origin o v
      | _ =>
          match o with
          | OTuple =>
              match args with
              | [subtype; TEllipsis] =>
                  xs ← py_iter v;
                  VTuple <$> mapM (decode_value subtype) xs
              | _ =>
                  n ← py_len v;
                  if negb (length args =? n)%nat then Raise TypeError
                  else
                    xs ← py_iter v;
                    VTuple <$> decode_zip decode_value args xs
              end
          | _ =>
              match args with
              | [subtype] =>
                  xs ← py_iter v;
                  ys ← mapM (decode_value subtype) xs;
                  match o with
                  | OSet => make_set ys
                  | _ => Ok (VList ys)
                  end
              | _ => Raise TypeError
              end
          end
      end
  | TUnion variants =>
      if negb (forallb union_member variants) then
        (* not the arguments of a [types.UnionType]: with a [Literal]
           among them the hint is a [typing.Union], which none of the tests
           of [decode_value] knows and [type(v)] cannot call *)
        Raise TypeError
      else if (length variants =? 2)%nat && existsb is_NoneType variants then
        match v with
        | VNone => Ok VNone
        | _ => decode_first_real decode_value variants v
        end
      else if forallb (λ x, is_NoneType x || is_dataclass_type x) variants
      then
        match v with
        | VDict items =>
            '(tag_field_name, tags_to_variants) ←
              tag_table variants 0 None [];
            match tag_field_name with
            | None => Raise AssertionError
            | Some tag_field_name =>
                tag_value ← dict_getitem items tag_field_name;
                tag_type ← tags_getitem tags_to_variants tag_value;
                decode_variant decode_value variants tag_type v
            end
        | _ => Raise TypeError
        end
      else Raise TypeError          (* [type(v)]: a union is not callable *)
  | TAny => Ok v
  | TLiteral values =>
      if negb (py_in v values) then Raise TypeError else Ok v
  | TDataclass cls fields post_init =>
      args ← from_dict_fields decode_value v fields;
      construct cls post_init args
  | TClass _ call => call v
  | TNoneType | TEllipsis => Raise TypeError
  end.

Definition from_dict (data : pyval) (type : ty) : result pyval :=
  match type with
  | TDataclass cls fields post_init =>
      args ← from_dict_fields decode_value data fields;
      construct cls post_init args
  | _ => Raise TypeError            (* [dataclasses.fields(type)] *)
  end.

Definition decode (data : json_doc) (type : ty) : result pyval :=
  let raw := json_loads data in
  from_dict raw type.

End decode.

End Serialization.
Export Serialization.

(** * [zarr/core/chunk_key_encodings.py] *)

Module ChunkKeyEncodings.

Definition parse_separator (data : pyval) : result pyval :=
  if negb (py_in data [VStr "."; VStr "/"]) then Raise ValueError
  else Ok data.

(** [@dataclass class ChunkKeyEncodingConfiguration: separator = "."] *)
Definition ChunkKeyEncodingConfiguration (kwargs : list (string * pyval))
  : result pyval :=
  dataclass_init "ChunkKeyEncodingConfiguration"
    [("separator", Some (VStr "."))] (λ _, Ok ()) kwargs.

(** The value of [field(default_factory=ChunkKeyEncodingConfiguration)]. *)
Definition default_configuration : pyval :=
  VObj "ChunkKeyEncodingConfiguration" [("separator", VStr ".")].

(** [ChunkKeyEncoding.__post_init__] is [...]: nothing is validated. *)
Definition ChunkKeyEncoding___post_init__ (self : pyval) : result unit :=
  Ok ().

Definition DefaultChunkKeyEncoding___post_init__ (self : pyval)
  : result unit :=
  name ← getattr self "name";
  if negb (py_eq name (VStr "default")) then Raise TypeError
  else ChunkKeyEncoding___post_init__ self.

(** The two concrete classes.  Their fields are those of
    [ChunkKeyEncoding], [name] and [configuration], with [name] defaulted;
    [V2ChunkKeyEncoding] inherits the empty [__post_init__]. *)
Definition DefaultChunkKeyEncoding (kwargs : list (string * pyval))
  : result pyval :=
  dataclass_init "DefaultChunkKeyEncoding"
    [("name", Some (VStr "default"));
     ("configuration", Some default_configuration)]
    DefaultChunkKeyEncoding___post_init__ kwargs.

Definition V2ChunkKeyEncoding (kwargs : list (string * pyval))
  : result pyval :=
  dataclass_init "V2ChunkKeyEncoding"
    [("name", Some (VStr "v2"));
     ("configuration", Some default_configuration)]
    ChunkKeyEncoding___post_init__ kwargs.

(** [isinstance(data, ChunkKeyEncoding)] *)
Definition isinstance_ChunkKeyEncoding (data : pyval) : bool :=
  match data with
  | VObj cls _ =>
      bool_decide (cls ∈ ["ChunkKeyEncoding"; "DefaultChunkKeyEncoding";
                          "V2ChunkKeyEncoding"])
  | _ => false
  end.

(** Modelled from the spec: [parse_named_configuration] of
    [zarr.core.common] is not among the sources.  A chunk key encoding is
    given by a mapping with the discriminator under ["name"] and, optionally
    (here [require_configuration=False]), a mapping under
    ["configuration"]; an absent configuration is returned as [None]. *)
Definition parse_named_configuration (data : pyval)
    (require_configuration : bool)
  : result (string * option (list (string * pyval))) :=
  match data with
  | VDict items =>
      match dict_get items "name" with
      | None => Raise ValueError
      | Some (VStr name) =>
          match dict_get items "configuration" with
          | Some (VDict configuration) => Ok (name, Some configuration)
          | Some _ => Raise TypeError
          | None =>
              if require_configuration then Raise ValueError
              else Ok (name, None)
          end
      | Some _ => Raise TypeError
      end
  | _ => Raise TypeError
  end.

Definition ChunkKeyEncoding_from_dict (data : pyval) : result pyval :=
  if isinstance_ChunkKeyEncoding data then Ok data
  else
    '(name_parsed, config_parsed) ← parse_named_configuration data false;
    if String.eqb name_parsed "default" then
      let config_parsed :=
        match config_parsed with
        | None => [("separator", VStr "/")]
        | Some c => c
        end in
      DefaultChunkKeyEncoding config_parsed
    else if String.eqb name_parsed "v2" then
      let config_parsed :=
        match config_parsed with
        | None => [("separator", VStr ".")]
        | Some c => c
        end in
      V2ChunkKeyEncoding config_parsed
    else Raise ValueError.

Definition ChunkKeyEncoding_to_dict (self : pyval) : result pyval :=
  name ← getattr self "name";
  configuration ← getattr self "configuration";
  separator ← getattr configuration "separator";
  Ok (VDict [("name", name);
             ("configuration", VDict [("separator", separator)])]).

(** [self.separator], as [decode_chunk_key] and [encode_chunk_key] read
    it, used as a [str]. *)
Definition self_separator (self : pyval) : result string :=
  v ← getattr self "separator";
  match v with VStr s => Ok s | _ => Raise TypeError end.

(** The bodies of the four methods, with the evaluation of
    [self.separator] passed in as [separator] and run where the source
    runs it. *)
Definition DefaultChunkKeyEncoding_decode_chunk_key_with
    (separator : result string) (chunk_key : string) : result (list Z) :=
  if String.eqb chunk_key "c" then Ok []
  else
    sep ← separator;
    parts ← str_split (str_tail chunk_key) sep;
    mapM int_of_str parts.

Definition DefaultChunkKeyEncoding_encode_chunk_key_with
    (separator : result string) (chunk_coords : list Z) : result string :=
  sep ← separator;
  Ok (str_join sep ("c" :: map str_of_int chunk_coords)).

Definition V2ChunkKeyEncoding_decode_chunk_key_with
    (separator : result string) (chunk_key : string) : result (list Z) :=
  sep ← separator;
  parts ← str_split chunk_key sep;
  mapM int_of_str parts.

Definition V2ChunkKeyEncoding_encode_chunk_key_with
    (separator : result string) (chunk_coords : list Z) : result string :=
  sep ← separator;
  let chunk_identifier := str_join sep (map str_of_int chunk_coords) in
  Ok (if String.eqb chunk_identifier "" then "0" else chunk_identifier).

(** The methods themselves. *)
Definition DefaultChunkKeyEncoding_decode_chunk_key (self : pyval) :=
  DefaultChunkKeyEncoding_decode_chunk_key_with (self_separator self).
Definition DefaultChunkKeyEncoding_encode_chunk_key (self : pyval) :=
  DefaultChunkKeyEncoding_encode_chunk_key_with (self_separator self).
Definition V2ChunkKeyEncoding_decode_chunk_key (self : pyval) :=
  V2ChunkKeyEncoding_decode_chunk_key_with (self_separator self).
Definition V2ChunkKeyEncoding_encode_chunk_key (self : pyval) :=
  V2ChunkKeyEncoding_encode_chunk_key_with (self_separator self).

(** The classes as the value codec sees them: their type hints.
    [SeparatorLiteral = Literal[".", "/"]]; the [name] of each concrete
    class is [Annotated[Literal[...], Tag]]. *)
Definition SeparatorLiteral : ty := TLiteral [VStr "."; VStr "/"].

Definition ChunkKeyEncodingConfiguration_type : ty :=
  TDataclass "ChunkKeyEncodingConfiguration"
    [("separator", (SeparatorLiteral, []))] (λ _, Ok ()).

Definition DefaultChunkKeyEncoding_type : ty :=
  TDataclass "DefaultChunkKeyEncoding"
    [("name", (TLiteral [VStr "default"], [Tag]));
     ("configuration", (ChunkKeyEncodingConfiguration_type, []))]
    DefaultChunkKeyEncoding___post_init__.

Definition V2ChunkKeyEncoding_type : ty :=
  TDataclass "V2ChunkKeyEncoding"
    [("name", (TLiteral [VStr "v2"], [Tag]));
     ("configuration", (ChunkKeyEncodingConfiguration_type, []))]
    ChunkKeyEncoding___post_init__.

Definition CHUNK_KEY_ENCODINGS : ty :=
  TUnion [DefaultChunkKeyEncoding_type; V2ChunkKeyEncoding_type].

End ChunkKeyEncodings.
Export ChunkKeyEncodings.

(** * [zarr/core/metadata/_io.py] *)

Module MetadataIO.

(** Modelled from the spec: the key names of [zarr.core.common], which is
    not among the sources, are the fixed literals of the on-store layout. *)
Definition ZARR_JSON : string := "zarr.json".
Definition ZARRAY_JSON : string := ".zarray".
Definition ZGROUP_JSON : string := ".zgroup".
Definition ZATTRS_JSON : string := ".zattrs".

(** One [case] of the [match state] statements: a literal pattern compares
    with [==], [None] with [is]. *)
Definition case_ (state pattern : option string * option Z) : bool :=
  bool_decide (state = pattern).

Definition _build_paths (node_type : option string) (zarr_format : option Z)
  : result (list string) :=
  let state := (node_type, zarr_format) in
  if bool_decide (zarr_format = Some 3) then Ok [ZARR_JSON]
  else if case_ state (Some "array", Some 2) then
    Ok [ZARRAY_JSON; ZATTRS_JSON]
  else if case_ state (Some "array", None) then
    Ok [ZARR_JSON; ZATTRS_JSON; ZARRAY_JSON]
  else if case_ state (Some "group", Some 2) then
    Ok [ZGROUP_JSON; ZATTRS_JSON]
  else if case_ state (Some "group", None) then
    Ok [ZGROUP_JSON; ZATTRS_JSON; ZARR_JSON]
  else if case_ state (None, Some 2) then
    Ok [ZARRAY_JSON; ZATTRS_JSON; ZGROUP_JSON]
  else if case_ state (None, None) then
    Ok [ZARRAY_JSON; ZATTRS_JSON; ZGROUP_JSON; ZARR_JSON]
  else Raise ValueError.

(** [dict(zip(paths, results, strict=True))]: later pairs win. *)
Definition dict_zip {A} (paths : list string) (results : list A)
  : gmap string A :=
  fold_left (λ items kv, <[kv.1 := kv.2]> items) (zip paths results) ∅.

(** The store seen through [store_path] maps a key to its bytes;
    [(store_path / path).get()] is the lookup, [None] for an absent key.
    [asyncio.gather] returns the results in the order of [paths].  The
    function has no [return]: it yields [None] unless it raises.  The
    second [match] extends the local [paths] (kept below) or, for format 3,
    assigns [...] to the local [node_type]; neither is read again. *)
Definition _gather_documents (store_path : gmap string string)
    (node_type : option string) (zarr_format : option Z) : result pyval :=
  paths ← _build_paths node_type zarr_format;
  let results := (λ path, store_path !! path) <$> paths in
  let items := dict_zip paths results in
  let state := (node_type, zarr_format) in
  if bool_decide (zarr_format = Some 3) then
    match items !! ZARR_JSON with
    | None => Raise KeyError
    | Some None => Raise Exception_
    | Some (Some _) => Ok VNone
    end
  else if case_ state (Some "array", Some 2) then
    let paths := paths ++ [ZARRAY_JSON; ZATTRS_JSON] in Ok VNone
  else if case_ state (Some "array", None) then
    let paths := paths ++ [ZARR_JSON; ZATTRS_JSON; ZARRAY_JSON] in Ok VNone
  else if case_ state (Some "group", Some 2) then
    let paths := paths ++ [ZGROUP_JSON; ZATTRS_JSON] in Ok VNone
  else if case_ state (Some "group", None) then
    let paths := paths ++ [ZGROUP_JSON; ZATTRS_JSON; ZARR_JSON] in Ok VNone
  else if case_ state (None, Some 2) then
    let paths := paths ++ [ZARRAY_JSON; ZATTRS_JSON; ZGROUP_JSON] in Ok VNone
  else if case_ state (None, None) then
    let paths := paths ++ [ZARRAY_JSON; ZATTRS_JSON; ZGROUP_JSON; ZARR_JSON]
    in Ok VNone
  else Raise ValueError.

End MetadataIO.
Export MetadataIO.

(** * [zarr/errors.py] *)

Module Errors.

(** ** [str.format] with positional arguments *)

(** What a call does: it returns, raises one of the exceptions of
    [Py.exn], or raises [IndexError].  [NotModelled] stands for the format
    strings that use more of the format language than is embedded here
    (named fields, attribute and item access, format specifications, the
    conversion [!a]). *)
Inductive outcome (A : Type) : Type :=
| Returns (a : A)
| Raises (e : exn)
| RaisesIndexError
| NotModelled.
Arguments Returns {A} a.
Arguments Raises {A} e.
Arguments RaisesIndexError {A}.
Arguments NotModelled {A}.

Inductive conversion : Type := NoConversion | ConversionR | ConversionS.

(** Where the scan of the format string stands. *)
Inductive scanning : Type :=
| Text                          (* in literal text *)
| AfterOpen                     (* after a single opening brace *)
| AfterClose                    (* after a closing brace in literal text *)
| InField (content : string).   (* inside a replacement field *)

(** Automatic ([{}]) or manual ([{0}]) field numbering; the two cannot be
    mixed. *)
Inductive numbering : Type :=
| Unset
| Automatic (next : nat)
| Manual.

Definition open_brace : ascii := ascii_of_nat 123.
Definition close_brace : ascii := ascii_of_nat 125.

(** The field name and what follows the [!], if there is one. *)
Fixpoint split_conversion (content : string) : string * option string :=
  match content with
  | EmptyString => (EmptyString, None)
  | String c rest =>
      if Ascii.eqb c "!" then (EmptyString, Some rest)
      else
        let '(name, conv) := split_conversion rest in
        (String c name, conv)
  end.

Definition parse_conversion (conv : option string) : option conversion :=
  match conv with
  | None => Some NoConversion
  | Some "r" => Some ConversionR
  | Some "s" => Some ConversionS
  | Some _ => None
  end.

(** A field name made of digits is an index into the arguments. *)
Fixpoint index_of (name : string) (acc : nat) : option nat :=
  match name with
  | EmptyString => Some acc
  | String c name' =>
      match digit_of c with
      | Some _ => index_of name' (10 * acc + (nat_of_ascii c - 48))%nat
      | None => None
      end
  end.

(** [str(v)], which is also [format(v, "")]. *)
Definition str_of (v : pyval) : string :=
  match v with
  | VStr s => s
  | VEnum cls member _ => cls +:+ "." +:+ member
  | _ => py_repr v
  end.

Definition convert (conv : conversion) (v : pyval) : string :=
  match conv with
  | ConversionR => py_repr v
  | ConversionS | NoConversion => str_of v
  end.

(** The text of one replacement field, and the numbering after it. *)
Definition eval_field (content : string) (num : numbering)
    (args : list pyval) : outcome (string * numbering) :=
  if has_char ":" content || has_char "." content || has_char "[" content
  then NotModelled
  else
    let '(name, conv) := split_conversion content in
    match parse_conversion conv with
    | None => NotModelled
    | Some conv =>
        let get (i : nat) (num' : numbering) :=
          match args !! i with
          | Some v => Returns (convert conv v, num')
          | None => RaisesIndexError
          end in
        match name with
        | EmptyString =>
            match num with
            | Manual => Raises ValueError
            | Unset => get 0%nat (Automatic 1)
            | Automatic next => get next (Automatic (S next))
            end
        | _ =>
            match index_of name 0 with
            | None => NotModelled
            | Some i =>
                match num with
                | Automatic _ => Raises ValueError
                | _ => get i Manual
                end
            end
        end
    end.

Definition emit (text : string) (rest : outcome string) : outcome string :=
  match rest with
  | Returns r => Returns (text +:+ r)
  | other => other
  end.

(** The scan, left to right: literal text is copied, doubled braces stand
    for one brace, a field is replaced by its text.  The first problem met
    decides the outcome. *)
Fixpoint format_from (s : string) (st : scanning) (num : numbering)
    (args : list pyval) : outcome string :=
  match s with
  | EmptyString =>
      match st with
      | Text => Returns EmptyString
      | _ => Raises ValueError
      end
  | String c s' =>
      match st with
      | Text =>
          if Ascii.eqb c open_brace then format_from s' AfterOpen num args
          else if Ascii.eqb c close_brace then
            format_from s' AfterClose num args
          else emit (String c EmptyString) (format_from s' Text num args)
      | AfterOpen =>
          if Ascii.eqb c open_brace then
            emit (String c EmptyString) (format_from s' Text num args)
          else if Ascii.eqb c close_brace then
            match eval_field EmptyString num args with
            | Returns (text, num') => emit text (format_from s' Text num' args)
            | Raises e => Raises e
            | RaisesIndexError => RaisesIndexError
            | NotModelled => NotModelled
            end
          else format_from s' (InField (String c EmptyString)) num args
      | AfterClose =>
          if Ascii.eqb c close_brace then
            emit (String c EmptyString) (format_from s' Text num args)
          else Raises ValueError
      | InField content =>
          if Ascii.eqb c close_brace then
            match eval_field content num args with
            | Returns (text, num') => emit text (format_from s' Text num' args)
            | Raises e => Raises e
            | RaisesIndexError => RaisesIndexError
            | NotModelled => NotModelled
            end
          else if Ascii.eqb c open_brace then NotModelled
          else
            format_from s' (InField (content +:+ String c EmptyString))
              num args
      end
  end.

(** [fmt.format( *args )] *)
Definition str_format (fmt : string) (args : list pyval) : outcome string :=
  format_from fmt Text Unset args.

(** ** The exception classes *)

Inductive error_class : Type :=
| _BaseZarrError
| ContainsGroupError
| ContainsArrayError
| ContainsArrayAndGroupError
| MetadataValidationError
| ZarrVersionValidationError
| NodeTypeValidationError.

#[export] Instance error_class_eq_dec : EqDecision error_class.
Proof. solve_decision. Defined.

(** The base named in the class statement; [None] is for [ValueError],
    the one base outside the module. *)
Definition base (cls : error_class) : option error_class :=
  match cls with
  | _BaseZarrError => None
  | ContainsGroupError | ContainsArrayError | ContainsArrayAndGroupError
  | MetadataValidationError => Some _BaseZarrError
  | ZarrVersionValidationError | NodeTypeValidationError =>
      Some MetadataValidationError
  end.

(** The [_msg] assigned in the body of the class, when there is one. *)
Definition class__msg (cls : error_class) : option string :=
  match cls with
  | _BaseZarrError => Some EmptyString
  | ContainsGroupError => Some "A group exists in store {0!r} at path {1!r}."
  | ContainsArrayError => Some "An array exists in store {0!r} at path {1!r}."
  | ContainsArrayAndGroupError =>
      Some ("Array and group metadata documents (.zarray and .zgroup) were both found in store "
            +:+ "{0!r} at path {1!r}."
            +:+ "Only one of these files may be present in a given directory / prefix. "
            +:+ "Remove the .zarray file, or the .zgroup file, or both.")
  | MetadataValidationError => None
  | ZarrVersionValidationError =>
      Some "Invalid value for 'zarr_format'. Expected '{}'. Got '{}'."
  | NodeTypeValidationError =>
      Some "Invalid value for 'node_type'. Expected '{}'. Got '{}'."
  end.

(** The classes of the module on the method resolution order of [cls],
    [cls] first. *)
Fixpoint mro_from (depth : nat) (cls : error_class) : list error_class :=
  match depth with
  | O => []
  | S depth' =>
      cls :: match base cls with
             | Some b => mro_from depth' b
             | None => []
             end
  end.

Definition mro (cls : error_class) : list error_class := mro_from 7 cls.

(** [issubclass(cls, cls')] for two classes of the module. *)
Definition issubclass (cls cls' : error_class) : bool :=
  bool_decide (cls' ∈ mro cls).

(** [self._msg]: the attribute of the first class on the resolution order
    that assigns it. *)
Definition _msg (cls : error_class) : option string :=
  match omap class__msg (mro cls) with
  | m :: _ => Some m
  | [] => None
  end.

(** [_BaseZarrError.__init__] on an instance of [cls]: the message handed
    to [ValueError.__init__], which is [str] of the new exception. *)
Definition _BaseZarrError___init__ (cls : error_class) (args : list pyval)
  : outcome string :=
  match _msg cls with
  | Some m => str_format m args
  | None => Raises AttributeError
  end.

End Errors.

(** * [zarr/api/synchronous.py] *)

Module Synchronous.

(** [isinstance(v, int)]: [bool] is a subclass of [int]. *)
Definition isinstance_int (v : pyval) : bool :=
  match v with
  | VInt _ | VBool _ => true
  | _ => false
  end.

Definition _maybe_tuple_to_tuple (v : pyval) : pyval :=
  if isinstance_int v then VTuple [v] else v.

(** A call with keyword arguments [kw]: the value bound to the parameter
    [name], whose default is [default]. *)
Definition parameter (kw : list (string * pyval)) (name : string)
    (default : pyval) : pyval :=
  match dict_get kw name with
  | Some v => v
  | None => default
  end.

(** What is left for [**kwargs]: the keywords that name no parameter. *)
Definition rest_kwargs (names : list string) (kw : list (string * pyval))
  : list (string * pyval) :=
  List.filter (λ kv, negb (bool_decide (kv.1 ∈ names))) kw.

(** One round of the loop of [open] over the keys. *)
Definition open_round (kwargs : list (string * pyval)) (k : string)
  : list (string * pyval) :=
  let v := default VNone (dict_get kwargs k) in      (* kwargs.get(k) *)
  match v with
  | VNone => kwargs
  | _ => dict_set kwargs k (_maybe_tuple_to_tuple v)
  end.

(** The keyword arguments [open] hands to [async_api.open]. *)
Definition open_arguments (kw : list (string * pyval))
  : list (string * pyval) :=
  let store := parameter kw "store" VNone in
  let mode := parameter kw "mode" VNone in
  let zarr_version := parameter kw "zarr_version" VNone in
  let zarr_format := parameter kw "zarr_format" VNone in
  let path := parameter kw "path" VNone in
  let kwargs :=
    rest_kwargs ["store"; "mode"; "zarr_version"; "zarr_format"; "path"] kw in
  let kwargs := fold_left open_round ["shape"; "chunks"; "chunk_shape"] kwargs in
  [("store", store); ("mode", mode); ("zarr_version", zarr_version);
   ("zarr_format", zarr_format); ("path", path)] ++ kwargs.

(** The names of the keyword parameters of [create]. *)
Definition create_parameters : list string :=
  ["chunks"; "dtype"; "compressor"; "fill_value"; "order"; "store";
   "synchronizer"; "overwrite"; "path"; "chunk_store"; "filters";
   "cache_metadata"; "cache_attrs"; "read_only"; "object_codec";
   "dimension_separator"; "write_empty_chunks"; "zarr_version";
   "zarr_format"; "meta_array"; "attributes"; "chunk_shape";
   "chunk_key_encoding"; "codecs"; "dimension_names"].

(** The positional argument and the keyword arguments [create] hands to
    [async_api.create]. *)
Definition create_arguments (shape : pyval) (kw : list (string * pyval))
  : pyval * list (string * pyval) :=
  let chunks := parameter kw "chunks" VNone in
  let chunk_shape := parameter kw "chunk_shape" VNone in
  let kwargs := rest_kwargs create_parameters kw in
  let shape := _maybe_tuple_to_tuple shape in
  let chunks := _maybe_tuple_to_tuple chunks in
  let chunk_shape := _maybe_tuple_to_tuple chunk_shape in
  (shape,
   [("chunks", chunks);
    ("dtype", parameter kw "dtype" VNone);
    ("compressor", parameter kw "compressor" VNone);
    ("fill_value", parameter kw "fill_value" (VInt 0));
    ("order", parameter kw "order" VNone);
    ("store", parameter kw "store" VNone);
    ("synchronizer", parameter kw "synchronizer" VNone);
    ("overwrite", parameter kw "overwrite" (VBool false));
    ("path", parameter kw "path" VNone);
    ("chunk_store", parameter kw "chunk_store" VNone);
    ("filters", parameter kw "filters" VNone);
    ("cache_metadata", parameter kw "cache_metadata" VNone);
    ("cache_attrs", parameter kw "cache_attrs" VNone);
    ("read_only", parameter kw "read_only" VNone);
    ("object_codec", parameter kw "object_codec" VNone);
    ("dimension_separator", parameter kw "dimension_separator" VNone);
    ("write_empty_chunks", parameter kw "write_empty_chunks" (VBool false));
    ("zarr_version", parameter kw "zarr_version" VNone);
    ("zarr_format", parameter kw "zarr_format" VNone);
    ("meta_array", parameter kw "meta_array" VNone);
    ("attributes", parameter kw "attributes" VNone);
    ("chunk_shape", chunk_shape);
    ("chunk_key_encoding", parameter kw "chunk_key_encoding" VNone);
    ("codecs", parameter kw "codecs" VNone);
    ("dimension_names", parameter kw "dimension_names" VNone)]
   ++ kwargs).

Section api.
(** What lies outside the sources is a parameter: the functions of
    [zarr.api.asynchronous], called with keyword arguments, the classes
    [Array] and [Group] and the test [isinstance(obj, AsyncArray)].
    [sync] runs a coroutine to its end: its result, or its exception. *)
Context (async_api_open : list (string * pyval) → result pyval).
Context (async_api_create : pyval → list (string * pyval) → result pyval).
Context (isinstance_AsyncArray : pyval → bool).
Context (Array Group : pyval → result pyval).

Definition sync {A} (coroutine : result A) : result A := coroutine.

(** [open], called with the keyword arguments [kw] ([store] may also be
    given by position; the decorator [_deprecate_positional_args] concerns
    calls that give more by position, which are not embedded). *)
Definition open (kw : list (string * pyval)) : result pyval :=
  obj ← sync (async_api_open (open_arguments kw));
  if isinstance_AsyncArray obj then Array obj else Group obj.

(** [create(shape, **kw)] *)
Definition create (shape : pyval) (kw : list (string * pyval))
  : result pyval :=
  let '(shape, keywords) := create_arguments shape kw in
  obj ← sync (async_api_create shape keywords);
  Array obj.

End api.

End Synchronous.

(** * Vocabulary of the properties *)

(** ** Metadata documents *)

(** The descriptors of the data model: a node type among array, group and
    unknown, a format version among 2, 3 and unknown. *)
Definition descriptor (node_type : option string) (zarr_format : option Z)
  : Prop :=
  node_type ∈ [Some "array"; Some "group"; None] ∧
  zarr_format ∈ [Some 2; Some 3; None].

(** The store of the claim: both legacy documents, no zarr.json. *)
Definition conflicting_store : gmap string string :=
  <[ZARRAY_JSON := "{}"]> (<[ZGROUP_JSON := "{}"]> ∅).

(** ** Chunk key encodings *)

(** Instances as the constructors build them. *)
Definition configuration_of (separator : pyval) : pyval :=
  VObj "ChunkKeyEncodingConfiguration" [("separator", separator)].

Definition default_encoding (name configuration : pyval) : pyval :=
  VObj "DefaultChunkKeyEncoding"
    [("name", name); ("configuration", configuration)].

Definition v2_encoding (name configuration : pyval) : pyval :=
  VObj "V2ChunkKeyEncoding"
    [("name", name); ("configuration", configuration)].

Fixpoint all_chars (p : ascii → bool) (s : string) : bool :=
  match s with
  | EmptyString => true
  | String c s' => p c && all_chars p s'
  end.

Definition is_digit (c : ascii) : bool :=
  match digit_of c with Some _ => true | None => false end.

Definition is_sign_or_digit (c : ascii) : bool :=
  Ascii.eqb c "-" || is_digit c.

Definition not_space (c : ascii) : bool := negb (is_space c).

(** [decode_chunk_key(encode_chunk_key(c))] for the bodies of the two
    schemes, given the separator. *)
Definition v2_round_trip (separator : string) (chunk_coords : list Z)
  : result (list Z) :=
  key ← V2ChunkKeyEncoding_encode_chunk_key_with (Ok separator) chunk_coords;
  V2ChunkKeyEncoding_decode_chunk_key_with (Ok separator) key.

Definition default_round_trip (separator : string) (chunk_coords : list Z)
  : result (list Z) :=
  key ←
    DefaultChunkKeyEncoding_encode_chunk_key_with (Ok separator) chunk_coords;
  DefaultChunkKeyEncoding_decode_chunk_key_with (Ok separator) key.

(** ** The value codec *)

(** [args] is the argument list of a variable-length tuple hint,
    [tuple[T, ...]]. *)
Definition variadic (args : list ty) : bool :=
  match args with
  | [_; TEllipsis] => true
  | _ => false
  end.

(** The fields of a variant that are declared to be a tag, and the tag the
    variant declares: the name of its one tagged field and the one value of
    that field's literal hint. *)
Definition tag_fields (variant : ty) : list (string * (ty * list meta)) :=
  List.filter is_tagged (get_type_hints variant).

Definition declared_tag (variant : ty) : option (string * pyval) :=
  match tag_fields variant with
  | [(k, (TLiteral [tag], _))] => Some (k, tag)
  | _ => None
  end.

(** The ways in which two variants can violate the tag declaration. *)
Inductive tag_violation (A B : ty) : Prop :=
| zero_or_many_tagged_fields :
    length (tag_fields A) ≠ 1%nat ∨ length (tag_fields B) ≠ 1%nat →
    tag_violation A B
| disagreeing_names x y tA tB mA mB :
    tag_fields A = [(x, (tA, mA))] → tag_fields B = [(y, (tB, mB))] →
    x ≠ y → tag_violation A B
| non_literal_tag x t m :
    tag_fields A = [(x, (t, m))] ∨ tag_fields B = [(x, (t, m))] →
    (∀ tag, t ≠ TLiteral [tag]) → tag_violation A B.

(** The items of a set are pairwise different: none equals an earlier
    one. *)
Fixpoint distinct_from (seen xs : list pyval) : bool :=
  match xs with
  | [] => true
  | x :: xs' => negb (py_in x seen) && distinct_from (seen ++ [x]) xs'
  end.

Definition distinct (xs : list pyval) : bool := distinct_from [] xs.

Section conforms_lists.
Context (conforms : ty → pyval → bool).

Fixpoint conforms_zip (args : list ty) (xs : list pyval) : bool :=
  match args, xs with
  | [], [] => true
  | t :: args', x :: xs' => conforms t x && conforms_zip args' xs'
  | _, _ => false
  end.

Fixpoint conforms_fields (fields : list (string * (ty * list meta)))
    (attrs : list (string * pyval)) : bool :=
  match fields, attrs with
  | [], [] => true
  | (name, (t, _)) :: fields', (k, x) :: attrs' =>
      String.eqb name k && conforms t x && conforms_fields fields' attrs'
  | _, _ => false
  end.
End conforms_lists.

(** [v] is a value of the hint [t]: what it means for a record to be a
    typed record of its type. *)
Fixpoint conforms (t : ty) (v : pyval) {struct t} : bool :=
  match t with
  | TAny => true
  | TNoneType => match v with VNone => true | _ => false end
  | TEllipsis => false
  | TClass name _ =>
      match v with
      | VInt _ => String.eqb name "int"
      | VStr _ => String.eqb name "str"
      | VBool _ => String.eqb name "bool"
      | _ => false
      end
  | TGeneric OTuple [t'; TEllipsis] =>
      match v with VTuple xs => forallb (conforms t') xs | _ => false end
  | TGeneric OTuple args =>
      match v with VTuple xs => conforms_zip conforms args xs | _ => false end
  | TGeneric OList [t'] =>
      match v with VList xs => forallb (conforms t') xs | _ => false end
  | TGeneric OSet [t'] =>
      match v with
      | VSet xs =>
          forallb (conforms t') xs && forallb hashable xs && distinct xs
      | _ => false
      end
  | TGeneric _ _ => false
  | TUnion variants => existsb (λ t', conforms t' v) variants
  | TLiteral values => py_in v values
  | TEnum cls members =>
      match v with
      | VEnum c m x =>
          String.eqb c cls
          && existsb (λ mx, String.eqb mx.1 m && py_eq mx.2 x) members
      | _ => false
      end
  | TDataclass cls fields _ =>
      match v with
      | VObj c attrs => String.eqb c cls && conforms_fields conforms fields attrs
      | _ => false
      end
  end.

(** The records of the round-trip examples. *)
Definition plain (fields : list (string * ty))
  : list (string * (ty * list meta)) :=
  (λ f, (f.1, (f.2, []))) <$> fields.

Definition Inner_type : ty :=
  TDataclass "Inner" (plain [("a", TGeneric OSet [int_])]) (λ _, Ok ()).
Definition Outer_type : ty :=
  TDataclass "Outer" (plain [("inner", Inner_type)]) (λ _, Ok ()).

Definition inner_record : pyval := VObj "Inner" [("a", VSet [VInt 1])].
Definition nested_record : pyval := VObj "Outer" [("inner", inner_record)].

(** [WithTuples] of [tests/v3/test_serialization.py] *)
Definition WithTuples : ty :=
  TDataclass "WithTuples"
    (plain [("x", TGeneric OTuple [int_; TEllipsis]);
            ("y", TGeneric OTuple [int_; str_]);
            ("z", TGeneric OTuple [int_; int_; str_]);
            ("a", TGeneric OSet [int_]);
            ("b", TGeneric OList [str_])]) (λ _, Ok ()).

Definition with_tuples : pyval :=
  VObj "WithTuples"
    [("x", VTuple [VInt 1; VInt 2]);
     ("y", VTuple [VInt 3; VStr "a"]);
     ("z", VTuple [VInt 4; VInt 5; VStr "b"]);
     ("a", VSet [VInt 0; VInt 1]);
     ("b", VList [VStr "c"; VStr "d"])].

(** A record in the shape of the array metadata of the repository's
    round-trip test: a nested record, a tagged union, an optional field, a
    fixed tuple and a set. *)
Definition ChunkGrid_type : ty :=
  TDataclass "RegularChunkGridConfiguration"
    (plain [("chunk_shape", TGeneric OTuple [int_; TEllipsis])]) (λ _, Ok ()).

Definition Metadata_type : ty :=
  TDataclass "Metadata"
    (plain [("shape", TGeneric OTuple [int_; TEllipsis]);
            ("chunk_grid", ChunkGrid_type);
            ("chunk_key_encoding", CHUNK_KEY_ENCODINGS);
            ("dimension_names",
             TUnion [TGeneric OTuple [str_; TEllipsis]; TNoneType]);
            ("fill", TGeneric OTuple [int_; str_]);
            ("flags", TGeneric OSet [str_])]) (λ _, Ok ()).

Definition metadata_record : pyval :=
  VObj "Metadata"
    [("shape", VTuple [VInt 1]);
     ("chunk_grid",
      VObj "RegularChunkGridConfiguration" [("chunk_shape", VTuple [VInt 1])]);
     ("chunk_key_encoding",
      VObj "DefaultChunkKeyEncoding"
        [("name", VStr "default");
         ("configuration",
          VObj "ChunkKeyEncodingConfiguration" [("separator", VStr ".")])]);
     ("dimension_names", VTuple [VStr "a"]);
     ("fill", VTuple [VInt 0; VStr "nan"]);
     ("flags", VSet [VStr "r"; VStr "w"])].

(** Two variants tagged by [x], with a field each. *)
Definition A_type : ty :=
  TDataclass "A" [("x", (TLiteral [VStr "a"], [Tag])); ("n", (int_, []))]
    (λ _, Ok ()).
Definition B_type : ty :=
  TDataclass "B" [("x", (TLiteral [VStr "b"], [Tag])); ("s", (str_, []))]
    (λ _, Ok ()).

(** The image of a value in JSON: what [json.loads] returns for the
    document [to_doc] of the value.  Tuples and sets become lists,
    instances dicts. *)
Fixpoint jsonify (v : pyval) : pyval :=
  match v with
  | VList xs | VTuple xs | VSet xs => VList (jsonify <$> xs)
  | VDict items | VObj _ items =>
      VDict ((λ kv, (kv.1, jsonify kv.2)) <$> items)
  | _ => v
  end.

Fixpoint to_doc (v : pyval) : json_doc :=
  match v with
  | VNone => JNull
  | VBool b => JBool b
  | VInt z => JNumber z
  | VStr s => JString s
  | VList xs | VTuple xs | VSet xs => JArray (to_doc <$> xs)
  | VDict items | VObj _ items =>
      JObject ((λ kv, (kv.1, to_doc kv.2)) <$> items)
  | VEnum _ _ value => to_doc value
  end.

(** Values that [asdict] and [json.dumps] take to a document without the
    help of [encode_value]: no set and no enum member inside, names
    without repetition. *)
Fixpoint jsonable (v : pyval) : bool :=
  match v with
  | VNone | VBool _ | VInt _ | VStr _ => true
  | VList xs | VTuple xs => forallb jsonable xs
  | VDict items | VObj _ items =>
      forallb (λ kv, jsonable kv.2) items && bool_decide (NoDup items.*1)
  | VSet _ | VEnum _ _ _ => false
  end.

Definition is_scalar (v : pyval) : bool :=
  match v with
  | VNone | VBool _ | VInt _ | VStr _ => true
  | _ => false
  end.

(** The hints whose values are [jsonable]: the built-in scalars, literals
    of scalars, tuples and lists of such hints, optionals [T | None] of
    such hints [T] that are neither a literal nor a union (so that
    [T | None] is a [types.UnionType] of two variants), dataclasses of such
    fields (none of them named [codecs], which [from_dict] hands to
    [parse_codecs]) whose [__post_init__] accepts every typed instance, and
    unions of two such dataclasses that declare different tags under one
    name. *)
Inductive json_stable : ty → Prop :=
| stable_int : json_stable int_
| stable_str : json_stable str_
| stable_bool : json_stable bool_
| stable_literal values :
    forallb is_scalar values = true → json_stable (TLiteral values)
| stable_tuple_of t :
    json_stable t → json_stable (TGeneric OTuple [t; TEllipsis])
| stable_tuple args :
    args ≠ [] → Forall json_stable args → json_stable (TGeneric OTuple args)
| stable_list t : json_stable t → json_stable (TGeneric OList [t])
| stable_optional t :
    json_stable t → union_member t = true →
    json_stable (TUnion [t; TNoneType])
| stable_union clsA fieldsA piA clsB fieldsB piB x a b :
    json_stable (TDataclass clsA fieldsA piA) →
    json_stable (TDataclass clsB fieldsB piB) →
    declared_tag (TDataclass clsA fieldsA piA) = Some (x, VStr a) →
    declared_tag (TDataclass clsB fieldsB piB) = Some (x, VStr b) →
    a ≠ b →
    json_stable (TUnion [TDataclass clsA fieldsA piA;
                         TDataclass clsB fieldsB piB])
| stable_dataclass cls fields post_init :
    NoDup fields.*1 → "codecs" ∉ fields.*1 →
    (∀ attrs, conforms_fields conforms fields attrs = true →
              post_init (VObj cls attrs) = Ok ()) →
    Forall (λ f, json_stable f.2.1) fields →
    json_stable (TDataclass cls fields post_init).

(** The hints of the fields of a record that round-trips: the above, and
    sets of them, which [encode_value] turns into lists. *)
Inductive field_stable : ty → Prop :=
| field_json t : json_stable t → field_stable t
| field_set t : json_stable t → field_stable (TGeneric OSet [t]).

(** [decode(encode(r), type)] *)
Definition round_trip (parse_codecs : pyval → result pyval) (type : ty)
    (r : pyval) : result pyval :=
  data ← encode r;
  decode parse_codecs data type.

(** What the round trip needs of the value [x] of a field of hint [t]:
    the three stages, each on its own. *)
Definition field_round_trips (parse_codecs : pyval → result pyval) (t : ty)
    (x : pyval) : Prop :=
  json_dumps (encode_value (asdict_inner x)) = Ok (to_doc x) ∧
  json_loads (to_doc x) = jsonify x ∧
  decode_value parse_codecs t (jsonify x) = Ok x.

(** ** Further vocabulary *)

(** The states the two [match] statements of [_io.py] handle: format 3
    with any node type, or a known or unknown node type with format 2 or
    unknown. *)
Definition handled (node_type : option string) (zarr_format : option Z)
  : Prop :=
  zarr_format = Some 3 ∨
  (node_type ∈ [Some "array"; Some "group"; None] ∧
   zarr_format ∈ [Some 2; None]).

(** The optional form [T | None] of a union, as [decode_value] tests it. *)
Definition optional_form (variants : list ty) : bool :=
  (length variants =? 2)%nat && existsb is_NoneType variants.

(** A variant that declares the tag of [A_type] a second time. *)
Definition C_type : ty :=
  TDataclass "C" [("x", (TLiteral [VStr "a"], [Tag])); ("n", (int_, []))]
    (λ _, Ok ()).

(** An enum with two members. *)
Definition Endian : ty :=
  TEnum "Endian" [("big", VStr "big"); ("little", VStr "little")].

(** The mapping [ChunkKeyEncoding.to_dict] writes. *)
Definition encoding_document (name separator : pyval) : pyval :=
  VDict [("name", name); ("configuration", VDict [("separator", separator)])].

(** The number of arguments the message of an error class refers to. *)
Definition fields_of_message (cls : Errors.error_class) : nat :=
  match cls with
  | Errors._BaseZarrError | Errors.MetadataValidationError => 0
  | _ => 2
  end.

(** Stand-ins for what [zarr/api/synchronous.py] imports, for the
    examples: [async_api.open] and [async_api.create] return their
    arguments, nothing is an [AsyncArray], [Array] and [Group] wrap. *)
Definition echo_open (kw : list (string * pyval)) : result pyval :=
  Ok (VDict kw).
Definition echo_create (shape : pyval) (kw : list (string * pyval))
  : result pyval :=
  Ok (VDict (("shape", shape) :: kw)).
Definition wrap (cls : string) (obj : pyval) : result pyval :=
  Ok (VObj cls [("_async", obj)]).

(** A variant that declares the tag [tag] under the field [x]. *)
Definition declares (x : string) (variant : ty) (tag : string) : Prop :=
  declared_tag variant = Some (x, VStr tag).

(** The tag table of variants that declare the string tags [tags], from
    position [position] on, and the table as [decode_value] holds it. *)
Fixpoint string_tags (table : list (string * nat)) (position : nat)
    (tags : list string) : list (string * nat) :=
  match tags with
  | [] => table
  | tag :: tags' => string_tags (dict_set table tag position) (S position) tags'
  end.

Definition as_tags (table : list (string * nat)) : list (pyval * nat) :=
  (λ e, (VStr e.1, e.2)) <$> table.

(** A third variant tagged by [x]. *)
Definition D_type : ty :=
  TDataclass "D" [("x", (TLiteral [VStr "d"], [Tag]))] (λ _, Ok ()).

(** * Properties *)

(** ** Equality with a string *)

Lemma py_eq_VStr s v : py_eq (VStr s) v = true ↔ v = VStr s.
Proof.
  destruct v; simpl; try (split; [discriminate|done]).
  rewrite String.eqb_eq. split; congruence.
Qed.

Lemma py_eq_to_VStr v s : py_eq v (VStr s) = true → v = VStr s.
Proof.
  destruct v; simpl; try discriminate. by intros ->%String.eqb_eq.
Qed.

(** ** Metadata document discovery *)

Ltac case_state :=
  repeat match goal with
  | |- context [bool_decide ?P] => destruct (bool_decide P)
  | |- context [case_ ?s ?p] => destruct (case_ s p)
  end.

Lemma build_paths_NoDup node_type zarr_format paths :
  _build_paths node_type zarr_format = Ok paths → NoDup paths.
Proof.
  unfold _build_paths. case_state; intros [= <-] || discriminate;
    apply (bool_decide_unpack _); vm_compute; reflexivity.
Qed.

Lemma build_paths_total node_type zarr_format :
  descriptor node_type zarr_format →
  ∃ paths, _build_paths node_type zarr_format = Ok paths.
Proof.
  intros [Hn Hz].
  repeat (apply elem_of_cons in Hn as [-> | Hn]);
    repeat (apply elem_of_cons in Hz as [-> | Hz]);
    try (by apply elem_of_nil in Hn); try (by apply elem_of_nil in Hz);
    vm_compute; eauto.
Qed.

(** C5. [_build_paths] is a function of the descriptor alone (it takes no
    store and no state, so equal descriptors give equal results); on each of
    the nine descriptors it returns a key list; every key list it returns is
    free of duplicates; for an unknown node type and unknown version it
    returns exactly the four keys zarr.json, .zattrs, .zgroup, .zarray; for
    an array of version 3 exactly zarr.json. *)
Theorem build_paths_key_sets :
  (∀ node_type zarr_format node_type' zarr_format',
      node_type = node_type' → zarr_format = zarr_format' →
      _build_paths node_type zarr_format
      = _build_paths node_type' zarr_format') ∧
  (∀ node_type zarr_format,
      descriptor node_type zarr_format →
      ∃ paths, _build_paths node_type zarr_format = Ok paths ∧ NoDup paths) ∧
  (∀ node_type zarr_format paths,
      _build_paths node_type zarr_format = Ok paths → NoDup paths) ∧
  (∃ paths, _build_paths None None = Ok paths ∧ length paths = 4%nat ∧
     list_to_set paths
     = ({[ ZARR_JSON; ZATTRS_JSON; ZGROUP_JSON; ZARRAY_JSON ]} : gset string)) ∧
  (∃ paths, _build_paths (Some "array") (Some 3) = Ok paths ∧
     list_to_set paths = ({[ ZARR_JSON ]} : gset string)).
Proof.
  split; [|split; [|split; [|split]]].
  - by intros nt zf nt' zf' -> ->.
  - intros nt zf Hd. destruct (build_paths_total nt zf Hd) as [paths Hp].
    exists paths. split; [done|]. by eapply build_paths_NoDup.
  - apply build_paths_NoDup.
  - eexists. split; [reflexivity|]. split; [reflexivity|].
    apply set_eq. intros k. set_unfold. tauto.
  - eexists. split; [reflexivity|].
    apply set_eq. intros k. set_unfold. tauto.
Qed.

Lemma build_paths_key_sets_witness :
  NoDup [ZARRAY_JSON; ZATTRS_JSON; ZGROUP_JSON].
Proof.
  apply (proj1 (proj2 (proj2 build_paths_key_sets)) None (Some 2)).
  reflexivity.
Defined.

Lemma gather_documents_unknown_type (store_path : gmap string string)
    zarr_format :
  zarr_format ≠ Some 3 →
  ∀ node_type,
    _gather_documents store_path node_type zarr_format = Ok VNone ∨
    _gather_documents store_path node_type zarr_format = Raise ValueError.
Proof.
  intros Hz nt. unfold _gather_documents, _build_paths.
  rewrite (bool_decide_eq_false_2 _ Hz).
  case_state; simpl; rewrite ?(bool_decide_eq_false_2 _ Hz); auto.
Qed.

Lemma gather_documents_v3 (store_path : gmap string string) node_type :
  _gather_documents store_path node_type (Some 3)
  = match store_path !! ZARR_JSON with
    | Some _ => Ok VNone
    | None => Raise Exception_
    end.
Proof.
  unfold _gather_documents, _build_paths. simpl.
  unfold dict_zip. simpl. rewrite lookup_insert_eq.
  by destruct (store_path !! ZARR_JSON).
Qed.

(** C4. [_gather_documents] does not report the ambiguous state.  With an
    unknown node type (format 2 or unknown) it returns [None] whatever the
    store holds, in particular when both .zarray and .zgroup are present and
    zarr.json is not; and for no store and no descriptor does it raise
    [ContainsArrayAndGroupError]. *)
Theorem gather_documents_ignores_array_group_conflict
    (store_path : gmap string string) :
  _gather_documents store_path None None = Ok VNone ∧
  _gather_documents store_path None (Some 2) = Ok VNone ∧
  ∀ node_type zarr_format,
    _gather_documents store_path node_type zarr_format
    ≠ Raise ContainsArrayAndGroupError.
Proof.
  split; [reflexivity|]. split; [reflexivity|].
  intros nt zf. destruct (decide (zf = Some 3)) as [->|Hz].
  - rewrite gather_documents_v3. by destruct (store_path !! ZARR_JSON).
  - by destruct (gather_documents_unknown_type store_path zf Hz nt) as [-> | ->].
Qed.

(** With format 3 the one key read is zarr.json; the function raises when
    the store has no such key and returns [None] when it has, whatever the
    node type. *)
Theorem gather_documents_format_3 (store_path : gmap string string)
    node_type :
  _build_paths node_type (Some 3) = Ok [ZARR_JSON] ∧
  _gather_documents store_path node_type (Some 3)
  = match store_path !! ZARR_JSON with
    | Some _ => Ok VNone
    | None => Raise Exception_
    end.
Proof. split; [reflexivity|apply gather_documents_v3]. Qed.

Example gather_documents_conflicting_store :
  conflicting_store !! ZARRAY_JSON = Some "{}" ∧
  conflicting_store !! ZGROUP_JSON = Some "{}" ∧
  conflicting_store !! ZARR_JSON = None ∧
  _gather_documents conflicting_store None None = Ok VNone.
Proof. repeat split. Qed.

(** ** Chunk key encodings *)

Lemma bind_params_names params kwargs attrs :
  bind_params params kwargs = Ok attrs → attrs.*1 = params.*1.
Proof.
  revert attrs. induction params as [|[name default] params IH];
    intros attrs; simpl.
  - by intros [= <-].
  - destruct (dict_get kwargs name), default; simpl; try discriminate;
      (destruct (bind_params params kwargs) as [rest|]; simpl;
       [|discriminate]); intros [= <-]; simpl; f_equal; by apply IH.
Qed.

Lemma dict_get_None_names {A} (d : list (string * A)) k :
  k ∉ d.*1 → dict_get d k = None.
Proof.
  induction d as [|[k' v] d IH]; simpl; [done|].
  intros Hk. apply not_elem_of_cons in Hk as [Hne Hk].
  destruct (String.eqb_spec k' k); [congruence|]. by apply IH.
Qed.

(** An instance built by [dataclass_init] has the declared fields as its
    attributes and no other. *)
Lemma dataclass_init_getattr cls params post_init kwargs self name :
  dataclass_init cls params post_init kwargs = Ok self →
  name ∉ params.*1 →
  getattr self name = Raise AttributeError.
Proof.
  unfold dataclass_init.
  destruct (unexpected_keyword params kwargs); [discriminate|].
  destruct (bind_params params kwargs) as [attrs|] eqn:Hb; simpl;
    [|discriminate].
  destruct (post_init (VObj cls attrs)); simpl; [|discriminate].
  intros [= <-] Hname. simpl.
  rewrite dict_get_None_names; [done|].
  by rewrite (bind_params_names _ _ _ Hb).
Qed.

(** No instance of either class has a [separator] attribute. *)
Lemma constructed_encoding_has_no_separator kwargs self :
  DefaultChunkKeyEncoding kwargs = Ok self ∨
  V2ChunkKeyEncoding kwargs = Ok self →
  self_separator self = Raise AttributeError.
Proof.
  intros [H|H]; unfold self_separator;
    (erewrite dataclass_init_getattr; [done|exact H|]);
    simpl; set_unfold; intros [?|[?|[]]]; discriminate.
Qed.

(** Whatever the coordinates, [encode_chunk_key] raises on a constructed
    instance, and so does [decode_chunk_key] but for the key ["c"] of the
    default scheme. *)
Lemma encode_chunk_key_raises kwargs self chunk_coords :
  (DefaultChunkKeyEncoding kwargs = Ok self →
   DefaultChunkKeyEncoding_encode_chunk_key self chunk_coords
   = Raise AttributeError) ∧
  (V2ChunkKeyEncoding kwargs = Ok self →
   V2ChunkKeyEncoding_encode_chunk_key self chunk_coords
   = Raise AttributeError).
Proof.
  split; intros H;
    unfold DefaultChunkKeyEncoding_encode_chunk_key,
      DefaultChunkKeyEncoding_encode_chunk_key_with,
      V2ChunkKeyEncoding_encode_chunk_key,
      V2ChunkKeyEncoding_encode_chunk_key_with;
    by rewrite (constructed_encoding_has_no_separator kwargs self); auto.
Qed.

(** What the method bodies compute once [self.separator] is given. *)
Lemma chunk_key_examples_given_separator :
  DefaultChunkKeyEncoding_encode_chunk_key_with (Ok "/") [] = Ok "c" ∧
  DefaultChunkKeyEncoding_encode_chunk_key_with (Ok "/") [1; 2] = Ok "c/1/2" ∧
  DefaultChunkKeyEncoding_decode_chunk_key_with (Ok "/") "c" = Ok [] ∧
  V2ChunkKeyEncoding_encode_chunk_key_with (Ok ".") [] = Ok "0" ∧
  V2ChunkKeyEncoding_encode_chunk_key_with (Ok ".") [1; 2] = Ok "1.2".
Proof. repeat split. Qed.

(** C8. On the instances [DefaultChunkKeyEncoding] with separator ["/"] and
    [V2ChunkKeyEncoding] with separator ["."], as the constructors build
    them: [decode_chunk_key("c")] is [()], and each of the four
    [encode_chunk_key] calls raises [AttributeError], the instance having
    the attributes [name] and [configuration] and no [separator]. *)
Theorem chunk_key_examples_on_instances :
  let default := default_encoding (VStr "default")
                   (configuration_of (VStr "/")) in
  let v2 := v2_encoding (VStr "v2") (configuration_of (VStr ".")) in
  (c ← ChunkKeyEncodingConfiguration [("separator", VStr "/")];
   DefaultChunkKeyEncoding [("configuration", c)]) = Ok default ∧
  (c ← ChunkKeyEncodingConfiguration [("separator", VStr ".")];
   V2ChunkKeyEncoding [("configuration", c)]) = Ok v2 ∧
  DefaultChunkKeyEncoding_decode_chunk_key default "c" = Ok [] ∧
  DefaultChunkKeyEncoding_encode_chunk_key default [] = Raise AttributeError ∧
  DefaultChunkKeyEncoding_encode_chunk_key default [1; 2]
  = Raise AttributeError ∧
  V2ChunkKeyEncoding_encode_chunk_key v2 [] = Raise AttributeError ∧
  V2ChunkKeyEncoding_encode_chunk_key v2 [1; 2] = Raise AttributeError ∧
  ChunkKeyEncoding_to_dict default
  = Ok (VDict [("name", VStr "default");
               ("configuration", VDict [("separator", VStr "/")])]).
Proof. repeat split. Qed.

(** [parse_separator] accepts ["."] and ["/"] and nothing else; every
    other value raises [ValueError]. *)
Theorem parse_separator_accepts (data : pyval) :
  (parse_separator data = Ok data ↔ data = VStr "." ∨ data = VStr "/") ∧
  (parse_separator data = Ok data ∨ parse_separator data = Raise ValueError).
Proof.
  unfold parse_separator, py_in, existsb.
  destruct (py_eq data (VStr ".")) eqn:Hdot; simpl.
  - apply py_eq_to_VStr in Hdot. subst. split; [|by left].
    split; [by left|done].
  - destruct (py_eq data (VStr "/")) eqn:Hslash; simpl.
    + apply py_eq_to_VStr in Hslash. subst. split; [|by left].
      split; [by right|done].
    + split; [|by right]. split; [done|].
      intros [->| ->]; simpl in *; discriminate.
Qed.

(** [to_dict] of an encoding is the mapping of its name and, under
    [configuration], of its separator. *)
Theorem chunk_key_encoding_to_dict (name separator : pyval) :
  ChunkKeyEncoding_to_dict (default_encoding name (configuration_of separator))
  = Ok (VDict [("name", name);
               ("configuration", VDict [("separator", separator)])]) ∧
  ChunkKeyEncoding_to_dict (v2_encoding name (configuration_of separator))
  = Ok (VDict [("name", name);
               ("configuration", VDict [("separator", separator)])]).
Proof. split; reflexivity. Qed.

(** C10. [ChunkKeyEncoding.from_dict] returns an instance of
    [ChunkKeyEncoding] as it is, whatever its class and attributes are. *)
Theorem from_dict_instance_passthrough (e : pyval) :
  isinstance_ChunkKeyEncoding e = true →
  ChunkKeyEncoding_from_dict e = Ok e.
Proof. unfold ChunkKeyEncoding_from_dict. by intros ->. Qed.

Lemma from_dict_instance_passthrough_witness :
  ChunkKeyEncoding_from_dict
    (v2_encoding (VStr "v2") (configuration_of (VStr "x")))
  = Ok (v2_encoding (VStr "v2") (configuration_of (VStr "x"))).
Proof. apply from_dict_instance_passthrough. reflexivity. Defined.

(** C7. Nothing validates the separator when an encoding is constructed:
    for every value [separator] the configuration and both encodings are
    built, although [parse_separator] rejects e.g. ["x"]; and
    [V2ChunkKeyEncoding] accepts any [name].  An unknown name is rejected
    by [from_dict] ([ValueError]) and by [DefaultChunkKeyEncoding]
    ([TypeError]). *)
Theorem separator_not_validated_at_construction (separator name : pyval) :
  ChunkKeyEncodingConfiguration [("separator", separator)]
  = Ok (configuration_of separator) ∧
  DefaultChunkKeyEncoding [("configuration", configuration_of separator)]
  = Ok (default_encoding (VStr "default") (configuration_of separator)) ∧
  V2ChunkKeyEncoding [("name", name);
                      ("configuration", configuration_of separator)]
  = Ok (v2_encoding name (configuration_of separator)) ∧
  parse_separator (VStr "x") = Raise ValueError ∧
  ChunkKeyEncoding_from_dict (VDict [("name", VStr "x")])
  = Raise ValueError ∧
  DefaultChunkKeyEncoding [("name", VStr "x")] = Raise TypeError.
Proof. repeat split. Qed.

Lemma unexpected_keyword_found params kwargs k :
  dict_get kwargs k ≠ None → dict_get params k = None →
  unexpected_keyword params kwargs = true.
Proof.
  intros Hk Hp. unfold unexpected_keyword. apply existsb_exists.
  induction kwargs as [|[k' v] kwargs IH]; simpl in Hk; [done|].
  destruct (String.eqb_spec k' k) as [->|Hne].
  - exists (k, v). split; [by left|]. simpl. by rewrite Hp.
  - destruct (IH Hk) as [x [Hin Hx]]. exists x. split; [by right|done].
Qed.

Lemma separator_keyword_rejected kwargs :
  dict_get kwargs "separator" ≠ None →
  DefaultChunkKeyEncoding kwargs = Raise TypeError ∧
  V2ChunkKeyEncoding kwargs = Raise TypeError.
Proof.
  intros Hk.
  unfold DefaultChunkKeyEncoding, V2ChunkKeyEncoding, dataclass_init.
  by rewrite !(unexpected_keyword_found _ kwargs "separator").
Qed.

(** C6. Decoding a value tree without [configuration] constructs nothing:
    [from_dict] passes the defaulted separator as a keyword [separator],
    which neither class accepts ([TypeError]); the value codec, decoding
    the same tree against the union of the two classes, reaches [.get] on
    the absent configuration ([AttributeError]). *)
Theorem from_dict_without_configuration_raises parse_codecs :
  ChunkKeyEncoding_from_dict (VDict [("name", VStr "default")])
  = Raise TypeError ∧
  ChunkKeyEncoding_from_dict (VDict [("name", VStr "v2")])
  = Raise TypeError ∧
  decode_value parse_codecs CHUNK_KEY_ENCODINGS
    (VDict [("name", VStr "default")]) = Raise AttributeError ∧
  decode_value parse_codecs CHUNK_KEY_ENCODINGS
    (VDict [("name", VStr "v2")]) = Raise AttributeError.
Proof. repeat split. Qed.

(** With the configuration present, [from_dict] fails in the same way; the
    value codec builds the instance. *)
Lemma from_dict_with_configuration parse_codecs :
  ChunkKeyEncoding_from_dict
    (VDict [("name", VStr "default");
            ("configuration", VDict [("separator", VStr "/")])])
  = Raise TypeError ∧
  decode_value parse_codecs CHUNK_KEY_ENCODINGS
    (VDict [("name", VStr "default");
            ("configuration", VDict [("separator", VStr "/")])])
  = Ok (default_encoding (VStr "default") (configuration_of (VStr "/"))).
Proof. repeat split. Qed.

(** ** Chunk keys as strings *)

(** *** [str] and [int] *)

Lemma is_sign_or_digit_not_space c :
  is_sign_or_digit c = true → not_space c = true.
Proof.
  destruct c as [[] [] [] [] [] [] [] []]; vm_compute; congruence.
Qed.

Lemma all_chars_impl (p q : ascii → bool) s :
  (∀ c, p c = true → q c = true) →
  all_chars p s = true → all_chars q s = true.
Proof.
  intros Hpq. induction s as [|c s IH]; simpl; [done|].
  rewrite !andb_true_iff. intros [Hc Hs]. auto.
Qed.

Lemma lstrip_id s : all_chars not_space s = true → lstrip s = s.
Proof.
  destruct s as [|c s]; simpl; [done|]. unfold not_space.
  rewrite andb_true_iff, negb_true_iff. by intros [-> _].
Qed.

Lemma rstrip_id s : all_chars not_space s = true → rstrip s = s.
Proof.
  induction s as [|c s IH]; simpl; [done|]. unfold not_space at 1.
  rewrite andb_true_iff, negb_true_iff. intros [Hc Hs].
  rewrite (IH Hs), Hc. by destruct s.
Qed.

Lemma digits_of_uint u : all_chars is_digit (NilEmpty.string_of_uint u) = true.
Proof. induction u; simpl; auto. Qed.

Lemma scan_digits_of_uint u (after_digit : bool) :
  after_digit = true ∨ u ≠ Decimal.Nil →
  scan_digits after_digit (NilEmpty.string_of_uint u) = Some u.
Proof.
  revert after_digit.
  induction u; intros after_digit Hu; simpl;
    try (rewrite IHu by auto; reflexivity).
  by destruct Hu as [->|].
Qed.

(** The string of a natural number: a digit, then digits, which scan back
    to the same number. *)
Lemma string_of_uint_scans u :
  ∃ c r u',
    NilZero.string_of_uint u = String c r ∧
    is_digit c = true ∧ all_chars is_digit r = true ∧
    scan_digits false (String c r) = Some u' ∧ Z.of_uint u' = Z.of_uint u.
Proof.
  destruct u as [|u|u|u|u|u|u|u|u|u|u].
  1: by exists "0"%char, EmptyString, (Decimal.D0 Decimal.Nil).
  all: eexists _, _, _; split; [reflexivity|];
    split; [reflexivity|]; split; [apply digits_of_uint|];
    split; [|reflexivity];
    simpl; by rewrite scan_digits_of_uint by auto.
Qed.

Lemma int_of_str_digits c r u :
  is_digit c = true → all_chars is_digit r = true →
  scan_digits false (String c r) = Some u →
  int_of_str (String c r) = Ok (Z.of_uint u) ∧
  int_of_str (String "-" (String c r)) = Ok (- Z.of_uint u).
Proof.
  intros Hc Hr Hu.
  assert (all_chars not_space (String c r) = true) as Hs.
  { apply (all_chars_impl is_sign_or_digit);
      [apply is_sign_or_digit_not_space|].
    apply (all_chars_impl is_digit);
      [intros a Ha; unfold is_sign_or_digit; by rewrite Ha, orb_true_r|].
    simpl. by rewrite Hc, Hr. }
  assert (Ascii.eqb c "-" = false ∧ Ascii.eqb c "+" = false) as [Hm Hp].
  { clear -Hc. destruct c as [[] [] [] [] [] [] [] []];
      vm_compute in *; split; congruence. }
  unfold int_of_str. split.
  - rewrite (lstrip_id _ Hs), (rstrip_id _ Hs). by rewrite Hm, Hp, Hu.
  - assert (all_chars not_space (String "-" (String c r)) = true) as Hs'
      by (change (true && all_chars not_space (String c r) = true);
          by rewrite Hs).
    rewrite (lstrip_id _ Hs'), (rstrip_id _ Hs').
    change (Ascii.eqb "-" "-") with true. cbv iota. by rewrite Hu.
Qed.

(** [int(str(z)) == z] *)
Lemma int_of_str_of_int z : int_of_str (str_of_int z) = Ok z.
Proof.
  unfold str_of_int. rewrite <- (DecimalZ.of_to z) at 2.
  destruct (Z.to_int z) as [u|u];
    destruct (string_of_uint_scans u) as (c & r & u' & Hs & Hc & Hr & Hu & Hz);
    destruct (int_of_str_digits c r u' Hc Hr Hu) as [Hpos Hneg].
  - change (NilZero.string_of_int (Decimal.Pos u))
      with (NilZero.string_of_uint u).
    change (Z.of_int (Decimal.Pos u)) with (Z.of_uint u).
    by rewrite Hs, Hpos, Hz.
  - change (NilZero.string_of_int (Decimal.Neg u))
      with (String "-" (NilZero.string_of_uint u)).
    change (Z.of_int (Decimal.Neg u)) with (- Z.of_uint u).
    by rewrite Hs, Hneg, Hz.
Qed.

Lemma str_of_int_chars z : all_chars is_sign_or_digit (str_of_int z) = true.
Proof.
  unfold str_of_int.
  assert (∀ u, all_chars is_sign_or_digit (NilZero.string_of_uint u) = true)
    as Hu.
  { intros u. apply (all_chars_impl is_digit).
    - intros a Ha. unfold is_sign_or_digit. by rewrite Ha, orb_true_r.
    - destruct u; try apply (digits_of_uint (_ u)); reflexivity. }
  destruct (Z.to_int z) as [u|u]; simpl; [apply Hu|].
  by rewrite Hu.
Qed.

Lemma str_of_int_nonempty z : str_of_int z ≠ EmptyString.
Proof.
  unfold str_of_int. destruct (Z.to_int z) as [u|u]; simpl; [|done].
  by destruct (string_of_uint_scans u) as (c & r & _ & -> & _).
Qed.

Lemma mapM_int_of_str chunk_coords :
  mapM int_of_str (str_of_int <$> chunk_coords) = Ok chunk_coords.
Proof.
  induction chunk_coords as [|z zs IH]; [done|].
  change (mapM int_of_str (str_of_int <$> z :: zs))
    with (y ← int_of_str (str_of_int z);
          k ← mapM int_of_str (str_of_int <$> zs); Ok (y :: k)).
  by rewrite int_of_str_of_int, IH.
Qed.

(** *** [split] and [join] *)

Lemma has_char_other c s :
  is_sign_or_digit c = false →
  all_chars is_sign_or_digit s = true → has_char c s = false.
Proof.
  intros Hc. induction s as [|a s IH]; simpl; [done|].
  rewrite andb_true_iff. intros [Ha Hs]. rewrite (IH Hs), orb_false_r.
  destruct (Ascii.eqb_spec a c) as [->|]; congruence.
Qed.

Lemma prefix_empty s : String.prefix EmptyString s = true.
Proof. by destruct s. Qed.

Lemma split_from_no_separator c s :
  has_char c s = false →
  split_from (String c EmptyString) 0 s = (s, []).
Proof.
  induction s as [|a s IH]; simpl; [done|].
  rewrite orb_false_iff. intros [Ha Hs].
  destruct (ascii_dec c a) as [->|_];
    [by rewrite Ascii.eqb_refl in Ha|].
  by rewrite (IH Hs).
Qed.

Lemma split_from_separator c s t :
  has_char c s = false →
  split_from (String c EmptyString) 0 (s +:+ String c t)
  = (s, (split_from (String c EmptyString) 0 t).1
        :: (split_from (String c EmptyString) 0 t).2).
Proof.
  induction s as [|a s IH]; simpl.
  - intros _. destruct (ascii_dec c c); [|done].
    rewrite prefix_empty.
    by destruct (split_from (String c EmptyString) 0 t).
  - rewrite orb_false_iff. intros [Ha Hs].
    destruct (ascii_dec c a) as [->|_];
      [by rewrite Ascii.eqb_refl in Ha|].
    by rewrite (IH Hs).
Qed.

(** [sep.join(items).split(sep) == items] for a one-character separator
    that occurs in no item, and at least one item. *)
Lemma split_join c (items : list string) :
  items ≠ [] →
  Forall (λ s, has_char c s = false) items →
  str_split (str_join (String c EmptyString) items) (String c EmptyString)
  = Ok items.
Proof.
  intros Hne Hall. unfold str_split, str_join.
  assert (split_from (String c EmptyString) 0
            (String.concat (String c EmptyString) items)
          = (hd EmptyString items, tl items)) as ->.
  { induction Hall as [|s items Hs Hitems IH]; [done|].
    destruct items as [|s' items].
    - simpl. by apply split_from_no_separator.
    - change (String.concat (String c EmptyString) (s :: s' :: items))
        with (s +:+ String c
                      (String.concat (String c EmptyString) (s' :: items))).
      rewrite (split_from_separator _ _ _ Hs), IH by done. done. }
  by destruct items.
Qed.

Lemma join_nonempty sep s (items : list string) :
  s ≠ EmptyString → str_join sep (s :: items) ≠ EmptyString.
Proof.
  unfold str_join. destruct s as [|a s]; [done|].
  intros _. by destruct items.
Qed.

(** The round trip of the v2 bodies, for any integers. *)
Lemma v2_round_trip_nonempty c (chunk_coords : list Z) :
  is_sign_or_digit c = false →
  chunk_coords ≠ [] →
  v2_round_trip (String c EmptyString) chunk_coords = Ok chunk_coords.
Proof.
  intros Hc Hne. unfold v2_round_trip,
    V2ChunkKeyEncoding_encode_chunk_key_with,
    V2ChunkKeyEncoding_decode_chunk_key_with.
  cbv [mbind result_bind].
  set (key := str_join (String c EmptyString) (map str_of_int chunk_coords)).
  assert (String.eqb key "" = false) as ->.
  { apply String.eqb_neq. subst key.
    destruct chunk_coords as [|z zs]; [done|].
    apply join_nonempty, str_of_int_nonempty. }
  subst key. rewrite split_join.
  - apply mapM_int_of_str.
  - by destruct chunk_coords.
  - apply Forall_fmap, Forall_forall. intros z _. simpl.
    apply has_char_other; [done|apply str_of_int_chars].
Qed.

(** Given the separator ["."] or ["/"], the bodies of the v2 scheme are
    inverse to each other on non-empty coordinate tuples:
    decoding the encoding of a non-empty tuple of integers returns it, and
    re-encoding the decoding of such a key returns the key. *)
Theorem v2_chunk_key_round_trip (separator : string)
    (chunk_coords : list Z) :
  separator = "." ∨ separator = "/" →
  chunk_coords ≠ [] →
  v2_round_trip separator chunk_coords = Ok chunk_coords ∧
  ∀ key,
    V2ChunkKeyEncoding_encode_chunk_key_with (Ok separator) chunk_coords
    = Ok key →
    (coords ← V2ChunkKeyEncoding_decode_chunk_key_with (Ok separator) key;
     V2ChunkKeyEncoding_encode_chunk_key_with (Ok separator) coords) = Ok key.
Proof.
  intros Hsep Hne.
  assert (v2_round_trip separator chunk_coords = Ok chunk_coords) as Hrt
    by (destruct Hsep as [-> | ->]; by apply v2_round_trip_nonempty).
  split; [done|]. intros key Hkey.
  unfold v2_round_trip in Hrt. rewrite Hkey in Hrt.
  change (V2ChunkKeyEncoding_decode_chunk_key_with (Ok separator) key
          = Ok chunk_coords) in Hrt.
  by rewrite Hrt.
Qed.

Lemma v2_chunk_key_round_trip_witness :
  v2_round_trip "." [1; 2] = Ok [1; 2].
Proof.
  apply (v2_chunk_key_round_trip "." [1; 2]);
    [by left|done].
Defined.

(** Under the v2 scheme the empty tuple is encoded as ["0"], which
    decodes to [(0,)]: the same key as that of [(0,)].  On an instance as
    constructed, the round trip raises. *)
Lemma chunk_key_round_trip_counterexample :
  v2_round_trip "." [] = Ok [0] ∧
  v2_round_trip "." [] ≠ Ok [] ∧
  V2ChunkKeyEncoding_encode_chunk_key_with (Ok ".") []
  = V2ChunkKeyEncoding_encode_chunk_key_with (Ok ".") [0] ∧
  (let v2 := v2_encoding (VStr "v2") (configuration_of (VStr ".")) in
   (key ← V2ChunkKeyEncoding_encode_chunk_key v2 [];
    V2ChunkKeyEncoding_decode_chunk_key v2 key) ≠ Ok []).
Proof. repeat split; discriminate. Qed.

(** Under the default scheme [decode_chunk_key] drops the one character
    ["c"] and splits what is left, separator first: the first part is
    empty and [int] rejects it.  Every key of a non-empty tuple fails. *)
Lemma default_round_trip_raises :
  default_round_trip "/" [] = Ok [] ∧
  default_round_trip "/" [1; 2] = Raise ValueError ∧
  str_split (str_tail "c/1/2") "/" = Ok [""; "1"; "2"] ∧
  int_of_str "" = Raise ValueError.
Proof. repeat split. Qed.

(** ** The value codec *)

(** *** Fixed tuples *)

Lemma py_len_raises v e : py_len v = Raise e → e = TypeError.
Proof. destruct v; simpl; congruence. Qed.

(** C9, as amended.  Decoding against a fixed tuple hint
    [tuple[T1, ..., Tn]] with at least one item type (and not the
    variable-length form) fails with [TypeError] for every input whose
    length is not [n], sequences in particular: nothing is truncated or
    padded. *)
Theorem fixed_tuple_arity_mismatch parse_codecs (args : list ty) (v : pyval) :
  args ≠ [] → variadic args = false →
  py_len v ≠ Ok (length args) →
  decode_value parse_codecs (TGeneric OTuple args) v = Raise TypeError.
Proof.
  intros Hne Hvar Hlen.
  assert (decode_value parse_codecs (TGeneric OTuple args) v
          = (n ← py_len v;
             if negb (length args =? n)%nat then Raise TypeError
             else xs ← py_iter v;
                  VTuple <$> decode_zip (decode_value parse_codecs) args xs))
    as ->.
  { destruct args as [|t [|t' [|t'' args]]]; try done.
    all: destruct t'; try done. }
  destruct (py_len v) as [n|e] eqn:Hn.
  - assert (length args ≠ n) as Hn' by congruence.
    apply Nat.eqb_neq in Hn'. cbv [mbind result_bind]. by rewrite Hn'.
  - by rewrite (py_len_raises _ _ Hn).
Qed.

Lemma fixed_tuple_arity_mismatch_witness :
  decode_value (λ _, Raise TypeError) (TGeneric OTuple [int_; str_])
    (VList [VInt 1; VStr "a"; VInt 3]) = Raise TypeError.
Proof. apply fixed_tuple_arity_mismatch; [done|reflexivity|done]. Defined.

(** C9, as stated, fails at arity 0.  The hint [tuple[()]] has no
    arguments, so [decode_value] does not take its tuple branch: the input
    goes to [type(v)], which makes a tuple of all its items.  A sequence of
    three items is accepted where the declared arity is 0. *)
Lemma fixed_tuple_arity_zero_counterexample :
  let args : list ty := [] in
  let v := VList [VInt 1; VInt 2; VInt 3] in
  variadic args = false ∧
  py_len v ≠ Ok (length args) ∧
  decode_value (λ _, Raise TypeError) (TGeneric OTuple args) v
  = Ok (VTuple [VInt 1; VInt 2; VInt 3]).
Proof. repeat split. discriminate. Qed.

(** *** Optional and literal hints *)

(** Against [T | None] (in either order), for [T] a class, a generic
    alias, a dataclass, an enum or [Any] (what makes [T | None] a
    [types.UnionType] of two variants), [None] decodes to [None] and any
    other input is decoded against [T].  For [T] a [Literal], [T | None] is
    a [typing.Union] and every input raises [TypeError], [None]
    included. *)
Theorem optional_decode parse_codecs (t : ty) (v : pyval) :
  is_NoneType t = false → union_member t = true →
  let expected := match v with
                  | VNone => Ok VNone
                  | _ => decode_value parse_codecs t v
                  end in
  decode_value parse_codecs (TUnion [t; TNoneType]) v = expected ∧
  decode_value parse_codecs (TUnion [TNoneType; t]) v = expected ∧
  ∀ values,
    decode_value parse_codecs (TUnion [TLiteral values; TNoneType]) v
    = Raise TypeError.
Proof.
  intros Ht Hm. simpl. rewrite Ht, Hm. simpl. by destruct v.
Qed.

Lemma optional_decode_witness :
  decode_value (λ _, Raise TypeError) (TUnion [int_; TNoneType]) VNone
  = Ok VNone ∧
  decode_value (λ _, Raise TypeError) (TUnion [TNoneType; int_]) VNone
  = Ok VNone ∧
  ∀ values,
    decode_value (λ _, Raise TypeError) (TUnion [TLiteral values; TNoneType])
      VNone = Raise TypeError.
Proof. apply (optional_decode _ int_ VNone); reflexivity. Defined.

(** Against a literal hint the input is returned when it equals one of the
    allowed values, and [TypeError] is raised otherwise; against [Any] the
    input is returned as it is. *)
Theorem literal_decode parse_codecs (values : list pyval) (v : pyval) :
  decode_value parse_codecs (TLiteral values) v
  = (if py_in v values then Ok v else Raise TypeError) ∧
  decode_value parse_codecs TAny v = Ok v.
Proof. split; [|reflexivity]. simpl. by destruct (py_in v values). Qed.

(** *** Tagged unions *)

Lemma declared_tag_Some variant x tag :
  declared_tag variant = Some (x, tag) →
  ∃ m, tag_fields variant = [(x, (TLiteral [tag], m))].
Proof.
  unfold declared_tag.
  destruct (tag_fields variant) as [|[k [t m]] l]; [discriminate|].
  destruct t as [| | | | | |[|tag' [|]]| |], l; try discriminate.
  intros [= <- <-]. eauto.
Qed.

(** One round of the loop over the variants, for a variant that declares
    its tag properly. *)
Lemma tag_table_step variant variants position name tags x tag m :
  tag_fields variant = [(x, (TLiteral [tag], m))] →
  hashable tag = true →
  tag_table (variant :: variants) position name tags
  = match name with
    | Some n =>
        if negb (String.eqb n x) then Raise TypeError
        else tag_table variants (S position) (Some n)
               (tags_set tags tag position)
    | None =>
        tag_table variants (S position) (Some x) (tags_set tags tag position)
    end.
Proof.
  unfold tag_fields. intros Hf Hh. simpl. rewrite Hf.
  destruct name as [n|]; simpl; [|by rewrite Hh].
  destruct (negb (String.eqb n x)); simpl; [done|by rewrite Hh].
Qed.

(** The loop raises nothing but [TypeError]. *)
Lemma tag_table_raises variants position name tags e :
  tag_table variants position name tags = Raise e → e = TypeError.
Proof.
  revert position name tags.
  induction variants as [|variant variants IH]; intros position name tags;
    simpl; [discriminate|].
  destruct (List.filter is_tagged (get_type_hints variant))
    as [|[k [t m]] [|]]; try congruence.
  destruct name as [n|]; simpl.
  - destruct (negb (String.eqb n k)); simpl; [congruence|].
    destruct t as [| | | | | |[|tag [|]]| |]; try congruence.
    destruct (hashable tag); [apply IH|congruence].
  - destruct t as [| | | | | |[|tag [|]]| |]; try congruence.
    destruct (hashable tag); [apply IH|congruence].
Qed.

(** A variant without exactly one tagged field of a one-valued literal
    hint stops the loop. *)
Lemma tag_table_undeclared variant variants position name tags :
  declared_tag variant = None →
  tag_table (variant :: variants) position name tags = Raise TypeError.
Proof.
  unfold declared_tag, tag_fields. simpl.
  destruct (List.filter is_tagged (get_type_hints variant))
    as [|[k [t m]] [|]]; try done.
  intros Hd.
  destruct name as [n|]; simpl;
    [destruct (negb (String.eqb n k)); simpl; [done|]|];
    by destruct t as [| | | | | |[|tag [|]]| |].
Qed.

(** When the loop passes a variant, the variant declares its tag. *)
Lemma tag_table_Ok_inv variant variants position name tags res :
  tag_table (variant :: variants) position name tags = Ok res →
  ∃ x tag m,
    tag_fields variant = [(x, (TLiteral [tag], m))] ∧
    hashable tag = true ∧
    (name = None ∨ name = Some x) ∧
    tag_table variants (S position) (Some x) (tags_set tags tag position)
    = Ok res.
Proof.
  unfold tag_fields. simpl.
  destruct (List.filter is_tagged (get_type_hints variant))
    as [|[k [t m]] [|]]; try discriminate.
  destruct name as [n|]; simpl.
  - destruct (String.eqb_spec n k) as [->|]; simpl; [|discriminate].
    destruct t as [| | | | | |[|tag [|]]| |]; try discriminate.
    destruct (hashable tag) eqn:Hh; [|discriminate].
    intros H. exists k, tag, m. auto.
  - destruct t as [| | | | | |[|tag [|]]| |]; try discriminate.
    destruct (hashable tag) eqn:Hh; [|discriminate].
    intros H. exists k, tag, m. auto.
Qed.

Lemma tag_violation_table A B :
  tag_violation A B → tag_table [A; B] 0 None [] = Raise TypeError.
Proof.
  intros Hv.
  destruct (tag_table [A; B] 0 None []) as [res|e] eqn:Ht;
    [|by rewrite (tag_table_raises _ _ _ _ _ Ht)].
  exfalso.
  apply tag_table_Ok_inv in Ht as (x & a & mA & HA & _ & _ & Ht).
  apply tag_table_Ok_inv in Ht as (y & b & mB & HB & _ & Hxy & _).
  destruct Hxy as [|[= ->]]; [done|].
  destruct Hv as [[H|H]|x' y' tA tB mA' mB' H H' Hne|x' t m [H|H] Hlit];
    rewrite ?HA, ?HB in *; try done.
  - injection H as <- _ _. injection H' as <- _ _. done.
  - injection H as _ <- _. by destruct (Hlit a).
  - injection H as _ <- _. by destruct (Hlit b).
Qed.

(** With [NoneType] among the variants the loop never completes. *)
Lemma tag_table_NoneType variants position name tags :
  TNoneType ∈ variants →
  tag_table variants position name tags = Raise TypeError.
Proof.
  revert position name tags.
  induction variants as [|variant variants IH]; intros position name tags Hin.
  - by apply elem_of_nil in Hin.
  - apply elem_of_cons in Hin as [<-|Hin].
    + by apply tag_table_undeclared.
    + destruct (tag_table (variant :: variants) position name tags)
        as [res|e] eqn:Ht; [|by rewrite (tag_table_raises _ _ _ _ _ Ht)].
      apply tag_table_Ok_inv in Ht as (x & a & m & _ & _ & _ & Ht).
      by rewrite IH in Ht.
Qed.

(** The tagged-union branch of [decode_value], for two dataclasses. *)
Lemma decode_value_union_of_two parse_codecs clsA fieldsA piA clsB fieldsB piB
    (v : pyval) :
  let A := TDataclass clsA fieldsA piA in
  let B := TDataclass clsB fieldsB piB in
  decode_value parse_codecs (TUnion [A; B]) v
  = match v with
    | VDict items =>
        '(tag_field_name, tags_to_variants) ← tag_table [A; B] 0 None [];
        match tag_field_name with
        | None => Raise AssertionError
        | Some tag_field_name =>
            tag_value ← dict_getitem items tag_field_name;
            tag_type ← tags_getitem tags_to_variants tag_value;
            decode_variant (decode_value parse_codecs) [A; B] tag_type v
        end
    | _ => Raise TypeError
    end.
Proof. reflexivity. Qed.

(** Two dataclasses that declare different tags under one name: the union
    looks the tag of the input up among the two. *)
Lemma decode_union_of_two_tagged parse_codecs clsA fieldsA piA
    clsB fieldsB piB x a b items :
  let A := TDataclass clsA fieldsA piA in
  let B := TDataclass clsB fieldsB piB in
  declared_tag A = Some (x, VStr a) →
  declared_tag B = Some (x, VStr b) →
  a ≠ b →
  decode_value parse_codecs (TUnion [A; B]) (VDict items)
  = (tag_value ← dict_getitem items x;
     tag_type ← tags_getitem [(VStr a, 0%nat); (VStr b, 1%nat)] tag_value;
     decode_variant (decode_value parse_codecs) [A; B] tag_type
       (VDict items)).
Proof.
  intros A B HA HB Hab.
  apply declared_tag_Some in HA as [mA HA].
  apply declared_tag_Some in HB as [mB HB].
  assert (tag_table [A; B] 0 None []
          = Ok (Some x, [(VStr a, 0%nat); (VStr b, 1%nat)])) as Ht.
  { rewrite (tag_table_step _ _ _ _ _ _ _ _ HA eq_refl).
    rewrite (tag_table_step _ _ _ _ _ _ _ _ HB eq_refl).
    rewrite String.eqb_refl. simpl.
    by destruct (String.eqb_spec a b). }
  unfold A, B. rewrite decode_value_union_of_two. fold A B. by rewrite Ht.
Qed.

(** C3. For two dataclasses [A] and [B] that declare their tags under the
    same field [x], with the literals [a] and [b]: a mapping whose [x] is
    [a] is decoded as [A] (and as [B] when it is [b]); a mapping without
    [x] raises [KeyError]; a mapping whose [x] is neither raises [KeyError]
    (or [TypeError], when that value is unhashable); an input that is no
    mapping raises [TypeError].  When the declaration is violated (zero or
    several tagged fields, disagreeing names, a tag hint that is no
    one-valued literal) every input raises [TypeError].  No case falls back
    to a default variant. *)
Theorem tagged_union_decode parse_codecs clsA fieldsA piA clsB fieldsB piB :
  let A := TDataclass clsA fieldsA piA in
  let B := TDataclass clsB fieldsB piB in
  let decode := decode_value parse_codecs in
  (∀ x a b,
      declared_tag A = Some (x, VStr a) →
      declared_tag B = Some (x, VStr b) →
      a ≠ b →
      (∀ items, dict_get items x = Some (VStr a) →
                decode (TUnion [A; B]) (VDict items) = decode A (VDict items)) ∧
      (∀ items, dict_get items x = Some (VStr b) →
                decode (TUnion [A; B]) (VDict items) = decode B (VDict items)) ∧
      (∀ items, dict_get items x = None →
                decode (TUnion [A; B]) (VDict items) = Raise KeyError) ∧
      (∀ items tag_value,
          dict_get items x = Some tag_value →
          tag_value ≠ VStr a → tag_value ≠ VStr b →
          decode (TUnion [A; B]) (VDict items)
          = Raise (if hashable tag_value then KeyError else TypeError)) ∧
      (∀ v, (∀ items, v ≠ VDict items) →
            decode (TUnion [A; B]) v = Raise TypeError)) ∧
  (tag_violation A B → ∀ v, decode (TUnion [A; B]) v = Raise TypeError).
Proof.
  intros A B decode. subst A B decode. split.
  - intros x a b HA HB Hab.
    pose proof (λ items,
      decode_union_of_two_tagged parse_codecs clsA fieldsA piA
        clsB fieldsB piB x a b items HA HB Hab) as Hd.
    set (A := TDataclass clsA fieldsA piA) in *.
    set (B := TDataclass clsB fieldsB piB) in *.
    set (decode := decode_value parse_codecs) in *.
    repeat split.
    + intros items Hx. rewrite Hd. unfold dict_getitem. rewrite Hx.
      unfold tags_getitem. simpl. by rewrite String.eqb_refl.
    + intros items Hx. rewrite Hd. unfold dict_getitem. rewrite Hx.
      unfold tags_getitem. simpl. rewrite String.eqb_refl.
      by destruct (String.eqb_spec a b).
    + intros items Hx. rewrite Hd. unfold dict_getitem. by rewrite Hx.
    + intros items tv Hx Ha Hb. rewrite Hd. unfold dict_getitem. rewrite Hx.
      unfold tags_getitem. cbv [mbind result_bind].
      destruct (hashable tv); [|done]. unfold tags_get.
      destruct (py_eq (VStr a) tv) eqn:Ea;
        [by apply py_eq_VStr in Ea|].
      destruct (py_eq (VStr b) tv) eqn:Eb;
        [by apply py_eq_VStr in Eb|done].
    + intros v Hv. unfold decode, A, B. rewrite decode_value_union_of_two.
      destruct v; try done. by destruct (Hv items).
  - intros Hviol v. rewrite decode_value_union_of_two.
    rewrite (tag_violation_table _ _ Hviol). by destruct v.
Qed.

Lemma tagged_union_decode_witness :
  decode_value (λ _, Raise TypeError) (TUnion [A_type; B_type])
    (VDict [("x", VStr "a"); ("n", VInt 3)])
  = Ok (VObj "A" [("x", VStr "a"); ("n", VInt 3)]).
Proof.
  refine (eq_trans
    (proj1 (proj1 (tagged_union_decode (λ _, Raise TypeError)
                     "A" _ _ "B" _ _) "x" "a" "b" _ _ _) _ _) _);
    [reflexivity|reflexivity|done|reflexivity|reflexivity].
Defined.

(** A union of two dataclasses and [None] decodes nothing, not even
    [None]. *)
Lemma optional_tagged_union_raises parse_codecs clsA fieldsA piA
    clsB fieldsB piB (v : pyval) :
  decode_value parse_codecs
    (TUnion [TDataclass clsA fieldsA piA; TDataclass clsB fieldsB piB;
             TNoneType]) v
  = Raise TypeError.
Proof.
  destruct v; try reflexivity.
  change (('(tag_field_name, tags_to_variants) ←
             tag_table [TDataclass clsA fieldsA piA;
                        TDataclass clsB fieldsB piB; TNoneType] 0 None [];
           match tag_field_name with
           | None => Raise AssertionError
           | Some tag_field_name =>
               tag_value ← dict_getitem items tag_field_name;
               tag_type ← tags_getitem tags_to_variants tag_value;
               decode_variant (decode_value parse_codecs)
                 [TDataclass clsA fieldsA piA; TDataclass clsB fieldsB piB;
                  TNoneType] tag_type (VDict items)
           end) = Raise TypeError).
  rewrite tag_table_NoneType; [done|]. set_unfold. auto.
Qed.

(** *** Encoding and the round trip *)

(** [asdict] leaves no dataclass instance among the items it returns. *)
Lemma asdict_items_not_dataclass obj items :
  asdict obj = Ok items → Forall (λ kv, is_dataclass kv.2 = false) items.
Proof.
  destruct obj; try discriminate. intros [= <-].
  apply Forall_fmap, Forall_forall. intros [k v] _. by destruct v.
Qed.

(** So the loop of [to_dict] never takes its dataclass branch: it stores
    [encode_value] of every item, whatever the recursive call would do. *)
Lemma to_dict_items_flat rec items result :
  Forall (λ kv, is_dataclass kv.2 = false) items →
  to_dict_items rec items result
  = Ok (fold_left (λ acc kv, dict_set acc kv.1 (encode_value kv.2))
          items result).
Proof.
  intros H. revert result.
  induction H as [|[k v] items Hv _ IH]; intros result; simpl; [done|].
  simpl in Hv. rewrite Hv. apply IH.
Qed.

(** [to_dict] applies [encode_value] to the top-level fields of
    [asdict(obj)] and to nothing below them. *)
Lemma to_dict_top_level obj :
  to_dict obj
  = (items ← asdict obj;
     Ok (fold_left (λ acc kv, dict_set acc kv.1 (encode_value kv.2))
           items [])).
Proof.
  unfold to_dict, recursion_limit.
  change (to_dict_at 1000 obj)
    with (items ← asdict obj; to_dict_items (to_dict_at 999) items []).
  destruct (asdict obj) as [items|e] eqn:Ha; [|done]. simpl.
  apply to_dict_items_flat. by eapply asdict_items_not_dataclass.
Qed.

(** C1. A record with a nested record that holds a set, a typed record of
    its type, does not survive the round trip: [to_dict] leaves the set
    inside the nested mapping as it is, and [json.dumps] rejects it, so
    [encode] raises [TypeError].  The nested record alone, and the record
    of the repository's own test, do round-trip. *)
Theorem round_trip_nested_record parse_codecs :
  conforms Outer_type nested_record = true ∧
  to_dict nested_record = Ok [("inner", VDict [("a", VSet [VInt 1])])] ∧
  encode nested_record = Raise TypeError ∧
  round_trip parse_codecs Outer_type nested_record = Raise TypeError ∧
  round_trip parse_codecs Inner_type inner_record = Ok inner_record ∧
  round_trip parse_codecs WithTuples with_tuples = Ok with_tuples.
Proof.
  assert (to_dict nested_record
          = Ok [("inner", VDict [("a", VSet [VInt 1])])]) as Ht
    by (by rewrite to_dict_top_level).
  assert (encode nested_record = Raise TypeError) as He
    by (unfold encode; by rewrite Ht).
  repeat split; try done.
Qed.

(** *** Records that round-trip *)

(** Induction over values and hints. *)

Lemma pyval_ind' (P : pyval → Prop) :
  P VNone → (∀ b, P (VBool b)) → (∀ z, P (VInt z)) → (∀ s, P (VStr s)) →
  (∀ xs, Forall P xs → P (VList xs)) →
  (∀ xs, Forall P xs → P (VTuple xs)) →
  (∀ xs, Forall P xs → P (VSet xs)) →
  (∀ items, Forall (λ kv, P kv.2) items → P (VDict items)) →
  (∀ cls member value, P value → P (VEnum cls member value)) →
  (∀ cls attrs, Forall (λ kv, P kv.2) attrs → P (VObj cls attrs)) →
  ∀ v, P v.
Proof.
  intros HN HB HI HS HL HT HSet HD HE HO. fix IH 1.
  intros [|b|z|s|xs|xs|xs|items|cls member value|cls attrs].
  - exact HN.
  - apply HB.
  - apply HI.
  - apply HS.
  - apply HL. induction xs as [|x xs IHxs]; constructor;
      [apply IH|exact IHxs].
  - apply HT. induction xs as [|x xs IHxs]; constructor;
      [apply IH|exact IHxs].
  - apply HSet. induction xs as [|x xs IHxs]; constructor;
      [apply IH|exact IHxs].
  - apply HD. induction items as [|[k x] items IHitems]; constructor;
      [apply IH|exact IHitems].
  - apply HE, IH.
  - apply HO. induction attrs as [|[k x] attrs IHattrs]; constructor;
      [apply IH|exact IHattrs].
Qed.

Lemma ty_ind' (P : ty → Prop) :
  P TAny → P TNoneType → P TEllipsis → (∀ name call, P (TClass name call)) →
  (∀ o args, Forall P args → P (TGeneric o args)) →
  (∀ variants, Forall P variants → P (TUnion variants)) →
  (∀ values, P (TLiteral values)) →
  (∀ cls members, P (TEnum cls members)) →
  (∀ cls fields post_init,
      Forall (λ f, P f.2.1) fields → P (TDataclass cls fields post_init)) →
  ∀ t, P t.
Proof.
  intros HA HN HE HC HG HU HL HEn HD. fix IH 1.
  intros [| | |name call|o args|variants|values|cls members
          |cls fields post_init].
  - exact HA.
  - exact HN.
  - exact HE.
  - apply HC.
  - apply HG. induction args as [|a args IHargs]; constructor;
      [apply IH|exact IHargs].
  - apply HU. induction variants as [|a variants IHv]; constructor;
      [apply IH|exact IHv].
  - apply HL.
  - apply HEn.
  - apply HD. induction fields as [|[k [t m]] fields IHf]; constructor;
      [apply IH|exact IHf].
Qed.

(** Lists in the error monad, dicts without repeated names. *)

Lemma forallb_Forall {A} (f : A → bool) xs :
  forallb f xs = true ↔ Forall (λ x, f x = true) xs.
Proof.
  induction xs as [|x xs IH]; simpl; [done|].
  rewrite andb_true_iff, Forall_cons. by rewrite IH.
Qed.

Lemma Forall_merge {A} (P Q R : A → Prop) xs :
  Forall P xs → Forall Q xs → (∀ x, P x → Q x → R x) → Forall R xs.
Proof.
  intros HP HQ H. induction HP as [|x xs Hx _ IH]; [constructor|].
  apply Forall_cons in HQ as [Hq HQ]. constructor; auto.
Qed.

Lemma bind_Ok {A B} (x : A) (f : A → result B) : (Ok x ≫= f) = f x.
Proof. reflexivity. Qed.

Lemma mapM_cons {A B} (f : A → result B) x xs :
  mapM f (x :: xs) = (y ← f x; ys ← mapM f xs; Ok (y :: ys)).
Proof. reflexivity. Qed.

Lemma mapM_Ok {A B C} (f : B → result C) (h : A → B) (g : A → C) xs :
  Forall (λ x, f (h x) = Ok (g x)) xs → mapM f (h <$> xs) = Ok (g <$> xs).
Proof.
  induction 1 as [|x xs Hx _ IH]; [done|].
  rewrite fmap_cons, mapM_cons, Hx. simpl. by rewrite IH.
Qed.

Lemma dict_get_None_iff {A} (d : list (string * A)) k :
  dict_get d k = None ↔ k ∉ d.*1.
Proof.
  split; [|apply dict_get_None_names].
  induction d as [|[k' v] d IH]; simpl; [set_solver|].
  destruct (String.eqb_spec k' k) as [->|Hne]; [done|].
  intros Hd. apply not_elem_of_cons. split; [done|by apply IH].
Qed.

Lemma dict_set_fresh {A} (d : list (string * A)) k v :
  k ∉ d.*1 → dict_set d k v = d ++ [(k, v)].
Proof.
  induction d as [|[k' v'] d IH]; simpl; [done|].
  intros Hk. apply not_elem_of_cons in Hk as [Hne Hk].
  destruct (String.eqb_spec k' k); [congruence|]. by rewrite IH.
Qed.

(** Storing items under pairwise different new names appends them. *)
Lemma fold_dict_set {A B} (g : A → B) (items : list (string * A)) acc :
  NoDup (acc.*1 ++ items.*1) →
  fold_left (λ acc kv, dict_set acc kv.1 (g kv.2)) items acc
  = acc ++ ((λ kv, (kv.1, g kv.2)) <$> items).
Proof.
  revert acc. induction items as [|[k x] items IH]; intros acc Hnd; simpl.
  - by rewrite app_nil_r.
  - simpl in Hnd. rewrite dict_set_fresh.
    + rewrite IH; [by rewrite <- app_assoc|].
      rewrite fmap_app. simpl. by rewrite <- app_assoc.
    + apply NoDup_app in Hnd as (_ & Hnd & _). intros Hk.
      apply (Hnd k Hk). by left.
Qed.

Lemma dict_get_fmap {A B} (g : A → B) (items : list (string * A)) k x :
  NoDup items.*1 → (k, x) ∈ items →
  dict_get ((λ kv, (kv.1, g kv.2)) <$> items) k = Some (g x).
Proof.
  induction items as [|[k' x'] items IH]; simpl; intros Hnd Hin.
  - by apply elem_of_nil in Hin.
  - apply NoDup_cons in Hnd as [Hk' Hnd].
    apply elem_of_cons in Hin as [[= <- <-]|Hin].
    + by rewrite String.eqb_refl.
    + destruct (String.eqb_spec k' k) as [->|_]; [|by apply IH].
      destruct Hk'. apply list_elem_of_fmap. by exists (k, x).
Qed.

(** From a value to its document and back. *)

Lemma json_dumps_list xs :
  json_dumps (VList xs) = JArray <$> mapM json_dumps xs.
Proof. reflexivity. Qed.

Lemma json_dumps_dict items :
  json_dumps (VDict items)
  = JObject <$> mapM (λ kv, d ← json_dumps kv.2; Ok (kv.1, d)) items.
Proof. reflexivity. Qed.

Lemma json_dumps_items (h : pyval → pyval) (items : list (string * pyval)) :
  Forall (λ kv, json_dumps (h kv.2) = Ok (to_doc kv.2)) items →
  json_dumps (VDict ((λ kv, (kv.1, h kv.2)) <$> items))
  = Ok (JObject ((λ kv, (kv.1, to_doc kv.2)) <$> items)).
Proof.
  intros H. rewrite json_dumps_dict.
  rewrite (mapM_Ok _ _ (λ kv, (kv.1, to_doc kv.2))); [done|].
  eapply Forall_impl; [exact H|]. intros [k x] Hx. simpl in *.
  by rewrite Hx.
Qed.

(** [json.dumps(asdict(v))] is the document of [v]. *)
Lemma json_dumps_asdict v :
  jsonable v = true → json_dumps (asdict_inner v) = Ok (to_doc v).
Proof.
  induction v as [|b|z|s|xs IH|xs IH|xs IH|items IH|cls member value IH
                  |cls attrs IH] using pyval_ind'; try done.
  - intros Hj%forallb_Forall.
    change (json_dumps (VList (asdict_inner <$> xs))
            = Ok (JArray (to_doc <$> xs))).
    rewrite json_dumps_list, (mapM_Ok _ _ to_doc); [done|].
    apply (Forall_merge _ _ _ _ IH Hj). auto.
  - intros Hj%forallb_Forall.
    change (json_dumps (VList (asdict_inner <$> xs))
            = Ok (JArray (to_doc <$> xs))).
    rewrite json_dumps_list, (mapM_Ok _ _ to_doc); [done|].
    apply (Forall_merge _ _ _ _ IH Hj). auto.
  - intros [Hj%forallb_Forall _]%andb_true_iff.
    change (json_dumps (VDict ((λ kv, (kv.1, asdict_inner kv.2)) <$> items))
            = Ok (JObject ((λ kv, (kv.1, to_doc kv.2)) <$> items))).
    apply json_dumps_items.
    apply (Forall_merge _ _ _ _ IH Hj). auto.
  - intros [Hj%forallb_Forall _]%andb_true_iff.
    change (json_dumps (VDict ((λ kv, (kv.1, asdict_inner kv.2)) <$> attrs))
            = Ok (JObject ((λ kv, (kv.1, to_doc kv.2)) <$> attrs))).
    apply json_dumps_items.
    apply (Forall_merge _ _ _ _ IH Hj). auto.
Qed.

Lemma fmap_names {A B} (g : A → B) (items : list (string * A)) :
  ((λ kv, (kv.1, g kv.2)) <$> items).*1 = items.*1.
Proof.
  induction items as [|[k x] items IH]; [done|].
  rewrite !fmap_cons. simpl. f_equal. exact IH.
Qed.

Lemma json_loads_items (items : list (string * pyval)) :
  NoDup items.*1 →
  Forall (λ kv, json_loads (to_doc kv.2) = jsonify kv.2) items →
  json_loads (JObject ((λ kv, (kv.1, to_doc kv.2)) <$> items))
  = VDict ((λ kv, (kv.1, jsonify kv.2)) <$> items).
Proof.
  intros Hnd H.
  change (VDict (fold_left (λ acc kv, dict_set acc kv.1 (json_loads kv.2))
                   ((λ kv, (kv.1, to_doc kv.2)) <$> items) [])
          = VDict ((λ kv, (kv.1, jsonify kv.2)) <$> items)).
  rewrite fold_dict_set by (simpl; by rewrite fmap_names).
  simpl. rewrite <- list_fmap_compose. f_equal.
  apply Forall_fmap_ext_1. eapply Forall_impl; [exact H|].
  intros [k x] Hx. simpl in *. by rewrite Hx.
Qed.

(** [json.loads] of the document of [v] is [jsonify v]. *)
Lemma json_loads_to_doc v :
  jsonable v = true → json_loads (to_doc v) = jsonify v.
Proof.
  induction v as [|b|z|s|xs IH|xs IH|xs IH|items IH|cls member value IH
                  |cls attrs IH] using pyval_ind'; try done.
  - intros Hj%forallb_Forall.
    change (VList (json_loads <$> (to_doc <$> xs)) = VList (jsonify <$> xs)).
    rewrite <- list_fmap_compose. f_equal. apply Forall_fmap_ext_1.
    apply (Forall_merge _ _ _ _ IH Hj). auto.
  - intros Hj%forallb_Forall.
    change (VList (json_loads <$> (to_doc <$> xs)) = VList (jsonify <$> xs)).
    rewrite <- list_fmap_compose. f_equal. apply Forall_fmap_ext_1.
    apply (Forall_merge _ _ _ _ IH Hj). auto.
  - intros [Hj%forallb_Forall Hnd%bool_decide_eq_true]%andb_true_iff.
    apply json_loads_items; [done|].
    apply (Forall_merge _ _ _ _ IH Hj). auto.
  - intros [Hj%forallb_Forall Hnd%bool_decide_eq_true]%andb_true_iff.
    apply json_loads_items; [done|].
    apply (Forall_merge _ _ _ _ IH Hj). auto.
Qed.

(** A hashable value holds no instance: [asdict] leaves it as it is. *)
Lemma asdict_inner_hashable v : hashable v = true → asdict_inner v = v.
Proof.
  induction v as [|b|z|s|xs IH|xs IH|xs IH|items IH|cls member value IH
                  |cls attrs IH] using pyval_ind'; try done.
  intros Hh%forallb_Forall.
  change (VTuple (asdict_inner <$> xs) = VTuple xs). f_equal.
  rewrite <- (list_fmap_id xs) at 2. apply Forall_fmap_ext_1.
  apply (Forall_merge _ _ _ _ IH Hh). auto.
Qed.

Lemma jsonify_None v : jsonify v = VNone → v = VNone.
Proof. by destruct v. Qed.

Lemma jsonify_scalar v : is_scalar v = true → jsonify v = v.
Proof. by destruct v. Qed.

Lemma jsonable_not_encoded v :
  jsonable v = true → encode_value (asdict_inner v) = asdict_inner v.
Proof. by destruct v. Qed.

(** Decoding the image of a value of a stable hint. *)

Lemma py_eq_scalar v x : is_scalar x = true → py_eq v x = true → is_scalar v = true.
Proof. by destruct x, v. Qed.

Lemma py_in_scalar v values :
  forallb is_scalar values = true → py_in v values = true →
  is_scalar v = true.
Proof.
  unfold py_in. intros Hs%forallb_Forall Hin.
  apply existsb_exists in Hin as (x & Hx & Heq).
  rewrite Forall_forall in Hs. eapply py_eq_scalar; [|exact Heq].
  apply Hs. by apply list_elem_of_In.
Qed.

Lemma stable_not_NoneType t : json_stable t → is_NoneType t = false.
Proof. by destruct 1. Qed.

Lemma stable_not_variadic args : Forall json_stable args → variadic args = false.
Proof.
  destruct args as [|t [|t' args]]; try done.
  intros Hs. apply Forall_cons in Hs as [_ Hs].
  apply Forall_cons in Hs as [Hs _]. by destruct Hs, args.
Qed.

Lemma decode_value_fixed_tuple parse_codecs args v :
  args ≠ [] → variadic args = false →
  decode_value parse_codecs (TGeneric OTuple args) v
  = (n ← py_len v;
     if negb (length args =? n)%nat then Raise TypeError
     else xs ← py_iter v;
          VTuple <$> decode_zip (decode_value parse_codecs) args xs).
Proof.
  intros Hne Hvar. destruct args as [|t [|t' [|t'' args]]]; try done.
  all: destruct t'; try done.
Qed.

Lemma conforms_fixed_tuple args v :
  variadic args = false →
  conforms (TGeneric OTuple args) v
  = match v with
    | VTuple xs => conforms_zip conforms args xs
    | _ => false
    end.
Proof.
  intros Hvar. destruct args as [|t [|t' [|t'' args]]]; try done.
  all: destruct t'; try done.
Qed.

Lemma conforms_fields_names fields attrs :
  conforms_fields conforms fields attrs = true → attrs.*1 = fields.*1.
Proof.
  revert attrs. induction fields as [|[name [t m]] fields IH];
    intros [|[k x] attrs]; simpl; try done.
  intros [[Hk%String.eqb_eq _]%andb_true_iff H]%andb_true_iff.
  subst. f_equal. by apply IH.
Qed.

Lemma conforms_fields_lookup fields attrs name t m :
  conforms_fields conforms fields attrs = true →
  (name, (t, m)) ∈ fields →
  ∃ x, (name, x) ∈ attrs ∧ conforms t x = true.
Proof.
  revert attrs. induction fields as [|[name' [t' m']] fields IH];
    intros [|[k x] attrs] Hc Hin; try done.
  - by apply elem_of_nil in Hin.
  - simpl in Hc.
    apply andb_true_iff in Hc as [[Hk%String.eqb_eq Hx]%andb_true_iff Hrest].
    apply elem_of_cons in Hin as [[= -> -> ->]|Hin].
    + exists x. split; [subst; by left|done].
    + destruct (IH attrs Hrest Hin) as (x' & Hx' & Hcx').
      exists x'. split; [by right|done].
Qed.

(** An instance of a tagged dataclass carries the tag of its class. *)
Lemma tagged_instance cls fields post_init x a v :
  NoDup fields.*1 →
  declared_tag (TDataclass cls fields post_init) = Some (x, VStr a) →
  conforms (TDataclass cls fields post_init) v = true →
  ∃ attrs, v = VObj cls attrs ∧
    dict_get ((λ kv, (kv.1, jsonify kv.2)) <$> attrs) x = Some (VStr a).
Proof.
  intros Hnd [m Htag]%declared_tag_Some Hc.
  destruct v as [| | | | | | | | |c attrs]; try done. simpl in Hc.
  apply andb_true_iff in Hc as [Hcls%String.eqb_eq Hf]. subst c.
  exists attrs. split; [done|].
  assert ((x, (TLiteral [VStr a], m)) ∈ fields) as Hin.
  { apply list_elem_of_In.
    apply (proj1 (filter_In is_tagged _ fields)).
    unfold tag_fields in Htag. simpl in Htag. rewrite Htag. by left. }
  destruct (conforms_fields_lookup _ _ _ _ _ Hf Hin) as (val & Hval & Hcv).
  simpl in Hcv. unfold py_in in Hcv. simpl in Hcv.
  rewrite orb_false_r in Hcv. apply py_eq_to_VStr in Hcv. subst val.
  apply (dict_get_fmap jsonify attrs x (VStr a)); [|done].
  by rewrite (conforms_fields_names _ _ Hf).
Qed.

Lemma stable_dataclass_NoDup cls fields post_init :
  json_stable (TDataclass cls fields post_init) → NoDup fields.*1.
Proof. by inversion 1. Qed.

Section stable_hints.
Context (parse_codecs : pyval → result pyval).
Local Abbreviation decode_value :=
  (Serialization.decode_value parse_codecs).

Lemma decode_zip_stable args xs :
  Forall (λ t, ∀ v, conforms t v = true →
               jsonable v = true ∧ decode_value t (jsonify v) = Ok v) args →
  conforms_zip conforms args xs = true →
  forallb jsonable xs = true ∧ length args = length xs ∧
  decode_zip decode_value args (jsonify <$> xs) = Ok xs.
Proof.
  intros IH. revert xs.
  induction IH as [|t args Ht _ IHargs]; intros [|x xs] Hc; try done.
  simpl in Hc. apply andb_true_iff in Hc as [Hx Hxs].
  destruct (Ht x Hx) as [Hj Hd]. destruct (IHargs xs Hxs) as (Hjs & Hlen & Hds).
  split; [simpl; by rewrite Hj, Hjs|]. split; [simpl; by rewrite Hlen|].
  rewrite fmap_cons.
  change (decode_zip decode_value (t :: args)
            (jsonify x :: (jsonify <$> xs)))
    with (y ← decode_value t (jsonify x);
          ys ← decode_zip decode_value args (jsonify <$> xs);
          Ok (y :: ys)).
  by rewrite Hd, Hds.
Qed.

(** The loop of [from_dict] rebuilds the attributes from a mapping [data]
    that holds, under each name, a value that decodes to the attribute. *)
Lemma from_dict_fields_rebuilds (w : pyval → pyval) data fields attrs :
  conforms_fields conforms fields attrs = true →
  "codecs" ∉ fields.*1 →
  (∀ k x, (k, x) ∈ attrs → dict_get data k = Some (w x)) →
  Forall (λ f, ∀ x, conforms f.2.1 x = true →
               decode_value f.2.1 (w x) = Ok x) fields →
  from_dict_fields parse_codecs decode_value (VDict data) fields = Ok attrs.
Proof.
  intros Hc Hcodecs Hdata Hdec. revert attrs Hc Hdata.
  induction Hdec as [|[name [t m]] fields Ht _ IH];
    intros [|[k x] attrs]; simpl; try done.
  intros [[Hk%String.eqb_eq Hx]%andb_true_iff Hrest]%andb_true_iff Hdata.
  subst k. simpl in Hcodecs. apply not_elem_of_cons in Hcodecs as [Hne Hcodecs].
  destruct (String.eqb_spec name "codecs") as [->|_]; [done|].
  rewrite (Hdata name x) by (by left). simpl in *.
  rewrite (Ht x Hx). simpl.
  rewrite (IH Hcodecs attrs Hrest); [done|].
  intros k' x' Hin. apply Hdata. by right.
Qed.

(** A value of a stable hint is [jsonable], and decoding its image against
    the hint gives the value back. *)
Lemma stable_decode t :
  json_stable t → ∀ v, conforms t v = true →
  jsonable v = true ∧ decode_value t (jsonify v) = Ok v.
Proof.
  induction t as [| | |name call|o args IH|variants IH|values|cls members
                  |cls fields post_init IH] using ty_ind';
    intros Hst v Hc; inversion Hst; subst; clear Hst.
  - (* int *) by destruct v.
  - (* str *) by destruct v.
  - (* bool *) by destruct v.
  - (* tuple[t, ...] *)
    apply Forall_cons in IH as [IH _].
    destruct v as [| | | | |xs| | | |]; try done. simpl in Hc.
    apply forallb_Forall in Hc.
    assert (Forall (λ x, jsonable x = true ∧
                         decode_value t (jsonify x) = Ok x) xs) as Hxs.
    { eapply Forall_impl; [exact Hc|]. intros x Hx. by apply IH. }
    split.
    + apply forallb_Forall. eapply Forall_impl; [exact Hxs|]. by intros x [? _].
    + change (VTuple <$> mapM (decode_value t) (jsonify <$> xs)
              = Ok (VTuple xs)).
      rewrite (mapM_Ok _ _ id); [by rewrite list_fmap_id|].
      eapply Forall_impl; [exact Hxs|]. by intros x [_ ?].
  - (* tuple[t1, ..., tn] *)
    match goal with H : Forall json_stable args |- _ => rename H into Hargs end.
    pose proof (stable_not_variadic _ Hargs) as Hvar.
    rewrite conforms_fixed_tuple in Hc by done.
    destruct v as [| | | | |xs| | | |]; try done.
    destruct (decode_zip_stable args xs) as (Hj & Hlen & Hd); [|done|].
    { apply (Forall_merge _ _ _ _ IH Hargs). auto. }
    split; [done|].
    rewrite decode_value_fixed_tuple by done.
    change (jsonify (VTuple xs)) with (VList (jsonify <$> xs)).
    simpl. rewrite length_fmap, Hlen, Nat.eqb_refl. simpl. by rewrite Hd.
  - (* list[t] *)
    apply Forall_cons in IH as [IH _].
    destruct v as [| | | |xs| | | | |]; try done. simpl in Hc.
    apply forallb_Forall in Hc.
    assert (Forall (λ x, jsonable x = true ∧
                         decode_value t (jsonify x) = Ok x) xs) as Hxs.
    { eapply Forall_impl; [exact Hc|]. intros x Hx. by apply IH. }
    split.
    + apply forallb_Forall. eapply Forall_impl; [exact Hxs|]. by intros x [? _].
    + change ((ys ← mapM (decode_value t) (jsonify <$> xs); Ok (VList ys))
              = Ok (VList xs)).
      rewrite (mapM_Ok _ _ id); [by rewrite list_fmap_id|].
      eapply Forall_impl; [exact Hxs|]. by intros x [_ ?].
  - (* t | None *)
    apply Forall_cons in IH as [IH _].
    match goal with H : json_stable t |- _ => rename H into Ht end.
    match goal with H : union_member t = true |- _ => rename H into Hm end.
    pose proof (stable_not_NoneType _ Ht) as Hnone.
    assert (∀ w, decode_value (TUnion [t; TNoneType]) w
                 = match w with VNone => Ok VNone | _ => decode_value t w end)
      as Hunion.
    { intros w. simpl. rewrite Hm, Hnone. simpl. by destruct w. }
    rewrite Hunion. simpl in Hc. rewrite orb_false_r in Hc.
    destruct (conforms t v) eqn:Hv.
    + destruct (IH Ht v Hv) as [Hj Hd]. split; [done|].
      destruct (jsonify v) eqn:Hjv; try done.
      by rewrite (jsonify_None v Hjv).
    + by destruct v.
  - (* a union of two tagged dataclasses *)
    apply Forall_cons in IH as [IHA IH]. apply Forall_cons in IH as [IHB _].
    match goal with
    | H1 : json_stable (TDataclass clsA _ _),
      H2 : json_stable (TDataclass clsB _ _),
      H3 : declared_tag (TDataclass clsA _ _) = _,
      H4 : declared_tag (TDataclass clsB _ _) = _, H5 : a ≠ b |- _ =>
        rename H1 into HsA; rename H2 into HsB; rename H3 into HtA;
        rename H4 into HtB; rename H5 into Hab
    end.
    simpl in Hc. rewrite orb_false_r in Hc.
    apply orb_true_iff in Hc as [Hv|Hv].
    + destruct (IHA HsA v Hv) as [Hj Hd]. split; [done|].
      destruct (tagged_instance _ _ _ _ _ _
                  (stable_dataclass_NoDup _ _ _ HsA) HtA Hv)
        as (attrs & -> & Hx).
      change (jsonify (VObj clsA attrs))
        with (VDict ((λ kv, (kv.1, jsonify kv.2)) <$> attrs)) in *.
      rewrite (decode_union_of_two_tagged _ _ _ _ _ _ _ x a b) by done.
      unfold dict_getitem. rewrite Hx, bind_Ok.
      unfold tags_getitem. simpl. rewrite String.eqb_refl. exact Hd.
    + destruct (IHB HsB v Hv) as [Hj Hd]. split; [done|].
      destruct (tagged_instance _ _ _ _ _ _
                  (stable_dataclass_NoDup _ _ _ HsB) HtB Hv)
        as (attrs & -> & Hx).
      change (jsonify (VObj clsB attrs))
        with (VDict ((λ kv, (kv.1, jsonify kv.2)) <$> attrs)) in *.
      rewrite (decode_union_of_two_tagged _ _ _ _ _ _ _ x a b) by done.
      unfold dict_getitem. rewrite Hx, bind_Ok.
      unfold tags_getitem. simpl. rewrite String.eqb_refl.
      destruct (String.eqb_spec a b); [done|]. exact Hd.
  - (* Literal *)
    simpl in Hc. pose proof (py_in_scalar _ _ ltac:(eassumption) Hc) as Hs.
    rewrite (jsonify_scalar _ Hs). split; [by destruct v|].
    simpl. by rewrite Hc.
  - (* a dataclass *)
    destruct v as [| | | | | | | | |c attrs]; try done. simpl in Hc.
    apply andb_true_iff in Hc as [Hcls%String.eqb_eq Hf]. subst c.
    pose proof (conforms_fields_names _ _ Hf) as Hnames.
    match goal with
    | H1 : NoDup _, H2 : _ ∉ _, H3 : ∀ attrs, _ → _,
      H4 : Forall (λ f, json_stable f.2.1) fields |- _ =>
        rename H1 into Hnd; rename H2 into Hcodecs; rename H3 into Hpost;
        rename H4 into Hstable
    end.
    assert (Forall (λ f, ∀ x, conforms f.2.1 x = true →
                jsonable x = true ∧ decode_value f.2.1 (jsonify x) = Ok x)
              fields) as Hfields
      by (apply (Forall_merge _ _ _ _ IH Hstable); auto).
    split.
    + simpl. rewrite Hnames, (bool_decide_eq_true_2 _ Hnd), andb_true_r.
      clear -Hf Hfields. revert attrs Hf.
      induction Hfields as [|[name [t m]] fields Ht _ IHf];
        intros [|[k x] attrs]; simpl; try done.
      intros [[_ Hx]%andb_true_iff Hrest]%andb_true_iff.
      destruct (Ht x Hx) as [-> _]. by apply IHf.
    + change (jsonify (VObj cls attrs))
        with (VDict ((λ kv, (kv.1, jsonify kv.2)) <$> attrs)).
      change ((args ← from_dict_fields parse_codecs decode_value
                 (VDict ((λ kv, (kv.1, jsonify kv.2)) <$> attrs)) fields;
               construct cls post_init args) = Ok (VObj cls attrs)).
      rewrite (from_dict_fields_rebuilds jsonify _ fields attrs); try done.
      * unfold construct. simpl. by rewrite Hpost.
      * intros k x Hin. apply dict_get_fmap; [by rewrite Hnames|done].
      * eapply Forall_impl; [exact Hfields|]. intros f Hfx x Hx.
        by apply Hfx.
Qed.

End stable_hints.

(** Sets at the top level and the round trip of a record. *)

Lemma mapM_Ok_id {A B} (f : A → result B) (g : A → B) xs :
  Forall (λ x, f x = Ok (g x)) xs → mapM f xs = Ok (g <$> xs).
Proof.
  intros H. rewrite <- (list_fmap_id xs) at 1. by apply mapM_Ok.
Qed.

Lemma fold_distinct seen xs :
  distinct_from seen xs = true →
  fold_left (λ acc x, if py_in x acc then acc else acc ++ [x]) xs seen
  = seen ++ xs.
Proof.
  revert seen. induction xs as [|x xs IH]; intros seen Hd; simpl.
  - by rewrite app_nil_r.
  - simpl in Hd. apply andb_true_iff in Hd as [Hx%negb_true_iff Hd].
    rewrite Hx, (IH _ Hd). by rewrite <- app_assoc.
Qed.

Lemma make_set_distinct xs :
  forallb hashable xs = true → distinct xs = true →
  make_set xs = Ok (VSet xs).
Proof.
  intros Hh Hd. unfold make_set. rewrite Hh. by rewrite fold_distinct.
Qed.

Lemma conforms_fields_Forall (Q : pyval → Prop) fields attrs :
  conforms_fields conforms fields attrs = true →
  Forall (λ f, ∀ x, conforms f.2.1 x = true → Q x) fields →
  Forall (λ kv, Q kv.2) attrs.
Proof.
  intros Hc Hf. revert attrs Hc.
  induction Hf as [|[name [t m]] fields Ht _ IH];
    intros [|[k x] attrs] Hc; try done.
  simpl in Hc.
  apply andb_true_iff in Hc as [[_ Hx]%andb_true_iff Hrest].
  constructor; [by apply Ht|by apply IH].
Qed.

Section round_trip.
Context (parse_codecs : pyval → result pyval).
Local Abbreviation decode_value :=
  (Serialization.decode_value parse_codecs).

Lemma field_stable_round_trips t x :
  field_stable t → conforms t x = true → field_round_trips parse_codecs t x.
Proof.
  intros [t' Ht|t' Ht] Hc.
  - destruct (stable_decode parse_codecs t' Ht x Hc) as [Hj Hd].
    split; [|split; [|done]].
    + rewrite jsonable_not_encoded by done. by apply json_dumps_asdict.
    + by apply json_loads_to_doc.
  - destruct x as [| | | | | |xs| | |]; try done. simpl in Hc.
    apply andb_true_iff in Hc as [[Hc%forallb_Forall Hh]%andb_true_iff Hdist].
    assert (Forall (λ x, jsonable x = true ∧
                         decode_value t' (jsonify x) = Ok x) xs) as Hxs.
    { eapply Forall_impl; [exact Hc|]. intros x Hx.
      by apply stable_decode. }
    split; [|split].
    + change (json_dumps (VList xs) = Ok (JArray (to_doc <$> xs))).
      rewrite json_dumps_list, (mapM_Ok_id _ to_doc); [done|].
      apply forallb_Forall in Hh.
      apply (Forall_merge _ _ _ _ Hxs Hh). intros x [Hj _] Hhx.
      rewrite <- (asdict_inner_hashable x Hhx) at 1.
      by apply json_dumps_asdict.
    + change (VList (json_loads <$> (to_doc <$> xs)) = VList (jsonify <$> xs)).
      rewrite <- list_fmap_compose. f_equal. apply Forall_fmap_ext_1.
      eapply Forall_impl; [exact Hxs|]. intros x [Hj _].
      by apply json_loads_to_doc.
    + change ((ys ← mapM (decode_value t') (jsonify <$> xs); make_set ys)
              = Ok (VSet xs)).
      rewrite (mapM_Ok _ _ id).
      * rewrite list_fmap_id. simpl. by apply make_set_distinct.
      * eapply Forall_impl; [exact Hxs|]. by intros x [_ ?].
Qed.

End round_trip.


Lemma NoDup_names (names : list string) :
  bool_decide (NoDup names) = true → NoDup names.
Proof. apply bool_decide_eq_true_1. Qed.

Lemma not_codecs (names : list string) :
  bool_decide ("codecs" ∈ names) = false → "codecs" ∉ names.
Proof. apply bool_decide_eq_false_1. Qed.

Lemma dict_get_elem_of {A} (d : list (string * A)) k v :
  NoDup d.*1 → (k, v) ∈ d → dict_get d k = Some v.
Proof.
  induction d as [|[k' v'] d IH]; simpl; intros Hnd Hin.
  - by apply elem_of_nil in Hin.
  - apply NoDup_cons in Hnd as [Hk' Hnd].
    apply elem_of_cons in Hin as [[= <- <-]|Hin].
    + by rewrite String.eqb_refl.
    + destruct (String.eqb_spec k' k) as [->|_]; [|by apply IH].
      destruct Hk'. apply list_elem_of_fmap. by exists (k, v).
Qed.

(** [DefaultChunkKeyEncoding.__post_init__] accepts every typed
    instance: the hint of [name] admits ["default"] only. *)
Lemma default_post_init_accepts attrs :
  conforms_fields conforms
    [("name", (TLiteral [VStr "default"], [Tag]));
     ("configuration", (ChunkKeyEncodingConfiguration_type, []))] attrs
  = true →
  DefaultChunkKeyEncoding___post_init__ (VObj "DefaultChunkKeyEncoding" attrs)
  = Ok ().
Proof.
  intros Hf.
  destruct (conforms_fields_lookup _ _ "name" (TLiteral [VStr "default"])
              [Tag] Hf) as (name & Hin & Hname); [by left|].
  unfold conforms, py_in, existsb in Hname. rewrite orb_false_r in Hname.
  apply py_eq_to_VStr in Hname. subst name.
  unfold DefaultChunkKeyEncoding___post_init__, getattr.
  rewrite (dict_get_elem_of attrs "name" (VStr "default")); [done| |done].
  rewrite (conforms_fields_names _ _ Hf). by apply NoDup_names.
Qed.

Lemma chunk_key_encodings_stable : json_stable CHUNK_KEY_ENCODINGS.
Proof.
  assert (json_stable ChunkKeyEncodingConfiguration_type) as Hcfg.
  { apply stable_dataclass; [by apply NoDup_names|by apply not_codecs|done|].
    apply Forall_cons_2; [by apply stable_literal|apply Forall_nil_2]. }
  apply (stable_union _ _ _ _ _ _ "name" "default" "v2");
    [| |reflexivity|reflexivity|done].
  - apply stable_dataclass; [by apply NoDup_names|by apply not_codecs| |].
    + apply default_post_init_accepts.
    + apply Forall_cons_2; [by apply stable_literal|].
      apply Forall_cons_2; [exact Hcfg|apply Forall_nil_2].
  - apply stable_dataclass; [by apply NoDup_names|by apply not_codecs|done|].
    apply Forall_cons_2; [by apply stable_literal|].
    apply Forall_cons_2; [exact Hcfg|apply Forall_nil_2].
Qed.


(** * Further properties *)

(** ** Dictionaries *)

Lemma dict_get_set {A} (d : list (string * A)) k k' v :
  dict_get (dict_set d k v) k'
  = if String.eqb k k' then Some v else dict_get d k'.
Proof.
  induction d as [|[k0 v0] d IH]; simpl.
  - done.
  - destruct (String.eqb_spec k0 k) as [->|Hne]; simpl.
    + by destruct (String.eqb k k').
    + destruct (String.eqb_spec k0 k') as [->|Hne'].
      * by destruct (String.eqb_spec k k'); [congruence|].
      * exact IH.
Qed.

Lemma dict_set_set {A} (d : list (string * A)) k v w :
  dict_set (dict_set d k v) k w = dict_set d k w.
Proof.
  induction d as [|[k0 v0] d IH]; simpl.
  - by rewrite String.eqb_refl.
  - destruct (String.eqb_spec k0 k) as [->|Hne]; simpl.
    + by rewrite String.eqb_refl.
    + destruct (String.eqb_spec k0 k); [done|]. by rewrite IH.
Qed.

(** Replacing the value of a key that is there commutes with setting
    another key. *)
Lemma dict_set_comm {A} (d : list (string * A)) k k' v w :
  k ≠ k' → dict_get d k' ≠ None →
  dict_set (dict_set d k v) k' w = dict_set (dict_set d k' w) k v.
Proof.
  intros Hne. induction d as [|[k0 v0] d IH]; simpl; [done|].
  destruct (String.eqb_spec k0 k') as [->|Hne'].
  - intros _. destruct (String.eqb_spec k' k); [congruence|]. simpl.
    rewrite String.eqb_refl. by destruct (String.eqb_spec k' k).
  - intros Hd. destruct (String.eqb_spec k0 k) as [->|Hne0]; simpl.
    + destruct (String.eqb_spec k k'); [done|]. by rewrite String.eqb_refl.
    + destruct (String.eqb_spec k0 k'); [done|].
      destruct (String.eqb_spec k0 k); [done|]. by rewrite IH.
Qed.

Lemma dict_set_keys {A} (d : list (string * A)) k v :
  dict_get d k ≠ None → (dict_set d k v).*1 = d.*1.
Proof.
  induction d as [|[k0 v0] d IH]; simpl; [done|].
  destruct (String.eqb_spec k0 k) as [->|Hne]; [done|].
  intros Hd. rewrite !fmap_cons. by rewrite IH.
Qed.

Lemma dict_get_app_None {A} (d d' : list (string * A)) k :
  dict_get d k = None → dict_get (d ++ d') k = dict_get d' k.
Proof.
  induction d as [|[k0 v0] d IH]; simpl; [done|].
  by destruct (String.eqb k0 k).
Qed.

(** ** [_build_paths] and [_gather_documents] *)

Lemma build_paths_cases node_type zarr_format :
  (handled node_type zarr_format ∧
   ∃ paths, _build_paths node_type zarr_format = Ok paths) ∨
  (¬ handled node_type zarr_format ∧
   _build_paths node_type zarr_format = Raise ValueError).
Proof.
  unfold _build_paths, case_, handled.
  repeat case_bool_decide; simplify_eq;
    try (left; split; [set_unfold; tauto|eauto]; fail).
  right. split; [|done]. set_unfold. intros [?|[? ?]]; intuition congruence.
Qed.

(** [_build_paths] raises [ValueError] exactly on the states its [match]
    does not handle, and raises nothing else; with format 3 every node
    type is accepted, also one that is neither array nor group. *)
Theorem build_paths_unhandled_state node_type zarr_format :
  (_build_paths node_type zarr_format = Raise ValueError
   ↔ ¬ handled node_type zarr_format) ∧
  (∀ e, _build_paths node_type zarr_format = Raise e → e = ValueError) ∧
  (∀ node_type', ∃ paths, _build_paths node_type' (Some 3) = Ok paths).
Proof.
  destruct (build_paths_cases node_type zarr_format)
    as [[Hh [paths Hp]]|[Hh Hp]]; rewrite Hp.
  - split; [split; [done|tauto]|]. split; [done|]. by eexists.
  - split; [done|]. split; [congruence|]. by eexists.
Qed.

(** Which documents [_build_paths] asks for: zarr.json unless the format
    is known to be 2; .zattrs unless it is known to be 3; .zarray (.zgroup)
    unless the format is 3 or the node is known to be a group (an
    array). *)
Theorem build_paths_membership node_type zarr_format paths :
  _build_paths node_type zarr_format = Ok paths →
  (ZARR_JSON ∈ paths ↔ zarr_format ≠ Some 2) ∧
  (ZATTRS_JSON ∈ paths ↔ zarr_format ≠ Some 3) ∧
  (ZARRAY_JSON ∈ paths ↔ zarr_format ≠ Some 3 ∧ node_type ≠ Some "group") ∧
  (ZGROUP_JSON ∈ paths ↔ zarr_format ≠ Some 3 ∧ node_type ≠ Some "array").
Proof.
  unfold _build_paths, case_.
  repeat case_bool_decide; simplify_eq; intros [= <-];
    unfold ZARR_JSON, ZATTRS_JSON, ZARRAY_JSON, ZGROUP_JSON;
    set_unfold; intuition congruence.
Qed.

Lemma build_paths_membership_witness :
  (ZARR_JSON ∈ [ZGROUP_JSON; ZATTRS_JSON] ↔ Some 2 ≠ Some 2) ∧
  (ZATTRS_JSON ∈ [ZGROUP_JSON; ZATTRS_JSON] ↔ Some 2 ≠ Some 3) ∧
  (ZARRAY_JSON ∈ [ZGROUP_JSON; ZATTRS_JSON]
   ↔ Some 2 ≠ Some 3 ∧ Some "group" ≠ Some "group") ∧
  (ZGROUP_JSON ∈ [ZGROUP_JSON; ZATTRS_JSON]
   ↔ Some 2 ≠ Some 3 ∧ Some "group" ≠ Some "array").
Proof.
  apply (build_paths_membership (Some "group") (Some 2)). reflexivity.
Defined.

(** With a format other than 3, [_gather_documents] reads the documents
    and looks at none of them: its outcome is that of [_build_paths],
    whatever the store holds. *)
Theorem gather_documents_ignores_store
    (store_path store_path' : gmap string string) node_type zarr_format :
  zarr_format ≠ Some 3 →
  _gather_documents store_path node_type zarr_format
  = _gather_documents store_path' node_type zarr_format ∧
  _gather_documents store_path node_type zarr_format
  = (_ ← _build_paths node_type zarr_format; Ok VNone).
Proof.
  intros Hz.
  assert (∀ sp : gmap string string,
            _gather_documents sp node_type zarr_format
            = (_ ← _build_paths node_type zarr_format; Ok VNone)) as H.
  { intros sp. unfold _gather_documents, _build_paths.
    rewrite (bool_decide_eq_false_2 _ Hz).
    case_state; simpl; rewrite ?(bool_decide_eq_false_2 _ Hz); auto. }
  by rewrite !H.
Qed.

Lemma gather_documents_ignores_store_witness :
  _gather_documents conflicting_store (Some "array") (Some 2)
  = _gather_documents ∅ (Some "array") (Some 2) ∧
  _gather_documents conflicting_store (Some "array") (Some 2)
  = (_ ← _build_paths (Some "array") (Some 2); Ok VNone).
Proof. apply gather_documents_ignores_store. done. Defined.

(** ** The bodies of the chunk key methods *)

Lemma separator_char separator :
  separator = "." ∨ separator = "/" →
  ∃ c, separator = String c EmptyString ∧ is_sign_or_digit c = false ∧
       has_char c "c" = false.
Proof. intros [-> | ->]; eexists; repeat split. Qed.

Lemma join_cons sep s t (items : list string) :
  str_join sep (s :: t :: items) = s +:+ sep +:+ str_join sep (t :: items).
Proof. reflexivity. Qed.

Lemma strs_no_separator c (chunk_coords : list Z) :
  is_sign_or_digit c = false →
  Forall (λ s, has_char c s = false) (map str_of_int chunk_coords).
Proof.
  intros Hc. apply Forall_fmap, Forall_forall. intros z _. simpl.
  apply has_char_other; [done|apply str_of_int_chars].
Qed.

Lemma strs_join_nonempty sep (chunk_coords : list Z) :
  chunk_coords ≠ [] →
  str_join sep (map str_of_int chunk_coords) ≠ EmptyString.
Proof.
  destruct chunk_coords as [|z zs]; [done|]. intros _.
  apply join_nonempty, str_of_int_nonempty.
Qed.

(** Splitting a joined key gives the parts back. *)
Lemma split_joined_coords c (chunk_coords : list Z) :
  is_sign_or_digit c = false → chunk_coords ≠ [] →
  str_split (str_join (String c EmptyString) (map str_of_int chunk_coords))
    (String c EmptyString)
  = Ok (map str_of_int chunk_coords).
Proof.
  intros Hc Hne. apply split_join; [by destruct chunk_coords|].
  by apply strs_no_separator.
Qed.

(** Under the default scheme, given the separator, no key of a non-empty
    coordinate tuple decodes: [decode_chunk_key] drops the ["c"] only, the
    first part of the split is empty and [int] raises [ValueError]. *)
Theorem default_round_trip_nonempty_raises (separator : string)
    (chunk_coords : list Z) :
  separator = "." ∨ separator = "/" →
  chunk_coords ≠ [] →
  default_round_trip separator chunk_coords = Raise ValueError.
Proof.
  intros (c & -> & Hc & _)%separator_char Hne.
  destruct chunk_coords as [|z zs]; [done|].
  unfold default_round_trip, DefaultChunkKeyEncoding_encode_chunk_key_with,
    DefaultChunkKeyEncoding_decode_chunk_key_with.
  cbv [mbind result_bind].
  change (map str_of_int (z :: zs)) with (str_of_int z :: map str_of_int zs).
  rewrite join_cons.
  set (rest := str_join (String c EmptyString)
                 (str_of_int z :: map str_of_int zs)).
  change ("c" +:+ String c EmptyString +:+ rest)
    with (String "c" (String c rest)).
  change (String.eqb (String "c" (String c rest)) "c") with false.
  cbv iota. change (str_tail (String "c" (String c rest))) with (String c rest).
  unfold str_split.
  change (String c rest) with (EmptyString +:+ String c rest).
  rewrite (split_from_separator c EmptyString rest eq_refl).
  reflexivity.
Qed.

Lemma default_round_trip_nonempty_raises_witness :
  default_round_trip "/" [0; 0] = Raise ValueError.
Proof. apply default_round_trip_nonempty_raises; [by right|done]. Defined.

(** The round trip of the v2 bodies on every tuple: the empty one comes
    back as [(0,)]. *)
Lemma v2_decode_encode c (chunk_coords : list Z) :
  is_sign_or_digit c = false →
  v2_round_trip (String c EmptyString) chunk_coords
  = Ok (match chunk_coords with [] => [0] | _ => chunk_coords end).
Proof.
  intros Hc. destruct chunk_coords as [|z zs].
  - unfold v2_round_trip, V2ChunkKeyEncoding_encode_chunk_key_with,
      V2ChunkKeyEncoding_decode_chunk_key_with. cbv [mbind result_bind].
    change (str_join (String c EmptyString) (map str_of_int [])) with "".
    change (String.eqb "" "") with true. cbv iota.
    unfold str_split.
    rewrite (split_from_no_separator c "0"); [reflexivity|].
    change (Ascii.eqb "0" c || false = false). rewrite orb_false_r.
    destruct (Ascii.eqb_spec "0" c) as [<-|]; [discriminate|done].
  - by apply v2_round_trip_nonempty.
Qed.

(** The round trip of the default bodies on a non-empty tuple, for any
    separator of one character. *)
Lemma default_body_round_trip c (chunk_coords : list Z) :
  chunk_coords ≠ [] →
  default_round_trip (String c EmptyString) chunk_coords = Raise ValueError.
Proof.
  intros Hne. destruct chunk_coords as [|z zs]; [done|].
  unfold default_round_trip, DefaultChunkKeyEncoding_encode_chunk_key_with,
    DefaultChunkKeyEncoding_decode_chunk_key_with.
  cbv [mbind result_bind].
  change (map str_of_int (z :: zs)) with (str_of_int z :: map str_of_int zs).
  rewrite join_cons.
  set (rest := str_join (String c EmptyString)
                 (str_of_int z :: map str_of_int zs)).
  change ("c" +:+ String c EmptyString +:+ rest)
    with (String "c" (String c rest)).
  change (String.eqb (String "c" (String c rest)) "c") with false.
  cbv iota. change (str_tail (String "c" (String c rest))) with (String c rest).
  unfold str_split.
  change (String c rest) with (EmptyString +:+ String c rest).
  rewrite (split_from_separator c EmptyString rest eq_refl).
  reflexivity.
Qed.

(** C2. The round trip of the claim does not hold in the code.  On the
    instances that the constructors build, with any separator in the
    configuration, [encode_chunk_key] raises [AttributeError] under both
    schemes, for every coordinate tuple: the methods read [self.separator],
    which no instance has.  With the separator given to the method bodies,
    the default scheme still fails on every non-empty tuple: the key is
    ["c"], the separator and the joined coordinates, [decode_chunk_key]
    drops the ["c"] only, and [int] raises [ValueError] on the empty first
    part.  What is left of the claim: the bodies of the v2 scheme are
    inverse on non-empty tuples, those of the default scheme on the empty
    one, and v2 sends [()] to ["0"] and back to [(0,)]. *)
Theorem chunk_key_round_trip_fails (separator_value : pyval)
    (chunk_coords : list Z) :
  let default :=
    default_encoding (VStr "default") (configuration_of separator_value) in
  let v2 := v2_encoding (VStr "v2") (configuration_of separator_value) in
  (key ← DefaultChunkKeyEncoding_encode_chunk_key default chunk_coords;
   DefaultChunkKeyEncoding_decode_chunk_key default key)
  = Raise AttributeError ∧
  (key ← V2ChunkKeyEncoding_encode_chunk_key v2 chunk_coords;
   V2ChunkKeyEncoding_decode_chunk_key v2 key)
  = Raise AttributeError ∧
  ∀ separator, separator = "." ∨ separator = "/" →
    (chunk_coords ≠ [] →
     default_round_trip separator chunk_coords = Raise ValueError) ∧
    (chunk_coords ≠ [] →
     v2_round_trip separator chunk_coords = Ok chunk_coords) ∧
    default_round_trip separator [] = Ok [] ∧
    v2_round_trip separator [] = Ok [0].
Proof.
  intros default v2. split; [reflexivity|]. split; [reflexivity|].
  intros separator (c & -> & Hc & _)%separator_char.
  split; [apply default_body_round_trip|].
  split; [by apply v2_round_trip_nonempty|].
  split; [reflexivity|]. by rewrite v2_decode_encode.
Qed.

(** What the default [decode_chunk_key] does decode: any one character
    followed by a key of the v2 scheme.  The first character is dropped
    without being looked at. *)
Theorem default_decode_skips_first_character (separator : string)
    (chunk_coords : list Z) (key : string) (a : ascii) :
  separator = "." ∨ separator = "/" →
  chunk_coords ≠ [] →
  V2ChunkKeyEncoding_encode_chunk_key_with (Ok separator) chunk_coords
  = Ok key →
  DefaultChunkKeyEncoding_decode_chunk_key_with (Ok separator) (String a key)
  = Ok chunk_coords.
Proof.
  intros (c & -> & Hc & _)%separator_char Hne.
  unfold V2ChunkKeyEncoding_encode_chunk_key_with,
    DefaultChunkKeyEncoding_decode_chunk_key_with.
  cbv [mbind result_bind].
  pose proof (strs_join_nonempty (String c EmptyString) chunk_coords Hne) as Hk.
  apply String.eqb_neq in Hk. rewrite Hk. intros [= <-].
  assert (String.eqb
            (String a (str_join (String c EmptyString)
                         (map str_of_int chunk_coords))) "c" = false) as ->.
  { apply String.eqb_neq. intros [= _ H]. apply String.eqb_neq in Hk. done. }
  simpl str_tail. rewrite split_joined_coords by done.
  apply mapM_int_of_str.
Qed.

Lemma default_decode_skips_first_character_witness :
  DefaultChunkKeyEncoding_decode_chunk_key_with (Ok "/") "c1/2" = Ok [1; 2] ∧
  DefaultChunkKeyEncoding_decode_chunk_key_with (Ok "/") "x1/2" = Ok [1; 2].
Proof.
  split.
  - apply (default_decode_skips_first_character "/" [1; 2] "1/2" "c");
      [by right|done|reflexivity].
  - apply (default_decode_skips_first_character "/" [1; 2] "1/2" "x");
      [by right|done|reflexivity].
Defined.

Lemma str_of_int_inj (xs ys : list Z) :
  map str_of_int xs = map str_of_int ys → xs = ys.
Proof.
  intros H. pose proof (mapM_int_of_str xs) as Hx.
  change (str_of_int <$> xs) with (map str_of_int xs) in Hx.
  rewrite H in Hx.
  change (map str_of_int ys) with (str_of_int <$> ys) in Hx.
  rewrite mapM_int_of_str in Hx. congruence.
Qed.

(** Under the default scheme, given the separator, different coordinate
    tuples get different keys. *)
Theorem default_chunk_keys_distinct (separator : string)
    (chunk_coords chunk_coords' : list Z) :
  separator = "." ∨ separator = "/" →
  DefaultChunkKeyEncoding_encode_chunk_key_with (Ok separator) chunk_coords
  = DefaultChunkKeyEncoding_encode_chunk_key_with (Ok separator)
      chunk_coords' →
  chunk_coords = chunk_coords'.
Proof.
  intros (c & -> & Hc & Hcc)%separator_char.
  unfold DefaultChunkKeyEncoding_encode_chunk_key_with.
  cbv [mbind result_bind]. intros H.
  assert (str_join (String c EmptyString) ("c" :: map str_of_int chunk_coords)
          = str_join (String c EmptyString)
              ("c" :: map str_of_int chunk_coords')) as H' by congruence.
  clear H. rename H' into H.
  assert (∀ coords : list Z,
            str_split (str_join (String c EmptyString)
                         ("c" :: map str_of_int coords)) (String c EmptyString)
            = Ok ("c" :: map str_of_int coords)) as Hsplit.
  { intros coords. apply split_join; [done|].
    constructor; [done|by apply strs_no_separator]. }
  pose proof (Hsplit chunk_coords) as H1. rewrite H, Hsplit in H1.
  injection H1 as H1. symmetry. by apply str_of_int_inj.
Qed.

Lemma default_chunk_keys_distinct_witness : [1; 2] = [1; 2] :> list Z.
Proof.
  apply (default_chunk_keys_distinct "/" [1; 2] [1; 2]);
    [by right|reflexivity].
Defined.

(** Under the v2 scheme, given the separator, two different coordinate
    tuples share a key only when they are [()] and [(0,)]. *)
Theorem v2_chunk_keys_collide_at_empty_only (separator : string)
    (chunk_coords chunk_coords' : list Z) :
  separator = "." ∨ separator = "/" →
  V2ChunkKeyEncoding_encode_chunk_key_with (Ok separator) chunk_coords
  = V2ChunkKeyEncoding_encode_chunk_key_with (Ok separator) chunk_coords' →
  chunk_coords = chunk_coords' ∨
  (chunk_coords = [] ∧ chunk_coords' = [0]) ∨
  (chunk_coords = [0] ∧ chunk_coords' = []).
Proof.
  intros (c & -> & Hc & _)%separator_char H.
  pose proof (v2_decode_encode c chunk_coords Hc) as H1.
  pose proof (v2_decode_encode c chunk_coords' Hc) as H2.
  unfold v2_round_trip in H1, H2. rewrite H in H1. rewrite H1 in H2.
  injection H2 as H2.
  destruct chunk_coords as [|z zs], chunk_coords' as [|z' zs']; auto.
Qed.

Lemma v2_chunk_keys_collide_at_empty_only_witness :
  ([] : list Z) = [0] ∨ (([] : list Z) = [] ∧ [0] = [0] :> list Z) ∨
  (([] : list Z) = [0] ∧ [0] = ([] : list Z)).
Proof.
  apply (v2_chunk_keys_collide_at_empty_only "." [] [0]);
    [by left|reflexivity].
Defined.

(** ** [from_dict] and [to_dict] *)

Lemma from_dict_fields_agree parse_codecs decode_value fields data data' :
  (∀ name, name ∈ fields.*1 →
           default VNone (dict_get data name)
           = default VNone (dict_get data' name)) →
  from_dict_fields parse_codecs decode_value (VDict data) fields
  = from_dict_fields parse_codecs decode_value (VDict data') fields.
Proof.
  induction fields as [|[name [t m]] fields IH]; intros H; [done|].
  simpl. rewrite (H name) by (by left).
  rewrite IH; [done|]. intros n Hn. apply H. by right.
Qed.

(** [from_dict] reads the mapping through [data.get] at the names of the
    fields only: two mappings that agree there, a missing key counting as
    [None], give the same result.  So keys that name no field are ignored,
    and a missing key is decoded as [None], whatever default the field
    declares. *)
Theorem from_dict_reads_fields_only parse_codecs cls fields post_init
    (data data' : list (string * pyval)) :
  (∀ name, name ∈ fields.*1 →
           default VNone (dict_get data name)
           = default VNone (dict_get data' name)) →
  from_dict parse_codecs (VDict data) (TDataclass cls fields post_init)
  = from_dict parse_codecs (VDict data') (TDataclass cls fields post_init).
Proof.
  intros H. unfold from_dict.
  by rewrite (from_dict_fields_agree _ _ fields data data' H).
Qed.

Lemma from_dict_reads_fields_only_witness :
  from_dict (λ _, Raise TypeError)
    (VDict [("x", VStr "a"); ("n", VInt 3); ("extra", VInt 1)]) A_type
  = from_dict (λ _, Raise TypeError)
      (VDict [("n", VInt 3); ("x", VStr "a")]) A_type.
Proof.
  apply from_dict_reads_fields_only.
  intros name Hname. simpl in Hname.
  apply elem_of_cons in Hname as [->|Hname]; [reflexivity|].
  apply elem_of_cons in Hname as [->|Hname]; [reflexivity|].
  by apply elem_of_nil in Hname.
Defined.



(** [to_dict] of an instance never fails and never recurses: the result
    has the fields of the instance as its keys, in their order, each with
    [encode_value] of its [asdict] image, so that nested instances appear
    as plain mappings whose contents are not encoded.  On anything but an
    instance [to_dict] raises [TypeError]. *)
Theorem to_dict_fields cls (attrs : list (string * pyval)) :
  NoDup attrs.*1 →
  to_dict (VObj cls attrs)
  = Ok ((λ kv, (kv.1, encode_value (asdict_inner kv.2))) <$> attrs) ∧
  ∀ v, is_dataclass v = false → to_dict v = Raise TypeError.
Proof.
  intros Hnd. split.
  - rewrite to_dict_top_level.
    change (asdict (VObj cls attrs))
      with (Ok ((λ kv, (kv.1, asdict_inner kv.2)) <$> attrs)).
    rewrite bind_Ok.
    rewrite fold_dict_set by (rewrite app_nil_l, fmap_names; congruence).
    by rewrite app_nil_l, <- list_fmap_compose.
  - intros v Hv. rewrite to_dict_top_level. by destruct v.
Qed.

Lemma to_dict_fields_witness :
  to_dict nested_record
  = Ok [("inner", VDict [("a", VSet [VInt 1])])] ∧
  ∀ v, is_dataclass v = false → to_dict v = Raise TypeError.
Proof.
  apply (to_dict_fields "Outer" [("inner", inner_record)]).
  by apply NoDup_names.
Defined.

(** ** Unions, enums and sequences in [decode_value] *)

Lemma not_all_dataclasses variants :
  forallb (λ x, is_NoneType x || is_dataclass_type x) variants = true →
  forallb is_dataclass_type variants = false →
  TNoneType ∈ variants.
Proof.
  induction variants as [|t variants IH]; simpl; [done|].
  intros [Ht Hall]%andb_true_iff Hd.
  destruct t; simpl in *; try done; try (by left).
  right. by apply IH.
Qed.

(** A union that is not of the optional form [T | None] and has a variant
    that is no dataclass decodes nothing: [TypeError] for every input.
    This is so for [int | str] and for [A | B | None], [None] included. *)
Theorem union_without_tags_never_decodes parse_codecs (variants : list ty)
    (v : pyval) :
  optional_form variants = false →
  forallb is_dataclass_type variants = false →
  decode_value parse_codecs (TUnion variants) v = Raise TypeError.
Proof.
  intros Hopt Hd. unfold optional_form in Hopt.
  change (decode_value parse_codecs (TUnion variants) v)
    with (if negb (forallb union_member variants) then Raise TypeError
          else if (length variants =? 2)%nat && existsb is_NoneType variants
          then
            match v with
            | VNone => Ok VNone
            | _ => decode_first_real (decode_value parse_codecs) variants v
            end
          else if forallb (λ x, is_NoneType x || is_dataclass_type x) variants
          then
            match v with
            | VDict items =>
                '(tag_field_name, tags_to_variants) ←
                  tag_table variants 0 None [];
                match tag_field_name with
                | None => Raise AssertionError
                | Some tag_field_name =>
                    tag_value ← dict_getitem items tag_field_name;
                    tag_type ← tags_getitem tags_to_variants tag_value;
                    decode_variant (decode_value parse_codecs) variants
                      tag_type v
                end
            | _ => Raise TypeError
            end
          else Raise TypeError).
  destruct (negb (forallb union_member variants)); [done|].
  rewrite Hopt.
  destruct (forallb (λ x, is_NoneType x || is_dataclass_type x) variants)
    eqn:Hall; [|done].
  destruct v; try done.
  by rewrite (tag_table_NoneType _ _ _ _ (not_all_dataclasses _ Hall Hd)).
Qed.

Lemma union_without_tags_never_decodes_witness :
  decode_value (λ _, Raise TypeError) (TUnion [int_; str_]) (VInt 1)
  = Raise TypeError ∧
  decode_value (λ _, Raise TypeError) (TUnion [A_type; B_type; TNoneType])
    VNone = Raise TypeError.
Proof.
  split; apply union_without_tags_never_decodes; reflexivity.
Defined.

(** Two variants that declare the same tag under the same name are not
    rejected: the table keeps the later one, and a mapping that carries
    the tag is decoded as the later variant; the earlier one is never
    chosen. *)
Theorem duplicate_tag_last_variant_wins parse_codecs clsA fieldsA piA
    clsB fieldsB piB (x a : string) (items : list (string * pyval)) :
  let A := TDataclass clsA fieldsA piA in
  let B := TDataclass clsB fieldsB piB in
  declared_tag A = Some (x, VStr a) →
  declared_tag B = Some (x, VStr a) →
  decode_value parse_codecs (TUnion [A; B]) (VDict items)
  = match dict_get items x with
    | None => Raise KeyError
    | Some tag_value =>
        if py_eq (VStr a) tag_value
        then decode_value parse_codecs B (VDict items)
        else Raise (if hashable tag_value then KeyError else TypeError)
    end.
Proof.
  intros A B HA HB.
  apply declared_tag_Some in HA as [mA HA].
  apply declared_tag_Some in HB as [mB HB].
  assert (tag_table [A; B] 0 None [] = Ok (Some x, [(VStr a, 1%nat)])) as Ht.
  { rewrite (tag_table_step _ _ _ _ _ _ _ _ HA eq_refl).
    rewrite (tag_table_step _ _ _ _ _ _ _ _ HB eq_refl).
    rewrite String.eqb_refl. simpl. by rewrite String.eqb_refl. }
  unfold A, B. rewrite decode_value_union_of_two. fold A B. rewrite Ht.
  rewrite bind_Ok. cbv beta iota. unfold dict_getitem.
  destruct (dict_get items x) as [tag_value|]; [|done]. rewrite bind_Ok.
  unfold tags_getitem, tags_get.
  destruct (py_eq (VStr a) tag_value) eqn:Heq.
  - apply py_eq_VStr in Heq. subst tag_value. reflexivity.
  - destruct (hashable tag_value); reflexivity.
Qed.

Lemma duplicate_tag_last_variant_wins_witness :
  decode_value (λ _, Raise TypeError) (TUnion [A_type; C_type])
    (VDict [("x", VStr "a"); ("n", VInt 3)])
  = Ok (VObj "C" [("x", VStr "a"); ("n", VInt 3)]).
Proof.
  refine (eq_trans
    (duplicate_tag_last_variant_wins (λ _, Raise TypeError)
       "A" _ _ "C" _ _ "x" "a" _ _ _) _);
    reflexivity.
Defined.

Lemma find_member members (v : pyval) :
  match List.find (λ m : string * pyval, py_eq m.2 v) members with
  | Some m => m ∈ members ∧ py_eq m.2 v = true
  | None => ∀ m, m ∈ members → py_eq m.2 v = false
  end.
Proof.
  induction members as [|m members IH]; simpl.
  - intros m Hm. by apply elem_of_nil in Hm.
  - destruct (py_eq m.2 v) eqn:Hm.
    + split; [by left|done].
    + destruct (List.find _ members) as [m'|].
      * destruct IH. split; [by right|done].
      * intros m' [->|Hin]%elem_of_cons; auto.
Qed.

(** On a value that is no member of the enum, [decode_value] looks the
    value up among the values of the members. *)
Lemma decode_enum_value parse_codecs cls members (v : pyval) :
  (∀ m x, v ≠ VEnum cls m x) →
  decode_value parse_codecs (TEnum cls members) v
  = match List.find (λ m : string * pyval, py_eq m.2 v) members with
    | Some (member, value) => Ok (VEnum cls member value)
    | None => Raise ValueError
    end.
Proof.
  intros Hv. destruct v as [| | | | | | | |c m x|]; try reflexivity.
  change (decode_value parse_codecs (TEnum cls members) (VEnum c m x))
    with (if String.eqb c cls then Ok (VEnum c m x)
          else
            match List.find (λ m0 : string * pyval, py_eq m0.2 (VEnum c m x))
                    members with
            | Some (member, value) => Ok (VEnum cls member value)
            | None => Raise ValueError
            end).
  destruct (String.eqb_spec c cls) as [->|_]; [|done]. by destruct (Hv m x).
Qed.

(** A member of an enum whose value equals itself and the value of no
    other member (and is not itself a member of the enum) survives
    [encode_value] followed by [decode_value]; a member given as it is
    comes back as it is; any other value that no member has raises
    [ValueError]. *)
Theorem enum_decode parse_codecs cls (members : list (string * pyval))
    (member : string) (value : pyval) :
  (member, value) ∈ members →
  py_eq value value = true →
  (∀ m, m ∈ members → py_eq m.2 value = true → m = (member, value)) →
  (∀ m x, value ≠ VEnum cls m x) →
  decode_value parse_codecs (TEnum cls members)
    (encode_value (VEnum cls member value))
  = Ok (VEnum cls member value) ∧
  decode_value parse_codecs (TEnum cls members) (VEnum cls member value)
  = Ok (VEnum cls member value) ∧
  ∀ v, (∀ m x, v ≠ VEnum cls m x) →
       (∀ m, m ∈ members → py_eq m.2 v = false) →
       decode_value parse_codecs (TEnum cls members) v = Raise ValueError.
Proof.
  intros Hin Hrefl Huniq Hvalue. split; [|split].
  - change (encode_value (VEnum cls member value)) with value.
    rewrite decode_enum_value by done.
    pose proof (find_member members value) as Hfind.
    destruct (List.find _ members) as [[member' value']|].
    + destruct Hfind as [Hin' Heq]. by injection (Huniq _ Hin' Heq) as -> ->.
    + specialize (Hfind _ Hin). simpl in Hfind. congruence.
  - change (decode_value parse_codecs (TEnum cls members)
              (VEnum cls member value))
      with (if String.eqb cls cls then Ok (VEnum cls member value)
            else
              match List.find
                      (λ m0 : string * pyval,
                         py_eq m0.2 (VEnum cls member value)) members with
              | Some (member', value') => Ok (VEnum cls member' value')
              | None => Raise ValueError
              end).
    by rewrite String.eqb_refl.
  - intros v Hv Hnone. rewrite decode_enum_value by done.
    pose proof (find_member members v) as Hfind.
    destruct (List.find _ members) as [m|]; [|done].
    destruct Hfind as [Hin' Heq]. rewrite (Hnone _ Hin') in Heq. done.
Qed.

Lemma enum_decode_witness :
  decode_value (λ _, Raise TypeError) Endian
    (encode_value (VEnum "Endian" "little" (VStr "little")))
  = Ok (VEnum "Endian" "little" (VStr "little")).
Proof.
  refine (proj1 (enum_decode _ "Endian" _ "little" (VStr "little")
                  _ _ _ _)).
  - right. left.
  - reflexivity.
  - intros m [->|[->|[]%elem_of_nil]%elem_of_cons]%elem_of_cons Hm;
      [discriminate|reflexivity].
  - discriminate.
Defined.

Lemma mapM_length {A B} (f : A → result B) xs ys :
  mapM f xs = Ok ys → length ys = length xs.
Proof.
  revert ys. induction xs as [|x xs IH]; intros ys.
  - by intros [= <-].
  - rewrite mapM_cons. destruct (f x) as [y|]; [|done]. rewrite bind_Ok.
    destruct (mapM f xs) as [ys'|]; [|done]. rewrite bind_Ok.
    intros [= <-]. simpl. f_equal. by apply IH.
Qed.

Lemma py_iter_len v xs : py_iter v = Ok xs → py_len v = Ok (length xs).
Proof.
  destruct v; simpl; try done; intros [= <-]; try done.
  - unfold chars. rewrite length_fmap. f_equal.
    induction s; simpl; congruence.
  - by rewrite length_fmap.
Qed.

(** Decoding against [tuple[T, ...]] or [list[T]] keeps the length: when it
    succeeds the result is a tuple (a list) with one item for each item of
    the input, nothing dropped and nothing added. *)
Theorem sequence_decode_preserves_length parse_codecs (subtype : ty)
    (v r : pyval) :
  (decode_value parse_codecs (TGeneric OTuple [subtype; TEllipsis]) v = Ok r →
   ∃ ys, r = VTuple ys ∧ py_len v = Ok (length ys)) ∧
  (decode_value parse_codecs (TGeneric OList [subtype]) v = Ok r →
   ∃ ys, r = VList ys ∧ py_len v = Ok (length ys)).
Proof.
  split.
  - change (decode_value parse_codecs (TGeneric OTuple [subtype; TEllipsis]) v)
      with (xs ← py_iter v;
            VTuple <$> mapM (decode_value parse_codecs subtype) xs).
    destruct (py_iter v) as [xs|] eqn:Hxs; [|done]. rewrite bind_Ok.
    destruct (mapM _ xs) as [ys|] eqn:Hys; [|done].
    intros [= <-]. exists ys. split; [done|].
    rewrite (mapM_length _ _ _ Hys). by apply py_iter_len.
  - change (decode_value parse_codecs (TGeneric OList [subtype]) v)
      with (xs ← py_iter v;
            ys ← mapM (decode_value parse_codecs subtype) xs;
            Ok (VList ys)).
    destruct (py_iter v) as [xs|] eqn:Hxs; [|done]. rewrite bind_Ok.
    destruct (mapM _ xs) as [ys|] eqn:Hys; [|done].
    intros [= <-]. exists ys. split; [done|].
    rewrite (mapM_length _ _ _ Hys). by apply py_iter_len.
Qed.

(** ** Chunk key encodings through the value codec *)

Lemma conforms_fields_cons name t m fields attrs :
  conforms_fields conforms ((name, (t, m)) :: fields) attrs = true →
  ∃ x attrs', attrs = (name, x) :: attrs' ∧ conforms t x = true ∧
              conforms_fields conforms fields attrs' = true.
Proof.
  destruct attrs as [|[k x] attrs']; [done|].
  cbn [conforms_fields].
  intros [[->%String.eqb_eq Hx]%andb_true_iff Hrest]%andb_true_iff.
  eauto.
Qed.

Lemma conforms_fields_nil attrs :
  conforms_fields conforms [] attrs = true → attrs = [].
Proof. by destruct attrs. Qed.

Lemma conforms_dataclass cls fields post_init v :
  conforms (TDataclass cls fields post_init) v = true →
  ∃ attrs, v = VObj cls attrs ∧ conforms_fields conforms fields attrs = true.
Proof.
  destruct v as [| | | | | | | | |c attrs]; try done.
  change (String.eqb c cls && conforms_fields conforms fields attrs = true →
          ∃ attrs0, VObj c attrs = VObj cls attrs0 ∧
                    conforms_fields conforms fields attrs0 = true).
  intros [->%String.eqb_eq Hf]%andb_true_iff. eauto.
Qed.

Lemma conforms_literal values v :
  conforms (TLiteral values) v = true → py_in v values = true.
Proof. done. Qed.

Lemma py_in_strings v (strings : list string) :
  py_in v (VStr <$> strings) = true → ∃ s, v = VStr s ∧ s ∈ strings.
Proof.
  unfold py_in. intros (x & Hin & Heq)%existsb_exists.
  apply list_elem_of_In, list_elem_of_fmap in Hin as (s & -> & Hs).
  apply py_eq_to_VStr in Heq. eauto.
Qed.

Lemma conforms_configuration c :
  conforms ChunkKeyEncodingConfiguration_type c = true →
  ∃ s, c = configuration_of (VStr s) ∧ s ∈ ["."; "/"].
Proof.
  intros (attrs & -> & Hf)%conforms_dataclass.
  apply conforms_fields_cons in Hf as (x & attrs' & -> & Hx & Hf).
  apply conforms_fields_nil in Hf as ->.
  apply conforms_literal, (py_in_strings _ ["."; "/"]) in Hx as (s & -> & Hs).
  eauto.
Qed.

Lemma conforms_encoding cls tag post_init e :
  conforms
    (TDataclass cls
       [("name", (TLiteral [VStr tag], [Tag]));
        ("configuration", (ChunkKeyEncodingConfiguration_type, []))]
       post_init) e = true →
  ∃ s, e = VObj cls [("name", VStr tag);
                     ("configuration", configuration_of (VStr s))] ∧
       s ∈ ["."; "/"].
Proof.
  intros (attrs & -> & Hf)%conforms_dataclass.
  apply conforms_fields_cons in Hf as (x1 & attrs' & -> & H1 & Hf).
  apply conforms_fields_cons in Hf as (x2 & attrs'' & -> & H2 & Hf).
  apply conforms_fields_nil in Hf as ->.
  apply conforms_literal, (py_in_strings _ [tag]) in H1 as (s & -> & Hs).
  apply list_elem_of_singleton in Hs as ->.
  apply conforms_configuration in H2 as (s & -> & Hs). eauto.
Qed.

(** The typed chunk key encodings: the two classes, each with one of the
    two separators. *)
Lemma conforms_chunk_key_encoding e :
  conforms CHUNK_KEY_ENCODINGS e = true →
  ∃ s, s ∈ ["."; "/"] ∧
       (e = default_encoding (VStr "default") (configuration_of (VStr s)) ∨
        e = v2_encoding (VStr "v2") (configuration_of (VStr s))).
Proof.
  change (conforms CHUNK_KEY_ENCODINGS e)
    with (conforms DefaultChunkKeyEncoding_type e
          || (conforms V2ChunkKeyEncoding_type e || false)).
  rewrite orb_false_r.
  intros [H|H]%orb_true_iff; apply conforms_encoding in H as (s & -> & Hs);
    eauto.
Qed.

(** What [ChunkKeyEncoding.to_dict] writes for a typed encoding, the value
    codec reads back as the same encoding: [decode_value] against
    [CHUNK_KEY_ENCODINGS] inverts [to_dict], where the class's own
    [from_dict] raises. *)
Theorem chunk_key_encoding_codec_round_trip parse_codecs (e : pyval) :
  conforms CHUNK_KEY_ENCODINGS e = true →
  (data ← ChunkKeyEncoding_to_dict e;
   decode_value parse_codecs CHUNK_KEY_ENCODINGS data) = Ok e.
Proof.
  intros (s & Hs & He)%conforms_chunk_key_encoding.
  apply elem_of_cons in Hs as [->|Hs];
    [|apply list_elem_of_singleton in Hs as ->];
    destruct He as [-> | ->]; reflexivity.
Qed.

Lemma chunk_key_encoding_codec_round_trip_witness :
  (data ← ChunkKeyEncoding_to_dict
            (v2_encoding (VStr "v2") (configuration_of (VStr "/")));
   decode_value (λ _, Raise TypeError) CHUNK_KEY_ENCODINGS data)
  = Ok (v2_encoding (VStr "v2") (configuration_of (VStr "/"))).
Proof. apply chunk_key_encoding_codec_round_trip. reflexivity. Defined.

(** The value codec validates what the constructors do not: decoding the
    mapping of a name and a separator against [CHUNK_KEY_ENCODINGS] builds
    the encoding when the name is ["default"] or ["v2"] and the separator
    is ["."] or ["/"]; another separator raises [TypeError], another name
    [KeyError] ([TypeError] when it is unhashable). *)
Theorem codec_validates_chunk_key_encoding parse_codecs
    (name separator : pyval) :
  decode_value parse_codecs CHUNK_KEY_ENCODINGS
    (encoding_document name separator)
  = if py_eq (VStr "default") name then
      if py_in separator [VStr "."; VStr "/"] then
        Ok (default_encoding name (configuration_of separator))
      else Raise TypeError
    else if py_eq (VStr "v2") name then
      if py_in separator [VStr "."; VStr "/"] then
        Ok (v2_encoding name (configuration_of separator))
      else Raise TypeError
    else Raise (if hashable name then KeyError else TypeError).
Proof.
  unfold CHUNK_KEY_ENCODINGS, DefaultChunkKeyEncoding_type,
    V2ChunkKeyEncoding_type, encoding_document.
  rewrite (decode_union_of_two_tagged parse_codecs _ _ _ _ _ _
             "name" "default" "v2") by done.
  change (dict_getitem _ "name") with (Ok name : result pyval).
  rewrite bind_Ok. unfold tags_getitem, tags_get.
  destruct (py_eq (VStr "default") name) eqn:Hd.
  - apply py_eq_VStr in Hd. subst name.
    destruct (py_in separator [VStr "."; VStr "/"]) eqn:Hs.
    + apply (py_in_strings _ ["."; "/"]) in Hs as (s & -> & Hs).
      apply elem_of_cons in Hs as [->|Hs];
        [|apply list_elem_of_singleton in Hs as ->]; reflexivity.
    + cbn. unfold py_in in Hs. cbn in Hs. rewrite Hs. reflexivity.
  - destruct (py_eq (VStr "v2") name) eqn:Hv.
    + apply py_eq_VStr in Hv. subst name.
      destruct (py_in separator [VStr "."; VStr "/"]) eqn:Hs.
      * apply (py_in_strings _ ["."; "/"]) in Hs as (s & -> & Hs).
        apply elem_of_cons in Hs as [->|Hs];
          [|apply list_elem_of_singleton in Hs as ->]; reflexivity.
      * cbn. unfold py_in in Hs. cbn in Hs. rewrite Hs. reflexivity.
    + destruct (hashable name); reflexivity.
Qed.

(** ** Tagged unions of any number of variants *)

Lemma tags_get_as_tags table tag :
  tags_get (as_tags table) (VStr tag) = dict_get table tag.
Proof.
  induction table as [|[t i] table IH]; [done|].
  change (tags_get (as_tags ((t, i) :: table)) (VStr tag))
    with (if String.eqb t tag then Some i
          else tags_get (as_tags table) (VStr tag)).
  rewrite IH. reflexivity.
Qed.

Lemma tags_get_not_string table v :
  (∀ s, v ≠ VStr s) → tags_get (as_tags table) v = None.
Proof.
  intros Hv. induction table as [|[t i] table IH]; [done|].
  change (tags_get (as_tags ((t, i) :: table)) v)
    with (if py_eq (VStr t) v then Some i else tags_get (as_tags table) v).
  destruct (py_eq (VStr t) v) eqn:Heq; [|done].
  apply py_eq_VStr in Heq. by destruct (Hv t).
Qed.

Lemma tags_set_as_tags table tag i :
  tags_set (as_tags table) (VStr tag) i = as_tags (dict_set table tag i).
Proof.
  induction table as [|[t j] table IH]; [done|].
  change (tags_set (as_tags ((t, j) :: table)) (VStr tag) i)
    with (if String.eqb t tag then (VStr t, i) :: as_tags table
          else (VStr t, j) :: tags_set (as_tags table) (VStr tag) i).
  rewrite IH. simpl. by destruct (String.eqb t tag).
Qed.

Lemma declared_tag_dataclass variant x tag :
  declared_tag variant = Some (x, tag) →
  is_dataclass_type variant = true ∧ is_NoneType variant = false.
Proof. by destruct variant. Qed.

Lemma tag_table_declared x variants tags position name table :
  Forall2 (declares x) variants tags →
  name = None ∨ name = Some x →
  tag_table variants position name (as_tags table)
  = Ok (match variants with [] => name | _ => Some x end,
        as_tags (string_tags table position tags)).
Proof.
  intros H. revert position name table.
  induction H as [|variant tag variants tags Hd _ IH];
    intros position name table Hname; [done|].
  apply declared_tag_Some in Hd as [m Hd].
  rewrite (tag_table_step _ _ _ _ _ _ _ _ Hd eq_refl).
  rewrite tags_set_as_tags.
  destruct Hname as [-> | ->].
  - rewrite IH by auto. by destruct variants.
  - rewrite String.eqb_refl. simpl. rewrite IH by auto. by destruct variants.
Qed.

Lemma string_tags_other table position tags tag :
  tag ∉ tags →
  dict_get (string_tags table position tags) tag = dict_get table tag.
Proof.
  revert table position. induction tags as [|t tags IH];
    intros table position Hin; [done|].
  apply not_elem_of_cons in Hin as [Hne Hin]. simpl.
  rewrite IH by done. rewrite dict_get_set.
  by destruct (String.eqb_spec t tag); [congruence|].
Qed.

Lemma string_tags_lookup table position tags i tag :
  NoDup tags → tags !! i = Some tag →
  dict_get (string_tags table position tags) tag = Some (position + i)%nat.
Proof.
  intros Hnd. revert table position i.
  induction Hnd as [|t tags Hin Hnd IH]; intros table position i; [done|].
  destruct i as [|i]; simpl.
  - intros [= ->]. rewrite string_tags_other by done.
    rewrite dict_get_set, String.eqb_refl. f_equal. lia.
  - intros Hi. rewrite (IH _ _ i Hi). f_equal. lia.
Qed.

Lemma string_tags_absent table position tags tag :
  tag ∉ tags → dict_get table tag = None →
  dict_get (string_tags table position tags) tag = None.
Proof. intros Hin Ht. by rewrite string_tags_other. Qed.

Lemma decode_variant_lookup (decode_value : ty → pyval → result pyval)
    variants i v :
  decode_variant decode_value variants i v
  = match variants !! i with
    | Some variant => decode_value variant v
    | None => Raise KeyError
    end.
Proof.
  revert i. induction variants as [|t variants IH]; intros [|i]; try done.
  apply IH.
Qed.

Lemma declared_variants x variants tags :
  Forall2 (declares x) variants tags →
  forallb is_dataclass_type variants = true ∧
  existsb is_NoneType variants = false.
Proof.
  induction 1 as [|variant tag variants tags Hd _ [IH1 IH2]]; [done|].
  apply declared_tag_dataclass in Hd as [H1 H2]. simpl.
  by rewrite H1, H2, IH1, IH2.
Qed.

Lemma forallb_dataclass_or_None variants :
  forallb is_dataclass_type variants = true →
  forallb (λ x, is_NoneType x || is_dataclass_type x) variants = true.
Proof.
  induction variants as [|t variants IH]; simpl; [done|].
  intros [-> H]%andb_true_iff. rewrite orb_true_r. by apply IH.
Qed.

Lemma forallb_dataclass_member variants :
  forallb is_dataclass_type variants = true →
  forallb union_member variants = true.
Proof.
  induction variants as [|t variants IH]; simpl; [done|].
  intros [Ht H]%andb_true_iff. rewrite (IH H), andb_true_r. by destruct t.
Qed.

(** The tagged-union branch for variants that all declare a string tag
    under one name. *)
Lemma decode_declared_union parse_codecs (variants : list ty)
    (x : string) (tags : list string) (items : list (string * pyval)) :
  variants ≠ [] →
  Forall2 (declares x) variants tags →
  NoDup tags →
  decode_value parse_codecs (TUnion variants) (VDict items)
  = match dict_get items x with
    | None => Raise KeyError
    | Some tag_value =>
        match tag_value with
        | VStr tag =>
            match list_find (String.eqb tag) tags with
            | Some (i, _) =>
                match variants !! i with
                | Some variant => decode_value parse_codecs variant (VDict items)
                | None => Raise KeyError
                end
            | None => Raise KeyError
            end
        | _ => Raise (if hashable tag_value then KeyError else TypeError)
        end
    end.
Proof.
  intros Hne Hd Hnd.
  destruct (declared_variants _ _ _ Hd) as [Hdata Hnone].
  change (decode_value parse_codecs (TUnion variants) (VDict items))
    with (if negb (forallb union_member variants) then Raise TypeError
          else if (length variants =? 2)%nat && existsb is_NoneType variants
          then
            decode_first_real (decode_value parse_codecs) variants
              (VDict items)
          else if forallb (λ x, is_NoneType x || is_dataclass_type x) variants
          then
            '(tag_field_name, tags_to_variants) ←
              tag_table variants 0 None [];
            match tag_field_name with
            | None => Raise AssertionError
            | Some tag_field_name =>
                tag_value ← dict_getitem items tag_field_name;
                tag_type ← tags_getitem tags_to_variants tag_value;
                decode_variant (decode_value parse_codecs) variants
                  tag_type (VDict items)
            end
          else Raise TypeError).
  rewrite (forallb_dataclass_member _ Hdata).
  change (negb true) with false. cbv iota.
  rewrite Hnone, andb_false_r, (forallb_dataclass_or_None _ Hdata).
  pose proof (tag_table_declared x variants tags 0 None [] Hd) as Ht.
  change (as_tags []) with ([] : list (pyval * nat)) in Ht.
  rewrite Ht by auto. clear Ht.
  rewrite bind_Ok. destruct variants as [|variant0 variants0]; [done|].
  set (variants := variant0 :: variants0) in *.
  cbv beta iota. unfold dict_getitem.
  destruct (dict_get items x) as [tag_value|]; [|done]. rewrite bind_Ok.
  unfold tags_getitem.
  assert ((∃ tag, tag_value = VStr tag) ∨ ∀ s, tag_value ≠ VStr s)
    as [[tag ->]|Hns] by (destruct tag_value; eauto).
  - change (hashable (VStr tag)) with true. cbv iota.
    rewrite tags_get_as_tags.
    destruct (list_find (String.eqb tag) tags) as [[i tag']|] eqn:Hfind.
    + apply list_find_Some in Hfind as (Hi & Heq%Is_true_true%String.eqb_eq & _).
      subst tag'. rewrite (string_tags_lookup _ _ _ i tag Hnd Hi).
      rewrite bind_Ok. apply decode_variant_lookup.
    + rewrite string_tags_absent; [done| |done].
      apply list_find_None in Hfind. rewrite Forall_forall in Hfind.
      intros Hin. apply (Hfind _ Hin). apply Is_true_true, String.eqb_refl.
  - rewrite tags_get_not_string by done.
    destruct (hashable tag_value) eqn:Hh;
      destruct tag_value; try done; by destruct (Hns s).
Qed.

(** A union of any number of dataclasses that declare pairwise different
    string tags under one field name [x]: a mapping whose [x] is the tag of
    the [i]-th variant is decoded as that variant; a mapping without [x]
    raises [KeyError]; a mapping whose [x] is no declared tag raises
    [KeyError] ([TypeError] when the value is unhashable). *)
Theorem tagged_union_of_any_arity parse_codecs (variants : list ty)
    (x : string) (tags : list string) (items : list (string * pyval)) :
  variants ≠ [] →
  Forall2 (declares x) variants tags →
  NoDup tags →
  (∀ i variant tag,
      variants !! i = Some variant → tags !! i = Some tag →
      dict_get items x = Some (VStr tag) →
      decode_value parse_codecs (TUnion variants) (VDict items)
      = decode_value parse_codecs variant (VDict items)) ∧
  (dict_get items x = None →
   decode_value parse_codecs (TUnion variants) (VDict items)
   = Raise KeyError) ∧
  (∀ tag_value,
      dict_get items x = Some tag_value →
      (∀ tag, tag ∈ tags → tag_value ≠ VStr tag) →
      decode_value parse_codecs (TUnion variants) (VDict items)
      = Raise (if hashable tag_value then KeyError else TypeError)).
Proof.
  intros Hne Hd Hnd.
  rewrite (decode_declared_union parse_codecs variants x tags items Hne Hd Hnd).
  split; [|split].
  - intros i variant tag Hv Ht ->.
    destruct (list_find (String.eqb tag) tags) as [[j tag']|] eqn:Hfind.
    + apply list_find_Some in Hfind
        as (Hj & Heq%Is_true_true%String.eqb_eq & _).
      subst tag'. rewrite (NoDup_lookup _ _ _ _ Hnd Hj Ht). by rewrite Hv.
    + apply list_find_None in Hfind. rewrite Forall_forall in Hfind.
      destruct (Hfind tag); [by eapply list_elem_of_lookup_2|].
      apply Is_true_true, String.eqb_refl.
  - by intros ->.
  - intros tag_value -> Htags. destruct tag_value as [| | |tag| | | | | |]; try done.
    destruct (list_find (String.eqb tag) tags) as [[j tag']|] eqn:Hfind;
      [|done].
    apply list_find_Some in Hfind as (Hj & Heq%Is_true_true%String.eqb_eq & _).
    subst tag'. destruct (Htags tag); [by eapply list_elem_of_lookup_2|done].
Qed.

Lemma tagged_union_of_any_arity_witness :
  decode_value (λ _, Raise TypeError) (TUnion [A_type; B_type; D_type])
    (VDict [("x", VStr "d")])
  = Ok (VObj "D" [("x", VStr "d")]).
Proof.
  refine (eq_trans
    (proj1 (tagged_union_of_any_arity (λ _, Raise TypeError)
              [A_type; B_type; D_type] "x" ["a"; "b"; "d"]
              [("x", VStr "d")] _ _ _) 2%nat D_type "d" _ _ _) _);
    try reflexivity; try done.
  - repeat constructor.
  - by apply NoDup_names.
Defined.

(** ** The chunk key methods on instances *)

(** On every instance that the constructors build, whatever the keyword
    arguments, the chunk key methods fail on [self.separator]:
    [encode_chunk_key] raises [AttributeError] for all coordinates, and
    [decode_chunk_key] for all keys but the key ["c"] of the default
    scheme, which is answered before the separator is read. *)
Theorem chunk_key_methods_need_separator (kwargs : list (string * pyval))
    (self : pyval) :
  (DefaultChunkKeyEncoding kwargs = Ok self →
   (∀ chunk_coords,
       DefaultChunkKeyEncoding_encode_chunk_key self chunk_coords
       = Raise AttributeError) ∧
   (∀ chunk_key,
       DefaultChunkKeyEncoding_decode_chunk_key self chunk_key
       = if String.eqb chunk_key "c" then Ok [] else Raise AttributeError)) ∧
  (V2ChunkKeyEncoding kwargs = Ok self →
   (∀ chunk_coords,
       V2ChunkKeyEncoding_encode_chunk_key self chunk_coords
       = Raise AttributeError) ∧
   (∀ chunk_key,
       V2ChunkKeyEncoding_decode_chunk_key self chunk_key
       = Raise AttributeError)).
Proof.
  split; intros H;
    [pose proof (constructed_encoding_has_no_separator kwargs self
                   (or_introl H)) as Hsep
    |pose proof (constructed_encoding_has_no_separator kwargs self
                   (or_intror H)) as Hsep];
    unfold DefaultChunkKeyEncoding_encode_chunk_key,
      DefaultChunkKeyEncoding_encode_chunk_key_with,
      V2ChunkKeyEncoding_encode_chunk_key,
      V2ChunkKeyEncoding_encode_chunk_key_with,
      DefaultChunkKeyEncoding_decode_chunk_key,
      DefaultChunkKeyEncoding_decode_chunk_key_with,
      V2ChunkKeyEncoding_decode_chunk_key,
      V2ChunkKeyEncoding_decode_chunk_key_with;
    rewrite Hsep; split; done.
Qed.

Lemma chunk_key_methods_need_separator_witness :
  DefaultChunkKeyEncoding_encode_chunk_key
    (default_encoding (VStr "default") default_configuration) [1; 2]
  = Raise AttributeError.
Proof.
  refine (proj1 (proj1 (chunk_key_methods_need_separator [] _) _) [1; 2]).
  reflexivity.
Defined.

(** ** The error classes *)

(** Constructing an error formats the message of its class with the
    arguments: with fewer arguments than the message has fields the
    construction itself raises [IndexError]; otherwise it succeeds and the
    arguments beyond those fields are dropped. *)
Theorem error_message_arguments (cls : Errors.error_class)
    (args : list pyval) :
  (length args < fields_of_message cls)%nat ∧
  Errors._BaseZarrError___init__ cls args = Errors.RaisesIndexError
  ∨
  (fields_of_message cls ≤ length args)%nat ∧
  ∃ message,
    Errors._BaseZarrError___init__ cls args = Errors.Returns message ∧
    Errors._BaseZarrError___init__ cls (take (fields_of_message cls) args)
    = Errors.Returns message.
Proof.
  destruct cls;
    try (right; split; [simpl; lia|]; by eexists);
    destruct args as [|a [|b rest]];
    try (left; split; [simpl; lia|reflexivity]);
    (right; split; [simpl; lia|]; eexists; split; reflexivity).
Qed.

(** The messages.  The store and the path of the three [Contains...]
    errors appear as their [repr]; the two values of the validation errors
    as their [str]; [MetadataValidationError] inherits the empty message
    of the base class, so its arguments never reach the message. *)
Theorem error_messages (store path expected got : pyval)
    (rest : list pyval) :
  Errors._BaseZarrError___init__ Errors.ContainsGroupError
    (store :: path :: rest)
  = Errors.Returns ("A group exists in store " +:+ py_repr store
                    +:+ " at path " +:+ py_repr path +:+ ".") ∧
  Errors._BaseZarrError___init__ Errors.ContainsArrayError
    (store :: path :: rest)
  = Errors.Returns ("An array exists in store " +:+ py_repr store
                    +:+ " at path " +:+ py_repr path +:+ ".") ∧
  Errors._BaseZarrError___init__ Errors.ContainsArrayAndGroupError
    (store :: path :: rest)
  = Errors.Returns
      ("Array and group metadata documents (.zarray and .zgroup) were both found in store "
       +:+ py_repr store +:+ " at path " +:+ py_repr path
       +:+ ".Only one of these files may be present in a given directory / prefix. Remove the .zarray file, or the .zgroup file, or both.") ∧
  Errors._BaseZarrError___init__ Errors.NodeTypeValidationError
    (expected :: got :: rest)
  = Errors.Returns ("Invalid value for 'node_type'. Expected '"
                    +:+ Errors.str_of expected +:+ "'. Got '"
                    +:+ Errors.str_of got +:+ "'.") ∧
  Errors._BaseZarrError___init__ Errors.ZarrVersionValidationError
    (expected :: got :: rest)
  = Errors.Returns ("Invalid value for 'zarr_format'. Expected '"
                    +:+ Errors.str_of expected +:+ "'. Got '"
                    +:+ Errors.str_of got +:+ "'.") ∧
  Errors._BaseZarrError___init__ Errors.MetadataValidationError rest
  = Errors.Returns "" ∧
  Errors._BaseZarrError___init__ Errors._BaseZarrError rest
  = Errors.Returns "".
Proof. repeat split. Qed.

(** Which handler catches which error: a class of the module is a
    subclass of another exactly when they are the same, the other is the
    base class, or the other is [MetadataValidationError] and the class one
    of the two validation errors.  The three [Contains...] errors are
    unrelated to each other. *)
Theorem error_class_hierarchy (cls cls' : Errors.error_class) :
  Errors.issubclass cls cls' = true ↔
  cls = cls' ∨ cls' = Errors._BaseZarrError ∨
  (cls' = Errors.MetadataValidationError ∧
   cls ∈ [Errors.ZarrVersionValidationError; Errors.NodeTypeValidationError]).
Proof.
  unfold Errors.issubclass. rewrite bool_decide_eq_true.
  destruct cls, cls'; cbn [Errors.mro Errors.mro_from Errors.base];
    set_unfold; split; intros H; try tauto;
    try (by left); try (by right; left);
    try (by right; right; split; [|left]);
    try (by right; right; split; [|right; left]);
    exfalso; intuition congruence.
Qed.

(** ** The synchronous API *)

Import Synchronous.

Lemma rest_kwargs_set names (kw : list (string * pyval)) k v :
  k ∉ names →
  rest_kwargs names (dict_set kw k v) = dict_set (rest_kwargs names kw) k v.
Proof.
  intros Hk. unfold rest_kwargs.
  induction kw as [|[k0 v0] kw IH]; simpl.
  - by rewrite bool_decide_eq_false_2.
  - destruct (String.eqb_spec k0 k) as [->|Hne]; simpl.
    + rewrite bool_decide_eq_false_2 by done. simpl.
      by rewrite String.eqb_refl.
    + destruct (bool_decide (k0 ∈ names)); simpl; [done|].
      destruct (String.eqb_spec k0 k); [done|]. by rewrite IH.
Qed.

Lemma rest_kwargs_set_named names (kw : list (string * pyval)) k v :
  k ∈ names → rest_kwargs names (dict_set kw k v) = rest_kwargs names kw.
Proof.
  intros Hk. unfold rest_kwargs.
  induction kw as [|[k0 v0] kw IH]; simpl.
  - by rewrite bool_decide_eq_true_2.
  - destruct (String.eqb_spec k0 k) as [->|Hne]; simpl.
    + by rewrite bool_decide_eq_true_2.
    + by rewrite IH.
Qed.

Lemma dict_get_rest_kwargs names (kw : list (string * pyval)) k :
  k ∉ names → dict_get (rest_kwargs names kw) k = dict_get kw k.
Proof.
  intros Hk. unfold rest_kwargs.
  induction kw as [|[k0 v0] kw IH]; simpl; [done|].
  destruct (bool_decide (k0 ∈ names)) eqn:Hk0; simpl.
  - apply bool_decide_eq_true in Hk0.
    destruct (String.eqb_spec k0 k); [congruence|done].
  - destruct (String.eqb_spec k0 k); [done|exact IH].
Qed.

Lemma parameter_set kw k v name default :
  k ≠ name →
  parameter (dict_set kw k v) name default = parameter kw name default.
Proof.
  intros Hne. unfold parameter. rewrite dict_get_set.
  by destruct (String.eqb_spec k name).
Qed.

(** One round of the loop of [open], seen through lookups, keys and
    single updates. *)
Lemma dict_get_open_round kwargs k k' :
  dict_get (open_round kwargs k) k'
  = if String.eqb k k' then _maybe_tuple_to_tuple <$> dict_get kwargs k'
    else dict_get kwargs k'.
Proof.
  unfold open_round.
  destruct (String.eqb_spec k k') as [<-|Hne].
  - destruct (dict_get kwargs k) as [v|] eqn:Hv; simpl; [|by rewrite Hv].
    destruct v; simpl; rewrite ?dict_get_set, ?String.eqb_refl, ?Hv; done.
  - destruct (default VNone (dict_get kwargs k));
      rewrite ?dict_get_set; try done;
      by destruct (String.eqb_spec k k').
Qed.

Lemma open_round_keys kwargs k : (open_round kwargs k).*1 = kwargs.*1.
Proof.
  unfold open_round.
  destruct (dict_get kwargs k) as [v|] eqn:Hv; simpl; [|done].
  destruct v; try done; apply dict_set_keys; congruence.
Qed.

Lemma open_round_int kwargs k v :
  isinstance_int v = true →
  open_round (dict_set kwargs k v) k = dict_set kwargs k (VTuple [v]) ∧
  open_round (dict_set kwargs k (VTuple [v])) k
  = dict_set kwargs k (VTuple [v]).
Proof.
  intros Hv. unfold open_round. rewrite !dict_get_set, String.eqb_refl.
  simpl. rewrite !dict_set_set. by destruct v.
Qed.

Lemma open_round_other kwargs k k' w :
  k ≠ k' →
  open_round (dict_set kwargs k w) k' = dict_set (open_round kwargs k') k w.
Proof.
  intros Hne. unfold open_round. rewrite dict_get_set.
  destruct (String.eqb_spec k k'); [done|].
  destruct (dict_get kwargs k') as [v|] eqn:Hv; simpl; [|done].
  destruct v; try done; apply dict_set_comm; congruence.
Qed.

(** What [open] hands to [async_api.open]: the five named parameters,
    each with the caller's value or, when the caller gives none, [None];
    then the caller's other keywords in the caller's order, none added and
    none removed, each with the caller's value, but that under [shape],
    [chunks] and [chunk_shape] an [int] has become a 1-tuple. *)
Theorem open_passes_keywords_through (kw : list (string * pyval)) :
  let named := ["store"; "mode"; "zarr_version"; "zarr_format"; "path"] in
  (open_arguments kw).*1 = named ++ (rest_kwargs named kw).*1 ∧
  ∀ k,
    dict_get (open_arguments kw) k
    = if bool_decide (k ∈ named) then Some (parameter kw k VNone)
      else if bool_decide (k ∈ ["shape"; "chunks"; "chunk_shape"])
      then _maybe_tuple_to_tuple <$> dict_get kw k
      else dict_get kw k.
Proof.
  intros named. unfold open_arguments. fold named.
  set (kwargs := rest_kwargs named kw). split.
  - rewrite fmap_app. f_equal. cbn [fold_left].
    by rewrite !open_round_keys.
  - intros k. destruct (bool_decide (k ∈ named)) eqn:Hk.
    { apply bool_decide_eq_true in Hk. unfold named in Hk.
      repeat (apply elem_of_cons in Hk as [->|Hk]);
        [..|by apply elem_of_nil in Hk]; reflexivity. }
    apply bool_decide_eq_false in Hk.
    rewrite dict_get_app_None by (by apply dict_get_None_names).
    cbn [fold_left]. rewrite !dict_get_open_round.
    unfold kwargs. rewrite !dict_get_rest_kwargs by done.
    destruct (String.eqb_spec "chunk_shape" k) as [<-|H1]; [done|].
    destruct (String.eqb_spec "chunks" k) as [<-|H2]; [done|].
    destruct (String.eqb_spec "shape" k) as [<-|H3]; [done|].
    rewrite bool_decide_eq_false_2; [done|].
    set_unfold. intuition congruence.
Qed.

Section open_api.
Context (async_api_open : list (string * pyval) → result pyval).
Context (isinstance_AsyncArray : pyval → bool).
Context (Array Group : pyval → result pyval).

Local Abbreviation open :=
  (Synchronous.open async_api_open isinstance_AsyncArray Array Group).

(** [open(..., shape=n)] is [open(..., shape=(n,))], and so for [chunks]
    and [chunk_shape], for every [int] (and [bool]) [n], whatever
    [async_api.open] does with its arguments. *)
Theorem open_int_is_one_tuple (kw : list (string * pyval)) (k : string)
    (v : pyval) :
  k ∈ ["shape"; "chunks"; "chunk_shape"] →
  isinstance_int v = true →
  open (dict_set kw k v) = open (dict_set kw k (VTuple [v])).
Proof.
  intros Hk Hv. unfold Synchronous.open. f_equal. f_equal.
  unfold open_arguments.
  assert (k ∉ ["store"; "mode"; "zarr_version"; "zarr_format"; "path"])
    as Hnamed.
  { repeat (apply elem_of_cons in Hk as [->|Hk]);
      [..|by apply elem_of_nil in Hk];
      apply (bool_decide_eq_false_1 _); reflexivity. }
  rewrite !rest_kwargs_set by done.
  rewrite !(parameter_set kw k)
    by (intros ->; apply Hnamed; set_unfold; tauto).
  f_equal.
  set (kwargs := rest_kwargs _ kw).
  destruct (open_round_int kwargs k v Hv) as [H1 H2].
  repeat (apply elem_of_cons in Hk as [->|Hk]);
    [..|by apply elem_of_nil in Hk]; cbn [fold_left].
  - by rewrite H1, H2.
  - rewrite !(open_round_other _ "chunks" "shape") by done.
    destruct (open_round_int (open_round kwargs "shape") "chunks" v Hv)
      as [-> ->]. done.
  - rewrite !(open_round_other _ "chunk_shape" "shape") by done.
    rewrite !(open_round_other _ "chunk_shape" "chunks") by done.
    destruct (open_round_int
                (open_round (open_round kwargs "shape") "chunks")
                "chunk_shape" v Hv) as [-> ->]. done.
Qed.

End open_api.

Section create_api.
Context (async_api_create : pyval → list (string * pyval) → result pyval).
Context (Array : pyval → result pyval).

Local Abbreviation create := (Synchronous.create async_api_create Array).


End create_api.

Lemma open_int_is_one_tuple_witness :
  Synchronous.open echo_open (λ _, false) (wrap "Array") (wrap "Group")
    [("store", VStr "data.zarr"); ("shape", VInt 5)]
  = Synchronous.open echo_open (λ _, false) (wrap "Array") (wrap "Group")
      [("store", VStr "data.zarr"); ("shape", VTuple [VInt 5])].
Proof.
  apply (open_int_is_one_tuple echo_open (λ _, false) (wrap "Array")
           (wrap "Group")
           [("store", VStr "data.zarr"); ("shape", VNone)] "shape" (VInt 5));
    [by left|reflexivity].
Defined.

